(** * FullStack-Quiz: attempt lifecycle, scoring and ranking

    A shallow embedding of [backend/quiz.py]: the violation endpoint
    ([report_violation]), the submit endpoint ([submit_quiz]), the rank query
    ([compute_rank]) and the leaderboard ([leaderboard]), over an explicit
    model of the MongoDB collections they read and write.

    Conventions of the embedding.
    - A collection is the list of its documents in natural (insertion) order;
      the [_id] of a document is its position, so [insert_one] appends,
      [find_one] returns the first match together with its position, and
      [update_one {"_id": i}] rewrites position [i].  No operation of the
      program deletes a document.
    - Python [int] is [Z]; [str] is [string]; [Dict[str, str]] is
      [gmap string string].
    - A document field that the code reads with [.get(k, default)] is an
      [option] (absent or present).  The [status] field is read both with
      [.get("status")] against [None] and with [["status"]], so it keeps the
      three cases absent / null / value apart.
    - [datetime.utcnow().isoformat()] is the argument [now] of an operation.
    - The requests of one run are handled one after the other. *)

From Stdlib Require Import ZArith QArith String Ascii List Permutation Sorted.
From stdpp Require Import base option gmap strings list relations.
Import ListNotations.

Local Open Scope string_scope.
Local Open Scope Z_scope.

(** ** Document fields *)

Inductive field (A : Type) : Type :=
| Absent : field A
| Null : field A
| Val : A → field A.
Arguments Absent {A}.
Arguments Null {A}.
Arguments Val {A} _.

(** [doc.get(k)]: an absent key and a null value both read as [None]. *)
Definition field_get {A} (f : field A) : option A :=
  match f with
  | Val a => Some a
  | Absent | Null => None
  end.

(** ** Results of an endpoint *)

Inductive result (A : Type) : Type :=
| Ok : A → result A
| HTTPException : Z → string → result A
| KeyError : string → result A
| TypeError : result A.
Arguments Ok {A} _.
Arguments HTTPException {A} _ _.
Arguments KeyError {A} _.
Arguments TypeError {A}.

(** ** [datetime] and [timedelta]

    A [datetime] is the count of microseconds of its wall-clock fields since
    0001-01-01T00:00:00 together with its UTC offset, [None] for a naive
    value.  A [timedelta] is a count of microseconds. *)

Module Datetime.

Record t : Type := mk {
  ticks : Z;
  utcoffset : option Z
}.

Definition us_per_second : Z := 1000000.
Definition seconds_per_day : Z := 86400.

(** [d1 - d2]: [TypeError] ([None]) when exactly one operand is naive. *)
Definition sub (d1 d2 : t) : option Z :=
  match utcoffset d1, utcoffset d2 with
  | None, None => Some (ticks d1 - ticks d2)
  | Some o1, Some o2 => Some ((ticks d1 - o1) - (ticks d2 - o2))
  | _, _ => None
  end.

(** [timedelta.seconds]: the seconds field of the normalised
    (days, seconds, microseconds) triple, [0 <= seconds < 86400]. *)
Definition seconds (delta : Z) : Z :=
  (delta `div` us_per_second) `mod` seconds_per_day.

(** [timedelta.total_seconds()], rounded down to whole seconds. *)
Definition whole_seconds (delta : Z) : Z := delta `div` us_per_second.

(** *** The format written by [datetime.isoformat()] for a naive value:
    [YYYY-MM-DDTHH:MM:SS] or [YYYY-MM-DDTHH:MM:SS.ffffff].

    [fromisoformat_naive] reads exactly these two layouts (any separator
    character between date and time, as Python allows) and returns what
    [datetime.fromisoformat] returns on them; other layouts that Python may
    accept are rejected here. *)

Definition digit (c : ascii) : option Z :=
  let n := Z.of_N (N_of_ascii c) in
  if (48 <=? n) && (n <=? 57) then Some (n - 48) else None.

Fixpoint digits_from (acc : Z) (s : string) : option Z :=
  match s with
  | EmptyString => Some acc
  | String c s' =>
      match digit c with
      | Some d => digits_from (10 * acc + d) s'
      | None => None
      end
  end.

Definition number (s : string) : option Z :=
  match s with
  | EmptyString => None
  | _ => digits_from 0 s
  end.

Definition is_leap (y : Z) : bool :=
  (y `mod` 4 =? 0) && (negb (y `mod` 100 =? 0) || (y `mod` 400 =? 0)).

Definition days_before_year (y : Z) : Z :=
  let y1 := y - 1 in
  y1 * 365 + y1 `div` 4 - y1 `div` 100 + y1 `div` 400.

Definition days_in_month (y m : Z) : Z :=
  if m =? 2 then (if is_leap y then 29 else 28)
  else if (m =? 4) || (m =? 6) || (m =? 9) || (m =? 11) then 30
  else 31.

Definition days_before_month (y m : Z) : Z :=
  nth (Z.to_nat m) [0; 0; 31; 59; 90; 120; 151; 181; 212; 243; 273; 304; 334] 0
  + (if (2 <? m) && is_leap y then 1 else 0).

Definition ymd2ord (y m d : Z) : Z :=
  days_before_year y + days_before_month y m + d.

Definition char_is (c : ascii) (o : option ascii) : bool :=
  match o with
  | Some c' => Ascii.eqb c c'
  | None => false
  end.

Definition fromisoformat_naive (s : string) : option t :=
  let len := String.length s in
  if negb (Nat.eqb len 19 || Nat.eqb len 26) then None
  else if negb (char_is "-"%char (String.get 4 s) && char_is "-"%char (String.get 7 s)
                && char_is ":"%char (String.get 13 s) && char_is ":"%char (String.get 16 s))
  then None
  else
    y ← number (String.substring 0 4 s);
    m ← number (String.substring 5 2 s);
    d ← number (String.substring 8 2 s);
    hh ← number (String.substring 11 2 s);
    mm ← number (String.substring 14 2 s);
    ss ← number (String.substring 17 2 s);
    us ← (if Nat.eqb len 19 then Some 0
          else if char_is "."%char (String.get 19 s)
               then number (String.substring 20 6 s) else None);
    if (1 <=? y) && (1 <=? m) && (m <=? 12) && (1 <=? d) && (d <=? days_in_month y m)
       && (hh <=? 23) && (mm <=? 59) && (ss <=? 59)
    then Some (mk ((((ymd2ord y m d * 24 + hh) * 60 + mm) * 60 + ss) * us_per_second + us)
                  None)
    else None.

End Datetime.

(** ** Documents of the collections *)

(** A document of [quiz_attempts]. *)
Module Attempt.
Record t : Type := mk {
  student_university_number : string;
  quiz_id : string;
  answers : gmap string string;
  score : option Z;
  violation_count : option Z;
  violations : option (list string);
  status : field string;
  started_at : option string;
  submitted_at : option string
}.
End Attempt.

(** A document of [questions]; [_id] is [str(q["_id"])]. *)
Module Question.
Record t : Type := mk {
  _id : string;
  quiz_id : string;
  correct_option : string
}.
End Question.

(** A document of [students]. *)
Module Student.
Record t : Type := mk {
  university_number : string;
  name : string
}.
End Student.

(** Request bodies ([models.py]). *)
Module QuizSubmit.
Record t : Type := mk {
  answers : gmap string string;
  started_at : string;
  force_fail : option bool
}.
End QuizSubmit.

Module ViolationReport.
Record t : Type := mk {
  violation_type : string
}.
End ViolationReport.

(** Response bodies. *)
Module ViolationResponse.
Record t : Type := mk {
  violation_count : Z;
  status : option string
}.
End ViolationResponse.

Module SubmitResponse.
Record t : Type := mk {
  score : Z;
  status : string;
  violation_count : Z;
  rank : Z;
  submitted_at : string
}.
End SubmitResponse.

(** An entry of the leaderboard; [rank] is absent until the entries have been
    sorted. *)
Module Entry.
Record t : Type := mk {
  name : string;
  university_number : string;
  score : Z;
  status : string;
  violation_count : Z;
  time_taken_seconds : Z;
  rank : option Z
}.
End Entry.

(** ** The document store *)

Definition find_one {A} (P : A → Prop) `{!∀ x, Decision (P x)}
    (col : list A) : option (nat * A) :=
  list_find P col.

Definition find {A} (P : A → Prop) `{!∀ x, Decision (P x)}
    (col : list A) : list A :=
  filter P col.

(** [find_one({"_id": _id})]. *)
Definition find_by_id {A} (_id : nat) (col : list A) : option A := col !! _id.

Definition insert_one {A} (col : list A) (doc : A) : list A := (col ++ [doc])%list.

Definition update_one {A} (_id : nat) (update : A → A) (col : list A) : list A :=
  alter update _id col.

(** [x in ("IN_PROGRESS", None)] and [x in ("PASSED", "FAILED")] for
    [x = doc.get("status")]. *)
Definition in_progress_or_none (x : option string) : bool :=
  match x with
  | None => true
  | Some s => String.eqb s "IN_PROGRESS"
  end.

Definition passed_or_failed (x : option string) : bool :=
  match x with
  | None => false
  | Some s => String.eqb s "PASSED" || String.eqb s "FAILED"
  end.

(** The filter [{"student_university_number": univ, "quiz_id": quiz_id}]. *)
Definition of_student_and_quiz (univ quiz_id : string) (a : Attempt.t) : Prop :=
  Attempt.student_university_number a = univ ∧ Attempt.quiz_id a = quiz_id.

(** The filter [{"quiz_id": quiz_id, "status": {"$in": ["PASSED", "FAILED"]}}]. *)
Definition terminal_of_quiz (quiz_id : string) (a : Attempt.t) : Prop :=
  Attempt.quiz_id a = quiz_id
  ∧ passed_or_failed (field_get (Attempt.status a)) = true.

Definition questions_of_quiz (quiz_id : string) (q : Question.t) : Prop :=
  Question.quiz_id q = quiz_id.

Definition with_university_number (univ : string) (s : Student.t) : Prop :=
  Student.university_number s = univ.

#[global] Instance of_student_and_quiz_dec univ quiz_id a :
  Decision (of_student_and_quiz univ quiz_id a).
Proof. unfold of_student_and_quiz. apply _. Defined.

#[global] Instance terminal_of_quiz_dec quiz_id a :
  Decision (terminal_of_quiz quiz_id a).
Proof. unfold terminal_of_quiz. apply _. Defined.

#[global] Instance questions_of_quiz_dec quiz_id q :
  Decision (questions_of_quiz quiz_id q).
Proof. unfold questions_of_quiz. apply _. Defined.

#[global] Instance with_university_number_dec univ s :
  Decision (with_university_number univ s).
Proof. unfold with_university_number. apply _. Defined.

(** ** [str.upper()] on ASCII text

    Option labels are ASCII letters.  On an ASCII string [upper] is Python's
    [str.upper()]; characters outside ASCII, which Python maps by the Unicode
    case tables, are left as they are.  A statement that depends on how two
    labels compare is therefore made for ASCII text, under the hypotheses
    [is_ascii] and [ascii_labels] defined with the notions below. *)

Definition upper_char (c : ascii) : ascii :=
  let n := N_of_ascii c in
  if (N.leb 97 n && N.leb n 122)%bool then ascii_of_N (n - 32) else c.

Fixpoint upper (s : string) : string :=
  match s with
  | EmptyString => EmptyString
  | String c s' => String (upper_char c) (upper s')
  end.

(** ** Violations: [report_violation] *)

(** The [$set]/[$push] document built by [report_violation]. *)
Definition violation_update (new_count : Z) (violation_type : string)
    (escalate : option string) (a : Attempt.t) : Attempt.t :=
  {| Attempt.student_university_number := Attempt.student_university_number a;
     Attempt.quiz_id := Attempt.quiz_id a;
     Attempt.answers := Attempt.answers a;
     Attempt.score := Attempt.score a;
     Attempt.violation_count := Some new_count;
     Attempt.violations :=
       Some (default [] (Attempt.violations a) ++ [violation_type])%list;
     Attempt.status :=
       match escalate with
       | Some _ => Val "FAILED"
       | None => Attempt.status a
       end;
     Attempt.started_at := Attempt.started_at a;
     Attempt.submitted_at :=
       match escalate with
       | Some now => Some now
       | None => Attempt.submitted_at a
       end |}.

Definition report_violation (now : string) (attempts_col : list Attempt.t)
    (quiz_id : string) (payload : ViolationReport.t) (univ : string)
    : list Attempt.t * result ViolationResponse.t :=
  let attempt := find_one (of_student_and_quiz univ quiz_id) attempts_col in
  if String.eqb (ViolationReport.violation_type payload) "__init__" then
    let attempts_col' :=
      match attempt with
      | None =>
          insert_one attempts_col
            {| Attempt.student_university_number := univ;
               Attempt.quiz_id := quiz_id;
               Attempt.answers := ∅;
               Attempt.score := Some 0;
               Attempt.violation_count := Some 0;
               Attempt.violations := Some [];
               Attempt.status := Val "IN_PROGRESS";
               Attempt.started_at := Some now;
               Attempt.submitted_at := None |}
      | Some _ => attempts_col
      end in
    (attempts_col', Ok (ViolationResponse.mk 0 (Some "IN_PROGRESS")))
  else
    match attempt with
    | None => (attempts_col, HTTPException 404 "No active attempt found")
    | Some (_id, attempt) =>
        if negb (in_progress_or_none (field_get (Attempt.status attempt))) then
          (attempts_col, HTTPException 404 "No active attempt found")
        else
          let new_count := default 0 (Attempt.violation_count attempt) + 1 in
          let escalate :=
            if String.eqb (ViolationReport.violation_type payload) "tab_switch"
               || (1 <? new_count)
            then Some now else None in
          let attempts_col' :=
            update_one _id
              (violation_update new_count
                 (ViolationReport.violation_type payload) escalate)
              attempts_col in
          match find_by_id _id attempts_col' with
          | None => (attempts_col', TypeError)
          | Some updated =>
              match Attempt.violation_count updated, Attempt.status updated with
              | None, _ => (attempts_col', KeyError "violation_count")
              | Some _, Absent => (attempts_col', KeyError "status")
              | Some c, Null => (attempts_col', Ok (ViolationResponse.mk c None))
              | Some c, Val s =>
                  (attempts_col', Ok (ViolationResponse.mk c (Some s)))
              end
          end
    end.

(** ** Ranking and submission *)

Section Quiz.

(** [datetime.fromisoformat]; [None] when it raises [ValueError]. *)
Variable fromisoformat : string → option Datetime.t.

(** The expression
    [(datetime.fromisoformat(a["submitted_at"]) - datetime.fromisoformat(a["started_at"])).seconds];
    [None] when evaluating it raises (a missing or null timestamp, a string
    that does not parse, a naive operand against an aware one). *)
Definition time_taken (a : Attempt.t) : option Z :=
  submitted ← Attempt.submitted_at a ≫= fromisoformat;
  started ← Attempt.started_at a ≫= fromisoformat;
  Datetime.seconds <$> Datetime.sub submitted started.

(** One iteration of the loop of [compute_rank]. *)
Definition compute_rank_step (univ : string) (rank : Z) (a : Attempt.t) : Z :=
  if String.eqb (Attempt.student_university_number a) univ then rank
  else if 0 <? default 0 (Attempt.score a) then
    match time_taken a with
    | Some a_time => rank + 1
    | None => rank + 1
    end
  else rank.

Definition compute_rank (attempts_col : list Attempt.t) (quiz_id univ : string) : Z :=
  fold_left (compute_rank_step univ)
    (find (terminal_of_quiz quiz_id) attempts_col) 1.

(** The scoring loop of [submit_quiz]: [correct] after the iteration over
    [all_questions]. *)
Definition count_correct (answers : gmap string string)
    (all_questions : list Question.t) : Z :=
  fold_left
    (λ correct q,
       if String.eqb (upper (default "" (answers !! Question._id q)))
                     (upper (Question.correct_option q))
       then correct + 1 else correct)
    all_questions 0.

(** [score >= total * 0.5 and violation_count <= 1].  Python compares an
    [int] with a [float] by exact value, and [total * 0.5] is exact for a
    list length, so the comparison is the one of the rationals. *)
Definition pass_policy (score total violation_count : Z) : bool :=
  Qle_bool (inject_Z total * (1 # 2)) (inject_Z score)
  && (violation_count <=? 1).

(** The [$set] of [attempt_doc] on an existing document: every key of
    [attempt_doc] is overwritten, [violations] is kept. *)
Definition submit_update (attempt_doc : Attempt.t) (a : Attempt.t) : Attempt.t :=
  {| Attempt.student_university_number := Attempt.student_university_number attempt_doc;
     Attempt.quiz_id := Attempt.quiz_id attempt_doc;
     Attempt.answers := Attempt.answers attempt_doc;
     Attempt.score := Attempt.score attempt_doc;
     Attempt.violation_count := Attempt.violation_count attempt_doc;
     Attempt.violations := Attempt.violations a;
     Attempt.status := Attempt.status attempt_doc;
     Attempt.started_at := Attempt.started_at attempt_doc;
     Attempt.submitted_at := Attempt.submitted_at attempt_doc |}.

(** [submit_quiz].  The notification e-mail that follows the rank computation
    is sent inside a [try] whose handler discards every exception and its
    result is not used, so it is left out. *)
Definition submit_quiz (now : string) (attempts_col : list Attempt.t)
    (questions_col : list Question.t)
    (quiz_id : string) (payload : QuizSubmit.t) (univ : string)
    : list Attempt.t * result SubmitResponse.t :=
  let existing := find_one (of_student_and_quiz univ quiz_id) attempts_col in
  if match existing with
     | Some (_, existing) => passed_or_failed (field_get (Attempt.status existing))
     | None => false
     end
  then (attempts_col, HTTPException 400 "Quiz already submitted")
  else
    let violation_count :=
      match existing with
      | Some (_, existing) => default 0 (Attempt.violation_count existing)
      | None => 0
      end in
    let force_fail := default false (QuizSubmit.force_fail payload) in
    let '(score, status) :=
      if force_fail then (0, "FAILED")
      else
        let all_questions := find (questions_of_quiz quiz_id) questions_col in
        let correct := count_correct (QuizSubmit.answers payload) all_questions in
        let score := correct in
        let total := Z.of_nat (length all_questions) in
        (score, if pass_policy score total violation_count
                then "PASSED" else "FAILED") in
    let submitted_at := now in
    let attempt_doc :=
      {| Attempt.student_university_number := univ;
         Attempt.quiz_id := quiz_id;
         Attempt.answers := QuizSubmit.answers payload;
         Attempt.score := Some (if negb force_fail then score else 0);
         Attempt.violation_count := Some violation_count;
         Attempt.violations := None;
         Attempt.status := Val status;
         Attempt.started_at := Some (QuizSubmit.started_at payload);
         Attempt.submitted_at := Some submitted_at |} in
    let attempts_col' :=
      match existing with
      | Some (_id, _) => update_one _id (submit_update attempt_doc) attempts_col
      | None => insert_one attempts_col attempt_doc
      end in
    let rank := compute_rank attempts_col' quiz_id univ in
    (attempts_col',
     Ok {| SubmitResponse.score := if negb force_fail then score else 0;
           SubmitResponse.status := status;
           SubmitResponse.violation_count := violation_count;
           SubmitResponse.rank := rank;
           SubmitResponse.submitted_at := submitted_at |}).

(** ** Leaderboard *)

(** [list.sort(key=...)] is a stable sort that compares keys with [<].  The
    result of a stable sort is determined by the list and the key
    ([stable_sort_unique] below), so the stable insertion sort returns the
    list that Python's sort returns. *)
Fixpoint insert_by {A K} (lt : K → K → bool) (key : A → K) (x : A) (l : list A)
    : list A :=
  match l with
  | [] => [x]
  | y :: l' =>
      if lt (key y) (key x) then y :: insert_by lt key x l' else x :: y :: l'
  end.

Definition sort_by {A K} (lt : K → K → bool) (key : A → K) (l : list A) : list A :=
  foldr (insert_by lt key) [] l.

(** [<] on the tuples [(-score, time_taken_seconds)]. *)
Definition tuple_lt (k1 k2 : Z * Z) : bool :=
  (k1.1 <? k2.1) || ((k1.1 =? k2.1) && (k1.2 <? k2.2)).

Definition sort_key (x : Entry.t) : Z * Z :=
  (- Entry.score x, Entry.time_taken_seconds x).

(** The dictionary appended to [attempts] for the attempt [a].  Every attempt
    that the query of [leaderboard] returns has a status string, so
    [a.get("status", "—")] is that string. *)
Definition entry_of (students_col : list Student.t) (a : Attempt.t) : Entry.t :=
  let student :=
    find_one (with_university_number (Attempt.student_university_number a))
      students_col in
  let time_taken :=
    match time_taken a with
    | Some s => s
    | None => 99999
    end in
  {| Entry.name :=
       match student with
       | Some (_, student) => Student.name student
       | None => "Unknown"
       end;
     Entry.university_number := Attempt.student_university_number a;
     Entry.score := default 0 (Attempt.score a);
     Entry.status := default "—" (field_get (Attempt.status a));
     Entry.violation_count := default 0 (Attempt.violation_count a);
     Entry.time_taken_seconds := time_taken;
     Entry.rank := None |}.

Definition set_rank (i : nat) (a : Entry.t) : Entry.t :=
  {| Entry.name := Entry.name a;
     Entry.university_number := Entry.university_number a;
     Entry.score := Entry.score a;
     Entry.status := Entry.status a;
     Entry.violation_count := Entry.violation_count a;
     Entry.time_taken_seconds := Entry.time_taken_seconds a;
     Entry.rank := Some (Z.of_nat i + 1) |}.

Definition leaderboard (attempts_col : list Attempt.t)
    (students_col : list Student.t) (quiz_id : string) : list Entry.t :=
  let attempts :=
    map (entry_of students_col) (find (terminal_of_quiz quiz_id) attempts_col) in
  let attempts := sort_by tuple_lt sort_key attempts in
  imap set_rank attempts.

(** ** Runs of the attempt state machine

    One step is one call of the violation endpoint (which covers
    initialisation, the ["__init__"] sentinel) or of the submit endpoint, by
    any student, on any quiz, at any time, against any contents of the
    question collection. *)
Inductive step : list Attempt.t → list Attempt.t → Prop :=
| step_report_violation now attempts_col quiz_id payload univ :
    step attempts_col
      (report_violation now attempts_col quiz_id payload univ).1
| step_submit_quiz now attempts_col questions_col quiz_id payload univ :
    step attempts_col
      (submit_quiz now attempts_col questions_col quiz_id payload univ).1.

Definition steps : list Attempt.t → list Attempt.t → Prop := rtc step.

End Quiz.


(** * The other endpoints

    The rest of [backend/quiz.py] and the student endpoints of
    [backend/main.py].  [auth.py] is not part of the sources: [decode_token],
    [hash_password], [verify_password] and [create_access_token] are section
    variables.  An identifier that MongoDB or [random] produces during a call
    ([inserted_id], the result of [random.choices]) is an argument of the
    call, like [now]. *)

(** ** [str.split(" ")], [str.startswith] and [str.strip()] on ASCII text *)

(** [s.split(sep)] for a separator of one character. *)
Fixpoint split_on (sep : ascii) (s : string) : list string :=
  match s with
  | EmptyString => [EmptyString]
  | String c s' =>
      if Ascii.eqb c sep then EmptyString :: split_on sep s'
      else match split_on sep s' with
           | w :: ws => String c w :: ws
           | [] => [String c EmptyString]
           end
  end.

(** [c.isspace()] for an ASCII character: tab, line feed, vertical tab, form
    feed, carriage return, the four separators 28 to 31, and space. *)
Definition is_space (c : ascii) : bool :=
  let n := N_of_ascii c in
  (N.leb 9 n && N.leb n 13) || (N.leb 28 n && N.leb n 32).

Fixpoint lstrip (s : string) : string :=
  match s with
  | EmptyString => EmptyString
  | String c s' => if is_space c then lstrip s' else s
  end.

Fixpoint rstrip (s : string) : string :=
  match s with
  | EmptyString => EmptyString
  | String c s' =>
      match rstrip s' with
      | EmptyString => if is_space c then EmptyString else String c EmptyString
      | r => String c r
      end
  end.

Definition strip (s : string) : string := rstrip (lstrip s).

(** ** Authentication: [get_current_user], [require_teacher], [require_student] *)

(** The payload of a token. *)
Module User.
Record t : Type := mk {
  sub : string;
  role : option string;
  name : string
}.
End User.

Section Auth.

(** [decode_token]: the payload, or the text of the exception it raises. *)
Variable decode_token : string → string + User.t.

Definition get_current_user (authorization : option string) : result User.t :=
  match authorization with
  | None => HTTPException 401 "Missing or invalid token"
  | Some authorization =>
      if String.eqb authorization ""
         || negb (String.prefix "Bearer " authorization)
      then HTTPException 401 "Missing or invalid token"
      else
        (* [authorization.split(" ")[1]]: a string that starts with
           ["Bearer "] has a second field ([split_on_second] below). *)
        let token := default "" (split_on " " authorization !! 1%nat) in
        match decode_token token with
        | inr user => Ok user
        | inl e => HTTPException 401 e
        end
  end.

(** [Depends(get_current_user)]: the gate runs on what [get_current_user]
    returned, and an exception of [get_current_user] is the response. *)
Definition require_teacher (user : result User.t) : result User.t :=
  match user with
  | Ok user =>
      if negb (bool_decide (User.role user = Some "teacher"))
      then HTTPException 403 "Teachers only"
      else Ok user
  | e => e
  end.

Definition require_student (user : result User.t) : result User.t :=
  match user with
  | Ok user =>
      if negb (bool_decide (User.role user = Some "student"))
      then HTTPException 403 "Students only"
      else Ok user
  | e => e
  end.

End Auth.

(** ** Quizzes and access codes: [generate_access_code], [create_quiz],
    [get_quiz_by_code] *)

(** A document of [quizzes]; [_id] is [str(quiz["_id"])]. *)
Module QuizDoc.
Record t : Type := mk {
  _id : string;
  title : string;
  duration_minutes : Z;
  created_by : string;
  created_at : string;
  access_code : string
}.
End QuizDoc.

Module QuizCreate.
Record t : Type := mk {
  title : string;
  duration_minutes : Z
}.
End QuizCreate.

Module QuizCreated.
Record t : Type := mk {
  quiz_id : string;
  access_code : string;
  message : string
}.
End QuizCreated.

Module QuizByCode.
Record t : Type := mk {
  quiz_id : string;
  title : string;
  duration_minutes : Z
}.
End QuizByCode.

(** [string.ascii_uppercase + string.digits]. *)
Definition chars : string := "ABCDEFGHIJKLMNOPQRSTUVWXYZ0123456789".

(** [generate_access_code], for [picked] the list that
    [random.choices(chars, k=6)] returns. *)
Definition generate_access_code (picked : list ascii) : string :=
  "QZ-" ++ string_of_list_ascii picked.

Definition with_access_code (access_code : string) (quiz : QuizDoc.t) : Prop :=
  QuizDoc.access_code quiz = access_code.

#[global] Instance with_access_code_dec access_code quiz :
  Decision (with_access_code access_code quiz).
Proof. unfold with_access_code. apply _. Defined.

(** The loop of [create_quiz]: [draws] are the results of the successive calls
    of [random.choices]; [None] when every one of them gives a code that a
    quiz already holds, so that the loop has not ended yet. *)
Fixpoint unused_access_code (quizzes_col : list QuizDoc.t)
    (draws : list (list ascii)) : option string :=
  match draws with
  | [] => None
  | picked :: draws' =>
      let access_code := generate_access_code picked in
      match find_one (with_access_code access_code) quizzes_col with
      | Some _ => unused_access_code quizzes_col draws'
      | None => Some access_code
      end
  end.

Definition create_quiz (now inserted_id : string) (draws : list (list ascii))
    (quizzes_col : list QuizDoc.t) (payload : QuizCreate.t) (user : User.t)
    : option (list QuizDoc.t * result QuizCreated.t) :=
  access_code ← unused_access_code quizzes_col draws;
  let doc :=
    {| QuizDoc._id := inserted_id;
       QuizDoc.title := QuizCreate.title payload;
       QuizDoc.duration_minutes := QuizCreate.duration_minutes payload;
       QuizDoc.created_by := User.sub user;
       QuizDoc.created_at := now;
       QuizDoc.access_code := access_code |} in
  Some (insert_one quizzes_col doc,
        Ok {| QuizCreated.quiz_id := inserted_id;
              QuizCreated.access_code := access_code;
              QuizCreated.message := "Quiz created" |}).

Definition get_quiz_by_code (quizzes_col : list QuizDoc.t) (code : string)
    : result QuizByCode.t :=
  match find_one (with_access_code (strip (upper code))) quizzes_col with
  | None =>
      HTTPException 404
        "Invalid quiz code. Please ask your teacher for the correct code."
  | Some (_, quiz) =>
      Ok {| QuizByCode.quiz_id := QuizDoc._id quiz;
            QuizByCode.title := QuizDoc.title quiz;
            QuizByCode.duration_minutes := QuizDoc.duration_minutes quiz |}
  end.

(** ** Questions: [add_question], [get_questions] *)

(** The [options] dictionary of a question. *)
Module Options.
Record t : Type := mk {
  A : string;
  B : string;
  C : string;
  D : string
}.
End Options.

(** A document of [questions] with all its keys. *)
Module QuestionDoc.
Record t : Type := mk {
  _id : string;
  quiz_id : string;
  question_text : string;
  options : Options.t;
  correct_option : string
}.

(** The keys that [submit_quiz] reads. *)
Definition to_question (q : t) : Question.t :=
  {| Question._id := _id q;
     Question.quiz_id := quiz_id q;
     Question.correct_option := correct_option q |}.
End QuestionDoc.

Module QuestionCreate.
Record t : Type := mk {
  question_text : string;
  option_a : string;
  option_b : string;
  option_c : string;
  option_d : string;
  correct_option : string
}.
End QuestionCreate.

Module QuestionAdded.
Record t : Type := mk {
  question_id : string;
  message : string
}.
End QuestionAdded.

(** A question as [get_questions] returns it: [correct_option] is absent
    after [doc.pop("correct_option", None)]. *)
Module QuestionView.
Record t : Type := mk {
  _id : string;
  quiz_id : string;
  question_text : string;
  options : Options.t;
  correct_option : option string
}.
End QuestionView.

Module QuestionsResponse.
Record t : Type := mk {
  quiz_id : string;
  title : string;
  duration_minutes : Z;
  questions : list QuestionView.t
}.
End QuestionsResponse.

Definition with_id (_id : string) (quiz : QuizDoc.t) : Prop :=
  QuizDoc._id quiz = _id.

#[global] Instance with_id_dec _id quiz : Decision (with_id _id quiz).
Proof. unfold with_id. apply _. Defined.

Definition question_docs_of_quiz (quiz_id : string) (q : QuestionDoc.t) : Prop :=
  QuestionDoc.quiz_id q = quiz_id.

#[global] Instance question_docs_of_quiz_dec quiz_id q :
  Decision (question_docs_of_quiz quiz_id q).
Proof. unfold question_docs_of_quiz. apply _. Defined.

Section Bson.

(** [bson.ObjectId]: [ObjectId.is_valid(s)], and [str(ObjectId(s))] for a
    valid [s], the form in which the [_id] of a document is kept here. *)
Variable ObjectId_is_valid : string → bool.
Variable ObjectId_str : string → string.

Definition add_question (inserted_id : string) (quizzes_col : list QuizDoc.t)
    (questions_col : list QuestionDoc.t) (quiz_id : string)
    (payload : QuestionCreate.t)
    : list QuestionDoc.t * result QuestionAdded.t :=
  if negb (ObjectId_is_valid quiz_id) then
    (questions_col, HTTPException 400 "Invalid quiz ID")
  else
    match find_one (with_id (ObjectId_str quiz_id)) quizzes_col with
    | None => (questions_col, HTTPException 404 "Quiz not found")
    | Some _ =>
        let doc :=
          {| QuestionDoc._id := inserted_id;
             QuestionDoc.quiz_id := quiz_id;
             QuestionDoc.question_text := QuestionCreate.question_text payload;
             QuestionDoc.options :=
               {| Options.A := QuestionCreate.option_a payload;
                  Options.B := QuestionCreate.option_b payload;
                  Options.C := QuestionCreate.option_c payload;
                  Options.D := QuestionCreate.option_d payload |};
             QuestionDoc.correct_option :=
               upper (QuestionCreate.correct_option payload) |} in
        (insert_one questions_col doc,
         Ok {| QuestionAdded.question_id := inserted_id;
               QuestionAdded.message := "Question added" |})
    end.

(** The loop body of [get_questions]. *)
Definition question_view (user : User.t) (q : QuestionDoc.t) : QuestionView.t :=
  {| QuestionView._id := QuestionDoc._id q;
     QuestionView.quiz_id := QuestionDoc.quiz_id q;
     QuestionView.question_text := QuestionDoc.question_text q;
     QuestionView.options := QuestionDoc.options q;
     QuestionView.correct_option :=
       if bool_decide (User.role user = Some "student") then None
       else Some (QuestionDoc.correct_option q) |}.

Definition get_questions (quizzes_col : list QuizDoc.t)
    (questions_col : list QuestionDoc.t) (quiz_id : string) (user : User.t)
    : result QuestionsResponse.t :=
  if negb (ObjectId_is_valid quiz_id) then HTTPException 400 "Invalid quiz ID"
  else
    match find_one (with_id (ObjectId_str quiz_id)) quizzes_col with
    | None => HTTPException 404 "Quiz not found"
    | Some (_, quiz) =>
        let qs :=
          question_view user
            <$> find (question_docs_of_quiz quiz_id) questions_col in
        Ok {| QuestionsResponse.quiz_id := quiz_id;
              QuestionsResponse.title := QuizDoc.title quiz;
              QuestionsResponse.duration_minutes := QuizDoc.duration_minutes quiz;
              QuestionsResponse.questions := qs |}
    end.

End Bson.

(** ** Students and teachers ([main.py]): [student_register],
    [student_login], [seed_teacher]; and [get_attempts] *)

(** A document of [students] with all its keys. *)
Module StudentDoc.
Record t : Type := mk {
  university_number : string;
  name : string;
  email : string;
  password : string;
  created_at : string
}.

(** The keys that [leaderboard] reads. *)
Definition to_student (s : t) : Student.t :=
  {| Student.university_number := university_number s;
     Student.name := name s |}.
End StudentDoc.

Module StudentRegister.
Record t : Type := mk {
  university_number : string;
  name : string;
  email : string;
  password : string
}.
End StudentRegister.

Module StudentLogin.
Record t : Type := mk {
  university_number : string;
  password : string
}.
End StudentLogin.

Module LoginResponse.
Record t : Type := mk {
  access_token : string;
  role : string;
  name : string;
  university_number : string
}.
End LoginResponse.

(** A document of [teachers]. *)
Module TeacherDoc.
Record t : Type := mk {
  name : string;
  email : string;
  password : string
}.
End TeacherDoc.

(** An element of the list that [get_attempts] returns: the attempt with the
    two keys added to it. *)
Module AttemptRow.
Record t : Type := mk {
  attempt : Attempt.t;
  student_name : string;
  student_email : string
}.
End AttemptRow.

Definition doc_with_university_number (univ : string) (s : StudentDoc.t) : Prop :=
  StudentDoc.university_number s = univ.

Definition doc_with_email (email : string) (s : StudentDoc.t) : Prop :=
  StudentDoc.email s = email.

Definition teacher_with_email (email : string) (t : TeacherDoc.t) : Prop :=
  TeacherDoc.email t = email.

Definition attempts_of_quiz (quiz_id : string) (a : Attempt.t) : Prop :=
  Attempt.quiz_id a = quiz_id.

#[global] Instance doc_with_university_number_dec univ s :
  Decision (doc_with_university_number univ s).
Proof. unfold doc_with_university_number. apply _. Defined.

#[global] Instance doc_with_email_dec email s : Decision (doc_with_email email s).
Proof. unfold doc_with_email. apply _. Defined.

#[global] Instance teacher_with_email_dec email t :
  Decision (teacher_with_email email t).
Proof. unfold teacher_with_email. apply _. Defined.

#[global] Instance attempts_of_quiz_dec quiz_id a :
  Decision (attempts_of_quiz quiz_id a).
Proof. unfold attempts_of_quiz. apply _. Defined.

Section Accounts.

Variable hash_password : string → string.
Variable verify_password : string → string → bool.
Variable create_access_token : User.t → string.

Definition student_register (now : string) (students_col : list StudentDoc.t)
    (payload : StudentRegister.t) : list StudentDoc.t * result string :=
  match
    find_one
      (doc_with_university_number (StudentRegister.university_number payload))
      students_col
  with
  | Some _ =>
      (students_col, HTTPException 400 "University number already registered")
  | None =>
      match
        find_one (doc_with_email (StudentRegister.email payload)) students_col
      with
      | Some _ => (students_col, HTTPException 400 "Email already in use")
      | None =>
          let doc :=
            {| StudentDoc.university_number :=
                 StudentRegister.university_number payload;
               StudentDoc.name := StudentRegister.name payload;
               StudentDoc.email := StudentRegister.email payload;
               StudentDoc.password :=
                 hash_password (StudentRegister.password payload);
               StudentDoc.created_at := now |} in
          (insert_one students_col doc, Ok "Student registered successfully")
      end
  end.

Definition student_login (students_col : list StudentDoc.t)
    (payload : StudentLogin.t) : result LoginResponse.t :=
  match
    find_one
      (doc_with_university_number (StudentLogin.university_number payload))
      students_col
  with
  | None => HTTPException 401 "Invalid credentials"
  | Some (_, student) =>
      if negb (verify_password (StudentLogin.password payload)
                 (StudentDoc.password student))
      then HTTPException 401 "Invalid credentials"
      else
        let token :=
          create_access_token
            {| User.sub := StudentDoc.university_number student;
               User.role := Some "student";
               User.name := StudentDoc.name student |} in
        Ok {| LoginResponse.access_token := token;
              LoginResponse.role := "student";
              LoginResponse.name := StudentDoc.name student;
              LoginResponse.university_number :=
                StudentDoc.university_number student |}
  end.

(** The seeding step of [seed_teacher]. *)
Definition seed_teacher (teachers_col : list TeacherDoc.t) : list TeacherDoc.t :=
  match find_one (teacher_with_email "admin@quiz.com") teachers_col with
  | Some _ => teachers_col
  | None =>
      insert_one teachers_col
        {| TeacherDoc.name := "Admin Teacher";
           TeacherDoc.email := "admin@quiz.com";
           TeacherDoc.password := hash_password "admin123" |}
  end.

End Accounts.

Definition get_attempts (attempts_col : list Attempt.t)
    (students_col : list StudentDoc.t) (quiz_id : string) : list AttemptRow.t :=
  (λ a,
     let student :=
       find_one
         (doc_with_university_number (Attempt.student_university_number a))
         students_col in
     {| AttemptRow.attempt := a;
        AttemptRow.student_name :=
          match student with
          | Some (_, student) => StudentDoc.name student
          | None => "Unknown"
          end;
        AttemptRow.student_email :=
          match student with
          | Some (_, student) => StudentDoc.email student
          | None => "—"
          end |})
  <$> find (attempts_of_quiz quiz_id) attempts_col.
(** ** Notions used to state the properties *)

(** The attempt that an endpoint works on: the first document of the pair. *)
Definition attempt_of (attempts_col : list Attempt.t) (univ quiz_id : string)
    : option (nat * Attempt.t) :=
  find_one (of_student_and_quiz univ quiz_id) attempts_col.

(** [doc.get("violation_count", 0)]. *)
Definition violations_so_far (a : Attempt.t) : Z :=
  default 0 (Attempt.violation_count a).

(** The violation count that [submit_quiz] reads before scoring. *)
Definition prior_violation_count (attempts_col : list Attempt.t)
    (univ quiz_id : string) : Z :=
  match attempt_of attempts_col univ quiz_id with
  | Some (_, existing) => violations_so_far existing
  | None => 0
  end.

Definition is_terminal (a : Attempt.t) : Prop :=
  passed_or_failed (field_get (Attempt.status a)) = true.

Definition is_active (a : Attempt.t) : Prop :=
  in_progress_or_none (field_get (Attempt.status a)) = true.

(** The rejection of [submit_quiz]. *)
Definition already_submitted {A} : result A :=
  HTTPException 400 "Quiz already submitted".

(** The data-model invariant: at most one attempt per (student, quiz). *)
Definition one_attempt_per_pair (attempts_col : list Attempt.t) : Prop :=
  ∀ i j a b,
    attempts_col !! i = Some a → attempts_col !! j = Some b →
    Attempt.student_university_number a = Attempt.student_university_number b →
    Attempt.quiz_id a = Attempt.quiz_id b →
    i = j.

(** Case-insensitive equality of two labels, character by character. *)
Definition same_letter (c1 c2 : ascii) : bool :=
  Ascii.eqb (upper_char c1) (upper_char c2).

Fixpoint eq_ignoring_case (s1 s2 : string) : bool :=
  match s1, s2 with
  | EmptyString, EmptyString => true
  | String c1 s1', String c2 s2' => same_letter c1 c2 && eq_ignoring_case s1' s2'
  | _, _ => false
  end.

(** The submitted label of a question, a missing answer being the empty
    label. *)
Definition submitted_label (answers : gmap string string) (q : Question.t)
    : string :=
  default "" (answers !! Question._id q).

Definition is_match (answers : gmap string string) (q : Question.t) : Prop :=
  eq_ignoring_case (submitted_label answers q) (Question.correct_option q) = true.

#[global] Instance is_match_dec answers q : Decision (is_match answers q).
Proof. unfold is_match. apply _. Defined.

(** Order of the leaderboard: a higher score first, then a shorter time. *)
Definition ranks_before (x y : Entry.t) : Prop :=
  Entry.score y < Entry.score x
  ∨ (Entry.score x = Entry.score y
     ∧ Entry.time_taken_seconds x <= Entry.time_taken_seconds y).

Definition clear_rank (x : Entry.t) : Entry.t :=
  {| Entry.name := Entry.name x;
     Entry.university_number := Entry.university_number x;
     Entry.score := Entry.score x;
     Entry.status := Entry.status x;
     Entry.violation_count := Entry.violation_count x;
     Entry.time_taken_seconds := Entry.time_taken_seconds x;
     Entry.rank := None |}.

(** The rank that a leaderboard gives to a student. *)
Definition leaderboard_rank_of (univ : string) (board : list Entry.t) : option Z :=
  match find_one (λ x, Entry.university_number x = univ) board with
  | Some (_, x) => Entry.rank x
  | None => None
  end.

(** The escalation test of [report_violation]. *)
Definition escalates (violation_type : string) (new_count : Z) : bool :=
  String.eqb violation_type "tab_switch" || (1 <? new_count).


(** The test that makes [submit_quiz] reject a call. *)
Definition has_terminal_attempt (attempts_col : list Attempt.t)
    (univ quiz_id : string) : bool :=
  match attempt_of attempts_col univ quiz_id with
  | Some (_, existing) => passed_or_failed (field_get (Attempt.status existing))
  | None => false
  end.

(** The score and the status that an accepted [submit_quiz] settles on. *)
Definition submitted_score (questions_col : list Question.t) (quiz_id : string)
    (payload : QuizSubmit.t) : Z :=
  if default false (QuizSubmit.force_fail payload) then 0
  else count_correct (QuizSubmit.answers payload)
         (find (questions_of_quiz quiz_id) questions_col).

Definition submitted_status (questions_col : list Question.t) (quiz_id : string)
    (payload : QuizSubmit.t) (violation_count : Z) : string :=
  if default false (QuizSubmit.force_fail payload) then "FAILED"
  else if pass_policy
            (count_correct (QuizSubmit.answers payload)
               (find (questions_of_quiz quiz_id) questions_col))
            (Z.of_nat (length (find (questions_of_quiz quiz_id) questions_col)))
            violation_count
       then "PASSED" else "FAILED".

(** The [attempt_doc] of an accepted [submit_quiz]. *)
Definition submitted_doc (now : string) (attempts_col : list Attempt.t)
    (questions_col : list Question.t) (quiz_id : string)
    (payload : QuizSubmit.t) (univ : string) : Attempt.t :=
  {| Attempt.student_university_number := univ;
     Attempt.quiz_id := quiz_id;
     Attempt.answers := QuizSubmit.answers payload;
     Attempt.score := Some (submitted_score questions_col quiz_id payload);
     Attempt.violation_count :=
       Some (prior_violation_count attempts_col univ quiz_id);
     Attempt.violations := None;
     Attempt.status :=
       Val (submitted_status questions_col quiz_id payload
              (prior_violation_count attempts_col univ quiz_id));
     Attempt.started_at := Some (QuizSubmit.started_at payload);
     Attempt.submitted_at := Some now |}.

(** The three shapes of a change to the attempts: nothing, a new attempt for
    a pair that had none, or a rewrite of an attempt that is not terminal
    which keeps its pair and does not lower its violation count. *)
Inductive change : list Attempt.t → list Attempt.t → Prop :=
| change_none attempts_col :
    change attempts_col attempts_col
| change_insert attempts_col doc :
    attempt_of attempts_col (Attempt.student_university_number doc)
      (Attempt.quiz_id doc) = None →
    change attempts_col (insert_one attempts_col doc)
| change_update attempts_col i a a' :
    attempts_col !! i = Some a →
    ¬ is_terminal a →
    Attempt.student_university_number a' = Attempt.student_university_number a →
    Attempt.quiz_id a' = Attempt.quiz_id a →
    violations_so_far a <= violations_so_far a' →
    change attempts_col (update_one i (λ _, a') attempts_col).

(** [x] may stand before [y] in a list sorted by [key]: the key of [y] is not
    below the key of [x]. *)
Definition not_after {A K} (lt : K → K → bool) (key : A → K) (x y : A) : Prop :=
  lt (key y) (key x) = false.

(** The body of a successful response. *)
Definition response_of {A} (r : result A) : option A :=
  match r with
  | Ok response => Some response
  | _ => None
  end.

(** An attempt of another student that [compute_rank] counts. *)
Definition counted_by_compute_rank (univ : string) (a : Attempt.t) : Prop :=
  Attempt.student_university_number a ≠ univ ∧ 0 < default 0 (Attempt.score a).

#[global] Instance counted_by_compute_rank_dec univ a :
  Decision (counted_by_compute_rank univ a).
Proof. unfold counted_by_compute_rank. apply _. Defined.

(** The difference [submitted_at - started_at] of an attempt in whole
    seconds, days included, when both timestamps are read and subtract. *)
Definition elapsed_whole_seconds (fromisoformat : string → option Datetime.t)
    (a : Attempt.t) : option Z :=
  submitted ← Attempt.submitted_at a ≫= fromisoformat;
  started ← Attempt.started_at a ≫= fromisoformat;
  Datetime.whole_seconds <$> Datetime.sub submitted started.

(** ** Invariant of the attempts that the program writes *)

(** [doc.get("violations", [])]: the violation log, empty when the key is
    missing. *)
Definition violation_log (a : Attempt.t) : list string :=
  default [] (Attempt.violations a).

(** What holds of every attempt that the violation endpoint and the submit
    endpoint leave in the store: the status is one of the three strings, the
    violation count is the length of the violation log, the score is a
    natural number, and the status fits the rest of the attempt. *)
Definition well_formed (a : Attempt.t) : Prop :=
  ∃ (s : string) (c sc : Z),
    Attempt.status a = Val s
    ∧ Attempt.violation_count a = Some c
    ∧ c = Z.of_nat (length (violation_log a))
    ∧ Attempt.score a = Some sc
    ∧ 0 <= sc
    ∧ ((s = "IN_PROGRESS"
        ∧ sc = 0
        ∧ Attempt.submitted_at a = None
        ∧ c <= 1
        ∧ "tab_switch" ∉ violation_log a)
       ∨ (s = "FAILED" ∧ is_Some (Attempt.submitted_at a))
       ∨ (s = "PASSED"
          ∧ is_Some (Attempt.submitted_at a)
          ∧ c <= 1
          ∧ "tab_switch" ∉ violation_log a)).

(** The rejection of [report_violation]. *)
Definition no_active_attempt {A} : result A :=
  HTTPException 404 "No active attempt found".

(** ** Notions for the other endpoints *)

(** [c in s]. *)
Fixpoint has_char (c : ascii) (s : string) : bool :=
  match s with
  | EmptyString => false
  | String c' s' => Ascii.eqb c' c || has_char c s'
  end.

(** Every character of [s] satisfies [p]. *)
Fixpoint all_chars (p : ascii → bool) (s : string) : bool :=
  match s with
  | EmptyString => true
  | String c s' => p c && all_chars p s'
  end.

(** ASCII text, the strings on which [upper] is [str.upper()]. *)
Definition is_ascii_char (c : ascii) : bool := N.ltb (N_of_ascii c) 128.

Definition is_ascii (s : string) : bool := all_chars is_ascii_char s.

(** Everything that the scoring loop of [submit_quiz] passes to
    [str.upper()] is ASCII text: the correct label of each question and the
    label submitted for it (the empty string when there is none). *)
Definition ascii_labels (answers : gmap string string)
    (all_questions : list Question.t) : Prop :=
  Forall
    (λ q, is_ascii (submitted_label answers q) = true
          ∧ is_ascii (Question.correct_option q) = true)
    all_questions.

#[global] Instance ascii_labels_dec answers all_questions :
  Decision (ascii_labels answers all_questions).
Proof. unfold ascii_labels. apply _. Defined.

(** An upper-case ASCII letter or a digit: the class [[A-Z0-9]]. *)
Definition is_upper_or_digit (c : ascii) : bool :=
  let n := N_of_ascii c in
  (N.leb 65 n && N.leb n 90) || (N.leb 48 n && N.leb n 57).

(** A string of the form [QZ-[A-Z0-9]{6}]. *)
Definition well_formed_code (code : string) : Prop :=
  ∃ body,
    code = "QZ-" ++ body
    ∧ String.length body = 6%nat
    ∧ all_chars is_upper_or_digit body = true.

(** What [random.choices(chars, k=6)] returns: six characters of [chars]. *)
Definition valid_draw (picked : list ascii) : Prop :=
  length picked = 6%nat ∧ Forall (λ c, has_char c chars = true) picked.

(** The access codes of the quizzes are pairwise distinct and well formed. *)
Definition codes_ok (quizzes_col : list QuizDoc.t) : Prop :=
  NoDup (QuizDoc.access_code <$> quizzes_col)
  ∧ Forall (λ quiz, well_formed_code (QuizDoc.access_code quiz)) quizzes_col.

(** A code that some quiz of the collection holds. *)
Definition code_in_use (quizzes_col : list QuizDoc.t) (picked : list ascii)
    : Prop :=
  generate_access_code picked ∈ QuizDoc.access_code <$> quizzes_col.

(** University numbers and e-mail addresses of the students are pairwise
    distinct. *)
Definition students_ok (students_col : list StudentDoc.t) : Prop :=
  NoDup (StudentDoc.university_number <$> students_col)
  ∧ NoDup (StudentDoc.email <$> students_col).

(** The entry [x] with the name [name] when it belongs to the student
    [univ]. *)
Definition with_name (univ name : string) (x : Entry.t) : Entry.t :=
  if decide (Entry.university_number x = univ)
  then {| Entry.name := name;
          Entry.university_number := Entry.university_number x;
          Entry.score := Entry.score x;
          Entry.status := Entry.status x;
          Entry.violation_count := Entry.violation_count x;
          Entry.time_taken_seconds := Entry.time_taken_seconds x;
          Entry.rank := Entry.rank x |}
  else x.

#[global] Instance is_terminal_dec a : Decision (is_terminal a).
Proof. unfold is_terminal. apply _. Defined.
(** ** Concrete stores used in the examples *)

Definition first_noise_attempt : Attempt.t :=
  {| Attempt.student_university_number := "4SN21CS001";
     Attempt.quiz_id := "quiz-1";
     Attempt.answers := ∅;
     Attempt.score := Some 0;
     Attempt.violation_count := Some 0;
     Attempt.violations := Some [];
     Attempt.status := Val "IN_PROGRESS";
     Attempt.started_at := Some "2024-01-01T10:00:00";
     Attempt.submitted_at := None |}.


(** An attempt whose status was never written. *)
Definition unset_status_attempt : Attempt.t :=
  {| Attempt.student_university_number := "4SN21CS001";
     Attempt.quiz_id := "quiz-1";
     Attempt.answers := ∅;
     Attempt.score := Some 0;
     Attempt.violation_count := Some 0;
     Attempt.violations := Some [];
     Attempt.status := Absent;
     Attempt.started_at := Some "2024-01-01T10:00:00";
     Attempt.submitted_at := None |}.

(** The store after a student has started a quiz and one noise violation has
    been reported. *)
Definition store_after_one_noise : list Attempt.t :=
  (report_violation "2024-01-01T10:03:00"
     (report_violation "2024-01-01T10:00:00" [] "quiz-1"
        (ViolationReport.mk "__init__") "4SN21CS001").1
     "quiz-1" (ViolationReport.mk "noise") "4SN21CS001").1.

(** A quiz of four questions and three answer sheets. *)
Definition four_questions : list Question.t :=
  [ Question.mk "65a000000000000000000001" "quiz-1" "A";
    Question.mk "65a000000000000000000002" "quiz-1" "B";
    Question.mk "65a000000000000000000003" "quiz-1" "C";
    Question.mk "65a000000000000000000004" "quiz-1" "D";
    Question.mk "65a000000000000000000005" "quiz-2" "A" ].

Definition two_right : gmap string string :=
  {[ "65a000000000000000000001" := "a";
     "65a000000000000000000002" := "B";
     "65a000000000000000000003" := "A" ]}.

Definition one_right : gmap string string :=
  {[ "65a000000000000000000004" := "d";
     "65a000000000000000000002" := "C" ]}.

Definition all_right : gmap string string :=
  {[ "65a000000000000000000001" := "A";
     "65a000000000000000000002" := "b";
     "65a000000000000000000003" := "C";
     "65a000000000000000000004" := "D" ]}.

(** An attempt still in progress that carries two violations. *)
Definition two_violations_attempt : Attempt.t :=
  {| Attempt.student_university_number := "4SN21CS001";
     Attempt.quiz_id := "quiz-1";
     Attempt.answers := ∅;
     Attempt.score := Some 0;
     Attempt.violation_count := Some 2;
     Attempt.violations := Some ["noise"; "fullscreen_exit"];
     Attempt.status := Val "IN_PROGRESS";
     Attempt.started_at := Some "2024-01-01T10:00:00";
     Attempt.submitted_at := None |}.

(** An attempt failed by a tab switch. *)
Definition tab_switch_attempt : Attempt.t :=
  {| Attempt.student_university_number := "4SN21CS001";
     Attempt.quiz_id := "quiz-1";
     Attempt.answers := ∅;
     Attempt.score := Some 0;
     Attempt.violation_count := Some 1;
     Attempt.violations := Some ["tab_switch"];
     Attempt.status := Val "FAILED";
     Attempt.started_at := Some "2024-01-01T10:00:00";
     Attempt.submitted_at := Some "2024-01-01T10:03:00" |}.

(** Three further calls of the same student on the same quiz. *)
Definition replayed_calls (attempts_col : list Attempt.t) : list Attempt.t :=
  (submit_quiz Datetime.fromisoformat_naive "2024-01-01T10:20:00"
     (report_violation "2024-01-01T10:06:00"
        (report_violation "2024-01-01T10:05:00" attempts_col "quiz-1"
           (ViolationReport.mk "__init__") "4SN21CS001").1
        "quiz-1" (ViolationReport.mk "noise") "4SN21CS001").1
     four_questions "quiz-1"
     (QuizSubmit.mk all_right "2024-01-01T10:00:00" None) "4SN21CS001").1.


(** The three attempts A (score 8, 120 s), B (score 8, 90 s) and
    C (score 9, 300 s), and one attempt still in progress. *)
Definition finished (univ : string) (score : Z) (status submitted_at : string)
    : Attempt.t :=
  {| Attempt.student_university_number := univ;
     Attempt.quiz_id := "quiz-1";
     Attempt.answers := ∅;
     Attempt.score := Some score;
     Attempt.violation_count := Some 0;
     Attempt.violations := None;
     Attempt.status := Val status;
     Attempt.started_at := Some "2024-01-01T10:00:00";
     Attempt.submitted_at := Some submitted_at |}.

Definition abc_attempts : list Attempt.t :=
  [ finished "A" 8 "PASSED" "2024-01-01T10:02:00";
    first_noise_attempt;
    finished "B" 8 "PASSED" "2024-01-01T10:01:30";
    finished "C" 9 "PASSED" "2024-01-01T10:05:00" ].

(** Two students submit one after the other: the first answers two of the
    four questions correctly, the second all four. *)
Definition first_submission : list Attempt.t * result SubmitResponse.t :=
  submit_quiz Datetime.fromisoformat_naive "2024-01-01T10:20:00" []
    four_questions "quiz-1"
    (QuizSubmit.mk two_right "2024-01-01T10:00:00" None) "4SN21CS001".

Definition second_submission : list Attempt.t * result SubmitResponse.t :=
  submit_quiz Datetime.fromisoformat_naive "2024-01-01T10:30:00"
    first_submission.1 four_questions "quiz-1"
    (QuizSubmit.mk all_right "2024-01-01T10:10:00" None) "4SN21CS002".

(** A submission that arrives one day and five seconds after the start time
    it carries. *)
Definition overnight_submission : list Attempt.t * result SubmitResponse.t :=
  submit_quiz Datetime.fromisoformat_naive "2024-01-02T10:00:05" []
    four_questions "quiz-1"
    (QuizSubmit.mk two_right "2024-01-01T10:00:00" None) "4SN21CS001".

(** Three results of [random.choices]: the second draw repeats the first. *)
Definition draw_a1b2c3 : list ascii := list_ascii_of_string "A1B2C3".
Definition draw_zz9zz9 : list ascii := list_ascii_of_string "ZZ9ZZ9".

Definition teacher : User.t := User.mk "65b000000000000000000001" (Some "teacher") "Admin Teacher".

(** One quiz, created with the first draw. *)
Definition one_quiz : option (list QuizDoc.t * result QuizCreated.t) :=
  create_quiz "2024-01-01T09:00:00" "65c000000000000000000001" [draw_a1b2c3]
    [] (QuizCreate.mk "Algebra" 30) teacher.

Definition one_quiz_col : list QuizDoc.t :=
  match one_quiz with
  | Some (quizzes_col, _) => quizzes_col
  | None => []
  end.

(** A stand-in for [bson.ObjectId] in the examples: a string of 24
    characters is a valid id and is its own string form. *)
Definition example_is_valid (s : string) : bool :=
  Nat.eqb (String.length s) 24.

Definition example_str (s : string) : string := s.

Definition algebra_quiz : QuizDoc.t :=
  QuizDoc.mk "65c000000000000000000001" "Algebra" 30
    "65b000000000000000000001" "2024-01-01T09:00:00" "QZ-A1B2C3".

Definition first_question : QuestionCreate.t :=
  QuestionCreate.mk "2 + 2 = ?" "3" "4" "5" "6" "b".

Definition student_user : User.t :=
  User.mk "4SN21CS001" (Some "student") "Asha".

(** Stand-ins for [auth.py] in the examples. *)
Definition example_hash (password : string) : string := "hashed:" ++ password.

Definition example_verify (password hashed : string) : bool :=
  String.eqb (example_hash password) hashed.

Definition example_token (user : User.t) : string := "token:" ++ User.sub user.

Definition asha : StudentRegister.t :=
  StudentRegister.mk "4SN21CS001" "Asha" "asha@example.org" "s3cret".

Definition asha_registered : list StudentDoc.t * result string :=
  student_register example_hash "2024-01-01T08:00:00" [] asha.
(** ** The document store: basic facts *)

Lemma find_one_Some {A} (P : A → Prop) `{!∀ x, Decision (P x)} col i x :
  find_one P col = Some (i, x) →
  col !! i = Some x ∧ P x ∧ ∀ j y, col !! j = Some y → (j < i)%nat → ¬ P y.
Proof. unfold find_one. intros Hfind. by apply list_find_Some in Hfind. Qed.

Lemma find_one_None {A} (P : A → Prop) `{!∀ x, Decision (P x)} col :
  find_one P col = None → ∀ i x, col !! i = Some x → ¬ P x.
Proof.
  unfold find_one. intros Hfind i x Hi. apply list_find_None in Hfind.
  rewrite Forall_forall in Hfind. apply Hfind.
  apply list_elem_of_lookup. eauto.
Qed.

Lemma find_by_id_update_one {A} (f : A → A) col i x :
  col !! i = Some x → find_by_id i (update_one i f col) = Some (f x).
Proof.
  intros Hi. unfold find_by_id, update_one.
  rewrite list_lookup_alter_eq. by rewrite Hi.
Qed.

(** ** Violations and initialisation *)

Lemma report_violation_init_absent now attempts_col quiz_id payload univ :
  ViolationReport.violation_type payload = "__init__" →
  attempt_of attempts_col univ quiz_id = None →
  report_violation now attempts_col quiz_id payload univ =
    (attempts_col ++
       [{| Attempt.student_university_number := univ;
           Attempt.quiz_id := quiz_id;
           Attempt.answers := ∅;
           Attempt.score := Some 0;
           Attempt.violation_count := Some 0;
           Attempt.violations := Some [];
           Attempt.status := Val "IN_PROGRESS";
           Attempt.started_at := Some now;
           Attempt.submitted_at := None |}],
     Ok (ViolationResponse.mk 0 (Some "IN_PROGRESS")))%list.
Proof.
  unfold attempt_of, report_violation. intros -> ->. reflexivity.
Qed.

Lemma report_violation_init_present now attempts_col quiz_id payload univ i a :
  ViolationReport.violation_type payload = "__init__" →
  attempt_of attempts_col univ quiz_id = Some (i, a) →
  report_violation now attempts_col quiz_id payload univ =
    (attempts_col, Ok (ViolationResponse.mk 0 (Some "IN_PROGRESS"))).
Proof.
  unfold attempt_of, report_violation. intros -> ->. reflexivity.
Qed.

Lemma report_violation_no_attempt now attempts_col quiz_id payload univ :
  ViolationReport.violation_type payload ≠ "__init__" →
  attempt_of attempts_col univ quiz_id = None →
  report_violation now attempts_col quiz_id payload univ =
    (attempts_col, HTTPException 404 "No active attempt found").
Proof.
  unfold attempt_of, report_violation. intros Hty ->.
  apply String.eqb_neq in Hty. by rewrite Hty.
Qed.

Lemma report_violation_not_active now attempts_col quiz_id payload univ i a :
  ViolationReport.violation_type payload ≠ "__init__" →
  attempt_of attempts_col univ quiz_id = Some (i, a) →
  ¬ is_active a →
  report_violation now attempts_col quiz_id payload univ =
    (attempts_col, HTTPException 404 "No active attempt found").
Proof.
  unfold attempt_of, report_violation, is_active. intros Hty -> Hact.
  apply String.eqb_neq in Hty. rewrite Hty.
  by destruct (in_progress_or_none _).
Qed.

Lemma report_violation_active now attempts_col quiz_id payload univ i a :
  ViolationReport.violation_type payload ≠ "__init__" →
  attempt_of attempts_col univ quiz_id = Some (i, a) →
  is_active a →
  let violation_type := ViolationReport.violation_type payload in
  let new_count := violations_so_far a + 1 in
  let a' :=
    violation_update new_count violation_type
      (if escalates violation_type new_count then Some now else None) a in
  report_violation now attempts_col quiz_id payload univ =
    (update_one i (λ _, a') attempts_col,
     match Attempt.status a' with
     | Absent => KeyError "status"
     | Null => Ok (ViolationResponse.mk new_count None)
     | Val s => Ok (ViolationResponse.mk new_count (Some s))
     end).
Proof.
  unfold attempt_of, is_active. intros Hty Hfind Hact. simpl.
  unfold report_violation. rewrite Hfind.
  apply String.eqb_neq in Hty. rewrite Hty, Hact. simpl.
  apply find_one_Some in Hfind as (Hi & _ & _).
  fold (escalates (ViolationReport.violation_type payload) (violations_so_far a + 1)).
  unfold violations_so_far.
  erewrite find_by_id_update_one by done.
  unfold update_one.
  rewrite (list_alter_ext _ (λ _, violation_update (default 0 (Attempt.violation_count a) + 1)
               (ViolationReport.violation_type payload)
               (if escalates (ViolationReport.violation_type payload)
                     (default 0 (Attempt.violation_count a) + 1)
                then Some now else None) a) attempts_col attempts_col i); [|by intros x Hx; rewrite Hi in Hx; injection Hx as <-|done].
  unfold escalates.
  destruct (_ || _); simpl; by destruct (Attempt.status a).
Qed.

(** What a report of a real violation type (not ["__init__"]) does on the
    attempt of the pair when the guard lets it through (status
    ["IN_PROGRESS"], null, or no status key).  It rewrites that attempt only:
    its violation count goes up by exactly one, the type is appended to its
    violation log, and its pair, answers, score and start time stay.  If the
    type is ["tab_switch"] or the new count exceeds 1, the status becomes
    ["FAILED"], the submission timestamp becomes [now], and the new count and
    ["FAILED"] are returned.  Otherwise the status and the submission
    timestamp are left as they were and the count is 1 for a first violation;
    the response then carries the new count and the stored status when the
    status was ["IN_PROGRESS"] or null, and reading [updated["status"]] raises
    [KeyError] when the key was missing. *)
Lemma report_violation_escalation now attempts_col quiz_id payload univ i a :
  ViolationReport.violation_type payload ≠ "__init__" →
  attempt_of attempts_col univ quiz_id = Some (i, a) →
  is_active a →
  let violation_type := ViolationReport.violation_type payload in
  let new_count := violations_so_far a + 1 in
  let out := report_violation now attempts_col quiz_id payload univ in
  ∃ a',
    out.1 !! i = Some a'
    ∧ length out.1 = length attempts_col
    ∧ (∀ j, j ≠ i → out.1 !! j = attempts_col !! j)
    ∧ Attempt.violation_count a' = Some new_count
    ∧ Attempt.violations a' =
        Some (default [] (Attempt.violations a) ++ [violation_type])%list
    ∧ (Attempt.student_university_number a' = Attempt.student_university_number a
       ∧ Attempt.quiz_id a' = Attempt.quiz_id a
       ∧ Attempt.answers a' = Attempt.answers a
       ∧ Attempt.score a' = Attempt.score a
       ∧ Attempt.started_at a' = Attempt.started_at a)
    ∧ (violation_type = "tab_switch" ∨ 1 < new_count →
         Attempt.status a' = Val "FAILED"
         ∧ Attempt.submitted_at a' = Some now
         ∧ out.2 = Ok (ViolationResponse.mk new_count (Some "FAILED")))
    ∧ (violation_type ≠ "tab_switch" → new_count <= 1 →
         Attempt.status a' = Attempt.status a
         ∧ Attempt.submitted_at a' = Attempt.submitted_at a
         ∧ (0 <= violations_so_far a → Attempt.violation_count a' = Some 1)
         ∧ (Attempt.status a = Val "IN_PROGRESS" →
              out.2 = Ok (ViolationResponse.mk new_count (Some "IN_PROGRESS")))
         ∧ (Attempt.status a = Null →
              out.2 = Ok (ViolationResponse.mk new_count None))
         ∧ (Attempt.status a = Absent → out.2 = KeyError "status")).
Proof.
  intros Hty Hfind Hact violation_type new_count out.
  pose proof (report_violation_active now _ _ _ _ _ _ Hty Hfind Hact) as Hrv.
  simpl in Hrv. fold violation_type new_count in Hrv.
  apply find_one_Some in Hfind as (Hi & _ & _).
  subst out. rewrite Hrv. simpl. unfold update_one.
  eexists. split; [by rewrite list_lookup_alter_eq, Hi|].
  split; [apply length_alter|].
  split; [by intros j Hj; apply list_lookup_alter_ne|].
  do 3 (split; [done|]).
  unfold escalates. split.
  - intros Hesc.
    assert ((violation_type =? "tab_switch")%string || (1 <? new_count) = true) as ->.
    { destruct Hesc as [-> | Hlt]; [done|].
      apply Z.ltb_lt in Hlt. rewrite Hlt. by rewrite orb_true_r. }
    done.
  - intros Hne Hle.
    assert ((violation_type =? "tab_switch")%string || (1 <? new_count) = false) as ->.
    { apply String.eqb_neq in Hne. rewrite Hne. simpl. by apply Z.ltb_ge. }
    simpl. do 2 (split; [done|]). split.
    + intros Hnn. f_equal. unfold new_count in *. lia.
    + repeat split; by intros ->.
Qed.

Lemma report_violation_escalation_witness :
  ∃ a',
    (report_violation "2024-01-01T10:03:00" [first_noise_attempt] "quiz-1"
       (ViolationReport.mk "noise") "4SN21CS001").1 !! 0%nat = Some a'
    ∧ Attempt.violation_count a' = Some 1
    ∧ Attempt.status a' = Val "IN_PROGRESS".
Proof.
  destruct (report_violation_escalation "2024-01-01T10:03:00"
              [first_noise_attempt] "quiz-1" (ViolationReport.mk "noise")
              "4SN21CS001" 0%nat first_noise_attempt)
    as (a' & Hlook & _ & _ & _ & _ & _ & _ & Hstay).
  - discriminate.
  - reflexivity.
  - reflexivity.
  - exists a'. split; [exact Hlook|].
    destruct Hstay as (Hst & _ & Hone & _).
    + discriminate.
    + vm_compute. discriminate.
    + split; [apply Hone; vm_compute; discriminate | exact Hst].
Defined.

(** C3 (the code departs from the claim).  A first ["noise"] violation on an
    attempt that has no status key: the guard, which reads the status with
    [.get], takes the attempt for an active one; the update is written (the
    count becomes 1 and ["noise"] is appended to the log, the status is still
    missing and no submission timestamp is set); then reading
    [updated["status"]] for the response raises [KeyError], so the call fails
    after it has changed the store and returns neither count nor status. *)
Theorem report_violation_missing_status_raises :
  let out :=
    report_violation "2024-01-01T10:03:00" [unset_status_attempt] "quiz-1"
      (ViolationReport.mk "noise") "4SN21CS001" in
  is_active unset_status_attempt
  ∧ out.1 ≠ [unset_status_attempt]
  ∧ length out.1 = 1%nat
  ∧ (Attempt.violation_count <$> out.1 !! 0%nat) = Some (Some 1)
  ∧ (Attempt.violations <$> out.1 !! 0%nat) = Some (Some ["noise"])
  ∧ (Attempt.status <$> out.1 !! 0%nat) = Some Absent
  ∧ (Attempt.submitted_at <$> out.1 !! 0%nat) = Some None
  ∧ out.2 = KeyError "status"
  ∧ out.2 ≠ Ok (ViolationResponse.mk 1 (Some "IN_PROGRESS")).
Proof. vm_compute. repeat split; discriminate. Qed.

(** C6 (the code departs from the claim).  A student starts a quiz, one
    ["noise"] violation is reported, and the student initialises again: the
    stored attempt is unchanged and holds one violation, but the response of
    [report_violation] says [violation_count = 0]. *)
Theorem init_response_ignores_stored_attempt :
  let out :=
    report_violation "2024-01-01T10:04:00" store_after_one_noise "quiz-1"
      (ViolationReport.mk "__init__") "4SN21CS001" in
  out.1 = store_after_one_noise
  ∧ (violations_so_far <$> out.1 !! 0%nat) = Some 1
  ∧ out.2 = Ok (ViolationResponse.mk 0 (Some "IN_PROGRESS"))
  ∧ (ViolationResponse.violation_count <$>
       match out.2 with Ok r => Some r | _ => None end) ≠ Some 1.
Proof. vm_compute. repeat split; discriminate. Qed.

(** ** Submission *)

Lemma find_one_update_one {A} (P : A → Prop) `{!∀ x, Decision (P x)}
    (f : A → A) col i x :
  find_one P col = Some (i, x) → P (f x) →
  find_one P (update_one i f col) = Some (i, f x).
Proof.
  intros Hfind HP. apply find_one_Some in Hfind as (Hi & _ & Hfirst).
  unfold find_one, update_one. apply list_find_Some.
  split; [by rewrite list_lookup_alter_eq, Hi|].
  split; [done|].
  intros j y Hj Hlt. rewrite list_lookup_alter_ne in Hj by lia. eauto.
Qed.

Lemma find_one_insert_one {A} (P : A → Prop) `{!∀ x, Decision (P x)} col x :
  find_one P col = None → P x →
  find_one P (insert_one col x) = Some (length col, x).
Proof.
  unfold find_one, insert_one. intros Hnone HP.
  rewrite list_find_app_r by done. simpl.
  rewrite decide_True by done. simpl. do 2 f_equal; lia.
Qed.

Lemma submit_quiz_rejected fromisoformat now attempts_col questions_col
    quiz_id payload univ :
  has_terminal_attempt attempts_col univ quiz_id = true →
  submit_quiz fromisoformat now attempts_col questions_col quiz_id payload univ
  = (attempts_col, already_submitted).
Proof.
  unfold has_terminal_attempt, attempt_of, submit_quiz. intros Hrej.
  destruct (find_one _ attempts_col) as [[i existing]|]; [|done].
  by rewrite Hrej.
Qed.

Lemma submit_quiz_accepted fromisoformat now attempts_col questions_col
    quiz_id payload univ :
  has_terminal_attempt attempts_col univ quiz_id = false →
  let attempt_doc :=
    submitted_doc now attempts_col questions_col quiz_id payload univ in
  let attempts_col' :=
    match attempt_of attempts_col univ quiz_id with
    | Some (_id, _) => update_one _id (submit_update attempt_doc) attempts_col
    | None => insert_one attempts_col attempt_doc
    end in
  submit_quiz fromisoformat now attempts_col questions_col quiz_id payload univ
  = (attempts_col',
     Ok {| SubmitResponse.score := submitted_score questions_col quiz_id payload;
           SubmitResponse.status :=
             submitted_status questions_col quiz_id payload
               (prior_violation_count attempts_col univ quiz_id);
           SubmitResponse.violation_count :=
             prior_violation_count attempts_col univ quiz_id;
           SubmitResponse.rank :=
             compute_rank fromisoformat attempts_col' quiz_id univ;
           SubmitResponse.submitted_at := now |}).
Proof.
  unfold has_terminal_attempt, submitted_doc, submitted_score, submitted_status,
    prior_violation_count, violations_so_far, attempt_of, submit_quiz.
  intros Hacc. simpl.
  destruct (find_one _ attempts_col) as [[i existing]|].
  - rewrite Hacc. by destruct (default false (QuizSubmit.force_fail payload)).
  - by destruct (default false (QuizSubmit.force_fail payload)).
Qed.

(** After an accepted submission the pair has its attempt, and it carries the
    submitted document. *)
Lemma submit_quiz_stored fromisoformat now attempts_col questions_col
    quiz_id payload univ :
  has_terminal_attempt attempts_col univ quiz_id = false →
  let attempt_doc :=
    submitted_doc now attempts_col questions_col quiz_id payload univ in
  ∃ i a',
    attempt_of
      (submit_quiz fromisoformat now attempts_col questions_col quiz_id
         payload univ).1 univ quiz_id = Some (i, a')
    ∧ submit_update attempt_doc a' = a'
    ∧ Attempt.score a' = Attempt.score attempt_doc
    ∧ Attempt.status a' = Attempt.status attempt_doc
    ∧ Attempt.violation_count a' = Attempt.violation_count attempt_doc.
Proof.
  intros Hacc attempt_doc.
  rewrite submit_quiz_accepted by done. simpl. fold attempt_doc.
  unfold attempt_of.
  destruct (find_one _ attempts_col) as [[i existing]|] eqn:Hfind.
  - exists i, (submit_update attempt_doc existing).
    split; [|done]. by apply find_one_update_one.
  - exists (length attempts_col), attempt_doc.
    split; [|done]. by apply find_one_insert_one.
Qed.

Lemma pass_policy_spec score total violation_count :
  pass_policy score total violation_count = true
  ↔ (inject_Z total * (1 # 2) <= inject_Z score)%Q ∧ violation_count <= 1.
Proof.
  unfold pass_policy. rewrite andb_true_iff, Qle_bool_iff, Z.leb_le. done.
Qed.

(** The threshold in integers: at least half of the questions. *)
Lemma half_threshold score total :
  (inject_Z total * (1 # 2) <= inject_Z score)%Q ↔ total <= 2 * score.
Proof. unfold Qle, Qmult, inject_Z. simpl. lia. Qed.

Lemma not_rejected_no_terminal_attempt fromisoformat now attempts_col
    questions_col quiz_id payload univ :
  (submit_quiz fromisoformat now attempts_col questions_col quiz_id payload
     univ).2 ≠ already_submitted →
  has_terminal_attempt attempts_col univ quiz_id = false.
Proof.
  intros Hne. destruct (has_terminal_attempt _ _ _) eqn:Hrej; [|done].
  by rewrite submit_quiz_rejected in Hne.
Qed.

(** C2.  For a call of [submit_quiz] that is not rejected as already
    submitted, the response and the stored attempt of the pair carry the same
    score and status.  With [force_fail] true the score is 0 and the status
    ["FAILED"], whatever the answers.  Otherwise the score is the number of
    correct answers, and the status is ["PASSED"] exactly when
    [score >= total * 0.5] (equality included) and the violation count read
    before scoring is at most 1, and ["FAILED"] if not. *)
Theorem submit_quiz_outcome fromisoformat now attempts_col questions_col
    quiz_id payload univ :
  let out :=
    submit_quiz fromisoformat now attempts_col questions_col quiz_id payload
      univ in
  let violation_count := prior_violation_count attempts_col univ quiz_id in
  let all_questions := find (questions_of_quiz quiz_id) questions_col in
  let total := Z.of_nat (length all_questions) in
  out.2 ≠ already_submitted →
  ∃ response i stored,
    out.2 = Ok response
    ∧ attempt_of out.1 univ quiz_id = Some (i, stored)
    ∧ Attempt.score stored = Some (SubmitResponse.score response)
    ∧ Attempt.status stored = Val (SubmitResponse.status response)
    ∧ (QuizSubmit.force_fail payload = Some true →
         SubmitResponse.score response = 0
         ∧ SubmitResponse.status response = "FAILED")
    ∧ (QuizSubmit.force_fail payload ≠ Some true →
         SubmitResponse.score response
           = count_correct (QuizSubmit.answers payload) all_questions
         ∧ (SubmitResponse.status response = "PASSED"
            ↔ (inject_Z total * (1 # 2)
                 <= inject_Z (SubmitResponse.score response))%Q
              ∧ violation_count <= 1)
         ∧ (SubmitResponse.status response ≠ "PASSED" →
              SubmitResponse.status response = "FAILED")).
Proof.
  intros out violation_count all_questions total Hne.
  apply not_rejected_no_terminal_attempt in Hne as Hacc.
  destruct (submit_quiz_stored fromisoformat now attempts_col questions_col
              quiz_id payload univ Hacc) as (i & stored & Hat & _ & Hsc & Hst & _).
  subst out. rewrite submit_quiz_accepted in * by done. simpl in *.
  eexists _, i, stored. split; [reflexivity|]. simpl.
  split; [done|]. split; [done|]. split; [done|].
  unfold submitted_score, submitted_status.
  fold all_questions total violation_count. split.
  - by intros ->.
  - intros Hff.
    assert (default false (QuizSubmit.force_fail payload) = false) as ->.
    { by destruct (QuizSubmit.force_fail payload) as [[]|]. }
    split; [done|]. rewrite <- pass_policy_spec.
    destruct (pass_policy _ _ _); split; done.
Qed.
Lemma submit_quiz_outcome_witness :
  (∃ r, (submit_quiz Datetime.fromisoformat_naive "2024-01-01T10:20:00" []
           four_questions "quiz-1"
           (QuizSubmit.mk two_right "2024-01-01T10:00:00" None)
           "4SN21CS001").2 = Ok r
        ∧ SubmitResponse.score r = 2 ∧ SubmitResponse.status r = "PASSED")
  ∧ (∃ r, (submit_quiz Datetime.fromisoformat_naive "2024-01-01T10:20:00" []
             four_questions "quiz-1"
             (QuizSubmit.mk one_right "2024-01-01T10:00:00" (Some false))
             "4SN21CS001").2 = Ok r
          ∧ SubmitResponse.score r = 1 ∧ SubmitResponse.status r = "FAILED")
  ∧ (∃ r, (submit_quiz Datetime.fromisoformat_naive "2024-01-01T10:20:00"
             [two_violations_attempt] four_questions "quiz-1"
             (QuizSubmit.mk all_right "2024-01-01T10:00:00" None)
             "4SN21CS001").2 = Ok r
          ∧ SubmitResponse.score r = 4 ∧ SubmitResponse.status r = "FAILED")
  ∧ (∃ r, (submit_quiz Datetime.fromisoformat_naive "2024-01-01T10:20:00" []
             four_questions "quiz-1"
             (QuizSubmit.mk all_right "2024-01-01T10:00:00" (Some true))
             "4SN21CS001").2 = Ok r
          ∧ SubmitResponse.score r = 0 ∧ SubmitResponse.status r = "FAILED").
Proof.
  split; [|split; [|split]].
  - destruct (submit_quiz_outcome Datetime.fromisoformat_naive
                "2024-01-01T10:20:00" [] four_questions "quiz-1"
                (QuizSubmit.mk two_right "2024-01-01T10:00:00" None)
                "4SN21CS001")
      as (r & _ & _ & Hr & _ & _ & _ & _ & Hpol); [discriminate|].
    destruct Hpol as (Hscore & Hpass & _); [discriminate|].
    exists r. split; [exact Hr|]. split; [exact Hscore|].
    apply Hpass. rewrite Hscore. split; vm_compute; discriminate.
  - destruct (submit_quiz_outcome Datetime.fromisoformat_naive
                "2024-01-01T10:20:00" [] four_questions "quiz-1"
                (QuizSubmit.mk one_right "2024-01-01T10:00:00" (Some false))
                "4SN21CS001")
      as (r & _ & _ & Hr & _ & _ & _ & _ & Hpol); [discriminate|].
    destruct Hpol as (Hscore & Hpass & Hfail); [discriminate|].
    exists r. split; [exact Hr|]. split; [exact Hscore|].
    apply Hfail. intros Hp. apply Hpass in Hp as [Hhalf _].
    rewrite Hscore in Hhalf. vm_compute in Hhalf. apply Hhalf. reflexivity.
  - destruct (submit_quiz_outcome Datetime.fromisoformat_naive
                "2024-01-01T10:20:00" [two_violations_attempt] four_questions
                "quiz-1" (QuizSubmit.mk all_right "2024-01-01T10:00:00" None)
                "4SN21CS001")
      as (r & _ & _ & Hr & _ & _ & _ & _ & Hpol); [discriminate|].
    destruct Hpol as (Hscore & Hpass & Hfail); [discriminate|].
    exists r. split; [exact Hr|]. split; [exact Hscore|].
    apply Hfail. intros Hp. apply Hpass in Hp as [_ Hcap].
    vm_compute in Hcap. apply Hcap. reflexivity.
  - destruct (submit_quiz_outcome Datetime.fromisoformat_naive
                "2024-01-01T10:20:00" [] four_questions "quiz-1"
                (QuizSubmit.mk all_right "2024-01-01T10:00:00" (Some true))
                "4SN21CS001")
      as (r & _ & _ & Hr & _ & _ & _ & Hforce & _); [discriminate|].
    destruct Hforce as (Hscore & Hstatus); [reflexivity|].
    exists r. split; [exact Hr|]. split; [exact Hscore | exact Hstatus].
Defined.

(** ** Every call changes the attempts in one of three ways *)

Lemma active_not_terminal a : is_active a → ¬ is_terminal a.
Proof.
  unfold is_active, is_terminal.
  destruct (field_get (Attempt.status a)) as [s|]; simpl; [|done].
  intros Heq%String.eqb_eq. by subst s.
Qed.

Lemma update_one_const {A} (f : A → A) col i x :
  col !! i = Some x → update_one i f col = update_one i (λ _, f x) col.
Proof.
  intros Hi. unfold update_one. apply list_alter_ext; [|done].
  intros y Hy. rewrite Hi in Hy. by injection Hy as <-.
Qed.

Lemma report_violation_change now attempts_col quiz_id payload univ :
  change attempts_col
    (report_violation now attempts_col quiz_id payload univ).1.
Proof.
  destruct (decide (ViolationReport.violation_type payload = "__init__"))
    as [Hinit|Hreal];
    destruct (attempt_of attempts_col univ quiz_id) as [[i a]|] eqn:Hfind.
  - erewrite report_violation_init_present by done. constructor.
  - rewrite report_violation_init_absent by done. simpl.
    by apply change_insert.
  - destruct (decide (is_active a)) as [Hact|Hact].
    + pose proof (report_violation_active now _ _ _ _ _ _ Hreal Hfind Hact) as ->.
      simpl. apply find_one_Some in Hfind as (Hi & _ & _).
      eapply change_update; eauto using active_not_terminal.
      unfold violations_so_far. simpl. lia.
    + erewrite report_violation_not_active by done. constructor.
  - rewrite report_violation_no_attempt by done. constructor.
Qed.

Lemma submit_quiz_change fromisoformat now attempts_col questions_col quiz_id
    payload univ :
  change attempts_col
    (submit_quiz fromisoformat now attempts_col questions_col quiz_id payload
       univ).1.
Proof.
  destruct (has_terminal_attempt attempts_col univ quiz_id) eqn:Hrej.
  - rewrite submit_quiz_rejected by done. constructor.
  - rewrite submit_quiz_accepted by done. simpl.
    destruct (attempt_of attempts_col univ quiz_id) as [[i a]|] eqn:Hfind.
    + assert (prior_violation_count attempts_col univ quiz_id
              = violations_so_far a) as Hprior.
      { unfold prior_violation_count. by rewrite Hfind. }
      unfold has_terminal_attempt in Hrej. rewrite Hfind in Hrej.
      apply find_one_Some in Hfind as (Hi & [Hu Hq] & _).
      erewrite update_one_const by done.
      eapply change_update; eauto.
      * unfold is_terminal. by rewrite Hrej.
      * unfold violations_so_far at 2. simpl. lia.
    + by apply change_insert.
Qed.

Lemma step_change fromisoformat attempts_col attempts_col' :
  step fromisoformat attempts_col attempts_col' →
  change attempts_col attempts_col'.
Proof.
  intros [|]; [apply report_violation_change | apply submit_quiz_change].
Qed.

Lemma change_terminal_kept attempts_col attempts_col' i a :
  change attempts_col attempts_col' →
  attempts_col !! i = Some a → is_terminal a →
  attempts_col' !! i = Some a.
Proof.
  intros Hch Hi Hterm. destruct Hch as [col|col doc Hnone|col j b b' Hj Hb].
  - done.
  - by apply lookup_app_l_Some.
  - unfold update_one. destruct (decide (j = i)) as [->|Hne].
    + rewrite Hi in Hj. injection Hj as ->. done.
    + by rewrite list_lookup_alter_ne.
Qed.

Lemma change_attempt_kept attempts_col attempts_col' i a :
  change attempts_col attempts_col' →
  attempts_col !! i = Some a →
  ∃ a',
    attempts_col' !! i = Some a'
    ∧ Attempt.student_university_number a' = Attempt.student_university_number a
    ∧ Attempt.quiz_id a' = Attempt.quiz_id a
    ∧ violations_so_far a <= violations_so_far a'.
Proof.
  intros Hch Hi.
  destruct Hch as [col|col doc Hnone|col j b b' Hj Hb Hu Hq Hle].
  - exists a. repeat split; [done..|lia].
  - exists a. repeat split; [by apply lookup_app_l_Some|done..|lia].
  - unfold update_one. destruct (decide (j = i)) as [->|Hne].
    + rewrite Hi in Hj. injection Hj as ->. exists b'.
      by rewrite list_lookup_alter_eq, Hi.
    + exists a. rewrite list_lookup_alter_ne by done.
      repeat split; [done..|lia].
Qed.

Lemma change_one_attempt_per_pair attempts_col attempts_col' :
  change attempts_col attempts_col' →
  one_attempt_per_pair attempts_col → one_attempt_per_pair attempts_col'.
Proof.
  intros Hch.
  destruct Hch as [col|col doc Hnone|col k c c' Hk Hc Hu Hq Hle]; intros Hone.
  - done.
  - intros i j a b Hi Hj Hsu Hsq. unfold insert_one in *.
    apply lookup_snoc_Some in Hi as [[Hli Hi]|[-> ->]];
      apply lookup_snoc_Some in Hj as [[Hlj Hj]|[-> ->]].
    + eauto.
    + exfalso. eapply (find_one_None _ _ Hnone); [exact Hi|]. by split.
    + exfalso. eapply (find_one_None _ _ Hnone); [exact Hj|]. by split.
    + done.
  - intros i j a b Hi Hj Hsu Hsq. unfold update_one in *.
    destruct (decide (k = i)) as [Hki|Hki]; destruct (decide (k = j)) as [Hkj|Hkj];
      subst.
    + done.
    + rewrite list_lookup_alter_eq, Hk in Hi. injection Hi as <-.
      rewrite list_lookup_alter_ne in Hj by done.
      eapply Hone; eauto; congruence.
    + rewrite list_lookup_alter_eq, Hk in Hj. injection Hj as <-.
      rewrite list_lookup_alter_ne in Hi by done.
      eapply Hone; eauto; congruence.
    + rewrite list_lookup_alter_ne in Hi, Hj by done. eauto.
Qed.

Lemma one_attempt_per_pair_nil : one_attempt_per_pair [].
Proof. intros i j a b Hi. by rewrite lookup_nil in Hi. Qed.

(** Starting from an empty collection, the program never stores two attempts
    for one pair. *)
Lemma steps_one_attempt_per_pair fromisoformat attempts_col attempts_col' :
  steps fromisoformat attempts_col attempts_col' →
  one_attempt_per_pair attempts_col → one_attempt_per_pair attempts_col'.
Proof.
  induction 1 as [|x y z Hstep _ IH]; [done|].
  intros Hone. apply IH. eapply change_one_attempt_per_pair; [|done].
  by eapply step_change.
Qed.

(** C4.  Along any sequence of calls of the violation endpoint
    (initialisation included) and the submit endpoint, by any students on any
    quizzes: an attempt whose status is ["PASSED"] or ["FAILED"] stays in the
    store with every field unchanged, so no status ever leaves a terminal
    state; and every attempt stays the attempt of its pair with a violation
    count that never decreases. *)
Theorem terminal_attempt_frozen fromisoformat attempts_col attempts_col' :
  steps fromisoformat attempts_col attempts_col' →
  ∀ i a,
    attempts_col !! i = Some a →
    (is_terminal a → attempts_col' !! i = Some a)
    ∧ ∃ a',
        attempts_col' !! i = Some a'
        ∧ Attempt.student_university_number a'
          = Attempt.student_university_number a
        ∧ Attempt.quiz_id a' = Attempt.quiz_id a
        ∧ violations_so_far a <= violations_so_far a'.
Proof.
  induction 1 as [x|x y z Hstep _ IH]; intros i a Hi.
  - split; [done|]. exists a. repeat split; [done..|lia].
  - apply step_change in Hstep. split.
    + intros Hterm. apply IH; [|done]. by eapply change_terminal_kept.
    + destruct (change_attempt_kept _ _ _ _ Hstep Hi) as (b & Hb & Hu & Hq & Hle).
      destruct (IH _ _ Hb) as [_ (c & Hc & Hu' & Hq' & Hle')].
      exists c. repeat split; [done|congruence..|lia].
Qed.

Lemma terminal_attempt_frozen_witness :
  is_terminal tab_switch_attempt
  ∧ replayed_calls [tab_switch_attempt] !! 0%nat = Some tab_switch_attempt.
Proof.
  assert (is_terminal tab_switch_attempt) as Hterm by reflexivity.
  split; [exact Hterm|].
  refine (proj1 (terminal_attempt_frozen Datetime.fromisoformat_naive
                   [tab_switch_attempt] (replayed_calls [tab_switch_attempt])
                   _ 0%nat tab_switch_attempt eq_refl) Hterm).
  unfold steps, replayed_calls.
  eapply rtc_l; [apply step_report_violation|].
  eapply rtc_l; [apply step_report_violation|].
  eapply rtc_l; [apply step_submit_quiz|].
  apply rtc_refl.
Defined.

(** C10.  For a quiz with no question, a call of [submit_quiz] with
    [force_fail] not set, a prior violation count of at most 1 and no rejection
    as already submitted returns and stores score 0 with status ["PASSED"]: the
    threshold comparison [0 >= 0 * 0.5] holds. *)
Theorem submit_quiz_empty_quiz fromisoformat now attempts_col questions_col
    quiz_id payload univ :
  let out :=
    submit_quiz fromisoformat now attempts_col questions_col quiz_id payload
      univ in
  find (questions_of_quiz quiz_id) questions_col = [] →
  QuizSubmit.force_fail payload ≠ Some true →
  prior_violation_count attempts_col univ quiz_id <= 1 →
  out.2 ≠ already_submitted →
  (inject_Z 0 * (1 # 2) <= inject_Z 0)%Q
  ∧ ∃ response i stored,
      out.2 = Ok response
      ∧ SubmitResponse.score response = 0
      ∧ SubmitResponse.status response = "PASSED"
      ∧ attempt_of out.1 univ quiz_id = Some (i, stored)
      ∧ Attempt.score stored = Some 0
      ∧ Attempt.status stored = Val "PASSED".
Proof.
  intros out Hempty Hff Hcap Hne. split; [done|].
  apply not_rejected_no_terminal_attempt in Hne as Hacc.
  destruct (submit_quiz_stored fromisoformat now attempts_col questions_col
              quiz_id payload univ Hacc) as (i & stored & Hat & _ & Hsc & Hst & _).
  subst out. rewrite submit_quiz_accepted in * by done. simpl in *.
  assert (default false (QuizSubmit.force_fail payload) = false) as Hfalse.
  { by destruct (QuizSubmit.force_fail payload) as [[]|]. }
  assert (submitted_score questions_col quiz_id payload = 0) as Hscore.
  { unfold submitted_score. by rewrite Hfalse, Hempty. }
  assert (submitted_status questions_col quiz_id payload
            (prior_violation_count attempts_col univ quiz_id) = "PASSED")
    as Hstatus.
  { unfold submitted_status. rewrite Hfalse, Hempty.
    rewrite (proj2 (pass_policy_spec _ _ _)); [done|].
    split; [|done]. apply half_threshold. unfold count_correct. simpl. lia. }
  eexists _, i, stored. split; [reflexivity|]. simpl.
  rewrite Hscore, Hstatus in *. done.
Qed.

Lemma submit_quiz_empty_quiz_witness :
  ∃ response,
    (submit_quiz Datetime.fromisoformat_naive "2024-01-01T10:20:00"
       [first_noise_attempt] four_questions "quiz-3"
       (QuizSubmit.mk all_right "2024-01-01T10:00:00" None) "4SN21CS001").2
    = Ok response
    ∧ SubmitResponse.score response = 0
    ∧ SubmitResponse.status response = "PASSED".
Proof.
  destruct (submit_quiz_empty_quiz Datetime.fromisoformat_naive
              "2024-01-01T10:20:00" [first_noise_attempt] four_questions
              "quiz-3" (QuizSubmit.mk all_right "2024-01-01T10:00:00" None)
              "4SN21CS001")
    as (_ & response & _ & _ & Hr & Hscore & Hstatus & _).
  - reflexivity.
  - discriminate.
  - vm_compute. discriminate.
  - discriminate.
  - exists response. split; [exact Hr|]. split; [exact Hscore | exact Hstatus].
Defined.

(** C8.  On a store with at most one attempt per (student, quiz),
    [submit_quiz] raises the already-submitted error exactly when some attempt
    of the pair has status ["PASSED"] or ["FAILED"]; it raises no other error;
    and when it raises, the store is returned unchanged. *)
Theorem submit_quiz_conflict fromisoformat now attempts_col questions_col
    quiz_id payload univ :
  let out :=
    submit_quiz fromisoformat now attempts_col questions_col quiz_id payload
      univ in
  one_attempt_per_pair attempts_col →
  (out.2 = already_submitted
   ↔ ∃ i a,
       attempts_col !! i = Some a
       ∧ of_student_and_quiz univ quiz_id a
       ∧ is_terminal a)
  ∧ (out.2 = already_submitted ∨ ∃ response, out.2 = Ok response)
  ∧ (out.2 = already_submitted → out.1 = attempts_col).
Proof.
  intros out Hone. subst out.
  destruct (has_terminal_attempt attempts_col univ quiz_id) eqn:Hrej.
  - rewrite submit_quiz_rejected by done. simpl.
    split; [|by split; [left|]]. split; [intros _|done].
    unfold has_terminal_attempt in Hrej.
    destruct (attempt_of attempts_col univ quiz_id) as [[i a]|] eqn:Hfind; [|done].
    apply find_one_Some in Hfind as (Hi & Hkey & _). by exists i, a.
  - rewrite submit_quiz_accepted by done. simpl.
    split; [|by split; [right; eexists|]]. split; [done|].
    intros (i & a & Hi & [Hu Hq] & Hterm). exfalso.
    unfold has_terminal_attempt in Hrej.
    destruct (attempt_of attempts_col univ quiz_id) as [[j b]|] eqn:Hfind.
    + apply find_one_Some in Hfind as (Hj & [Hu' Hq'] & _).
      assert (i = j) as -> by (eapply Hone; eauto; congruence).
      rewrite Hi in Hj. injection Hj as <-.
      unfold is_terminal in Hterm. congruence.
    + eapply (find_one_None _ _ Hfind); [exact Hi|]. by split.
Qed.

Lemma submit_quiz_conflict_witness :
  one_attempt_per_pair [tab_switch_attempt]
  ∧ (submit_quiz Datetime.fromisoformat_naive "2024-01-01T10:20:00"
       [tab_switch_attempt] four_questions "quiz-1"
       (QuizSubmit.mk all_right "2024-01-01T10:00:00" None) "4SN21CS001")
    = ([tab_switch_attempt], already_submitted).
Proof.
  assert (one_attempt_per_pair [tab_switch_attempt]) as Hone.
  { intros [|i] [|j] a b Hi Hj _ _; [reflexivity|discriminate..]. }
  split; [exact Hone|].
  destruct (submit_quiz_conflict Datetime.fromisoformat_naive
              "2024-01-01T10:20:00" [tab_switch_attempt] four_questions
              "quiz-1" (QuizSubmit.mk all_right "2024-01-01T10:00:00" None)
              "4SN21CS001" Hone) as (Hiff & _ & Hsame).
  assert ((submit_quiz Datetime.fromisoformat_naive "2024-01-01T10:20:00"
             [tab_switch_attempt] four_questions "quiz-1"
             (QuizSubmit.mk all_right "2024-01-01T10:00:00" None)
             "4SN21CS001").2 = already_submitted) as Herr.
  { apply Hiff. exists 0%nat, tab_switch_attempt.
    split; [reflexivity|]. split; [split; reflexivity | reflexivity]. }
  apply injective_projections; [exact (Hsame Herr) | exact Herr].
Defined.

(** ** Scoring *)

Lemma upper_eq_ignoring_case s1 s2 :
  String.eqb (upper s1) (upper s2) = eq_ignoring_case s1 s2.
Proof.
  revert s2. induction s1 as [|c1 s1 IH]; intros [|c2 s2];
    cbn [upper eq_ignoring_case String.eqb]; try done.
  unfold same_letter. by rewrite IH.
Qed.

Lemma count_correct_from answers (all_questions : list Question.t) (n : Z) :
  fold_left
    (λ correct q,
       if String.eqb (upper (default "" (answers !! Question._id q)))
                     (upper (Question.correct_option q))
       then correct + 1 else correct)
    all_questions n
  = n + Z.of_nat (length (filter (is_match answers) all_questions)).
Proof.
  revert n. induction all_questions as [|q qs IH]; intros n; simpl; [lia|].
  rewrite IH, filter_cons, upper_eq_ignoring_case.
  destruct (decide (is_match answers q)) as [Hm|Hm];
    unfold is_match, submitted_label in Hm.
  - rewrite Hm. simpl. lia.
  - apply not_true_is_false in Hm. rewrite Hm. lia.
Qed.

Lemma filter_iff_on {A} (P Q : A → Prop) `{!∀ x, Decision (P x)}
    `{!∀ x, Decision (Q x)} (l : list A) :
  (∀ x, x ∈ l → P x ↔ Q x) → filter P l = filter Q l.
Proof.
  induction l as [|x l IH]; intros Hiff; [done|].
  rewrite !filter_cons, IH by (intros y Hy; apply Hiff; by right).
  destruct (decide (P x)) as [HP|HP], (decide (Q x)) as [HQ|HQ]; try done;
    exfalso; apply (Hiff x) in HP || apply (Hiff x) in HQ; try done; by left.
Qed.





(** ** Sorting *)

Section Sorting.

Context {A K : Type} (lt : K → K → bool) (key : A → K).

Hypothesis lt_asym : ∀ a b, lt a b = true → lt b a = false.
Hypothesis not_lt_trans :
  ∀ a b c, lt b a = false → lt c b = false → lt c a = false.

Lemma insert_by_Permutation x l : Permutation (insert_by lt key x l) (x :: l).
Proof.
  induction l as [|y l IH]; simpl; [done|].
  destruct (lt (key y) (key x)); [|done].
  rewrite IH. apply perm_swap.
Qed.

Lemma sort_by_Permutation l : Permutation (sort_by lt key l) l.
Proof.
  induction l as [|x l IH]; simpl; [done|].
  rewrite insert_by_Permutation. by constructor.
Qed.

Lemma insert_by_sorted x l :
  StronglySorted (not_after lt key) l → StronglySorted (not_after lt key) (insert_by lt key x l).
Proof.
  induction 1 as [|y l Hsorted IH Hall]; simpl.
  - by repeat constructor.
  - destruct (lt (key y) (key x)) eqn:Hlt.
    + constructor; [done|].
      rewrite (insert_by_Permutation x l). constructor; [|done].
      unfold not_after. by apply lt_asym.
    + constructor; [by constructor|]. constructor; [done|].
      eapply Forall_impl; [exact Hall|].
      intros z Hz. unfold not_after in *. eauto.
Qed.

Lemma sort_by_sorted l : StronglySorted (not_after lt key) (sort_by lt key l).
Proof.
  induction l as [|x l IH]; simpl; [constructor|]. by apply insert_by_sorted.
Qed.

End Sorting.

Lemma tuple_lt_false k1 k2 :
  tuple_lt k1 k2 = false ↔ k2.1 < k1.1 ∨ (k2.1 = k1.1 ∧ k2.2 <= k1.2).
Proof.
  unfold tuple_lt. rewrite orb_false_iff, andb_false_iff.
  rewrite !Z.ltb_ge, Z.eqb_neq. lia.
Qed.

Lemma tuple_lt_asym k1 k2 : tuple_lt k1 k2 = true → tuple_lt k2 k1 = false.
Proof.
  intros Hlt. apply tuple_lt_false.
  unfold tuple_lt in Hlt. apply orb_true_iff in Hlt.
  rewrite andb_true_iff, !Z.ltb_lt, Z.eqb_eq in Hlt. lia.
Qed.

Lemma tuple_not_lt_trans k1 k2 k3 :
  tuple_lt k2 k1 = false → tuple_lt k3 k2 = false → tuple_lt k3 k1 = false.
Proof. rewrite !tuple_lt_false. lia. Qed.

Lemma not_after_ranks_before x y :
  not_after tuple_lt sort_key x y ↔ ranks_before x y.
Proof.
  unfold not_after, ranks_before, sort_key. rewrite tuple_lt_false. simpl. lia.
Qed.

(** ** Leaderboard *)

Lemma clear_rank_set_rank i x : clear_rank (set_rank i x) = clear_rank x.
Proof. done. Qed.

Lemma clear_rank_entry_of fromisoformat students_col a :
  clear_rank (entry_of fromisoformat students_col a)
  = entry_of fromisoformat students_col a.
Proof. done. Qed.

Lemma leaderboard_unfold fromisoformat attempts_col students_col quiz_id :
  leaderboard fromisoformat attempts_col students_col quiz_id
  = imap set_rank
      (sort_by tuple_lt sort_key
         (entry_of fromisoformat students_col
            <$> find (terminal_of_quiz quiz_id) attempts_col)).
Proof. done. Qed.

Lemma StronglySorted_lookup {A} (R : A → A → Prop) l i j x y :
  StronglySorted R l → l !! i = Some x → l !! j = Some y → (i < j)%nat → R x y.
Proof.
  intros Hsorted. revert i j.
  induction Hsorted as [|z l Hsorted IH Hall]; intros i j Hi Hj Hlt.
  - by rewrite lookup_nil in Hi.
  - destruct j as [|j]; [lia|]. simpl in Hj. destruct i as [|i].
    + injection Hi as <-. rewrite Forall_forall in Hall. apply Hall.
      apply list_elem_of_lookup. eauto.
    + simpl in Hi. eapply IH; eauto. lia.
Qed.

(** C5.  The leaderboard of a quiz holds, entry for entry, the attempts of
    the quiz whose status is ["PASSED"] or ["FAILED"] and no other; an entry
    that stands before another has a higher score, or the same score and a
    time taken that is not longer; and the rank of each entry is its position
    counted from 1.  Attempts A (score 8, 120 s), B (score 8, 90 s) and
    C (score 9, 300 s), stored with an attempt still in progress, appear in the
    order C, B, A with ranks 1, 2, 3. *)
Theorem leaderboard_sorted_and_ranked :
  (∀ fromisoformat attempts_col students_col quiz_id,
     let board := leaderboard fromisoformat attempts_col students_col quiz_id in
     Permutation (clear_rank <$> board)
       (entry_of fromisoformat students_col
          <$> find (terminal_of_quiz quiz_id) attempts_col)
     ∧ (∀ i j x y,
          board !! i = Some x → board !! j = Some y → (i < j)%nat →
          ranks_before x y)
     ∧ (∀ i x, board !! i = Some x → Entry.rank x = Some (Z.of_nat i + 1)))
  ∧ (let board :=
       leaderboard Datetime.fromisoformat_naive abc_attempts [] "quiz-1" in
     Entry.university_number <$> board = ["C"; "B"; "A"]
     ∧ Entry.score <$> board = [9; 8; 8]
     ∧ Entry.time_taken_seconds <$> board = [300; 90; 120]
     ∧ Entry.rank <$> board = [Some 1; Some 2; Some 3]).
Proof.
  split; [|by vm_compute].
  intros fromisoformat attempts_col students_col quiz_id board.
  subst board. rewrite leaderboard_unfold.
  set (rows := entry_of fromisoformat students_col
                 <$> find (terminal_of_quiz quiz_id) attempts_col).
  split; [|split].
  - rewrite <- (sort_by_Permutation tuple_lt sort_key rows) at 2.
    assert (∀ l, Forall (λ x, clear_rank x = x) l →
                 clear_rank <$> imap set_rank l = l) as Hclear.
    { intros l Hl. apply list_eq. intros i.
      rewrite list_lookup_fmap, list_lookup_imap.
      destruct (l !! i) as [x|] eqn:Hx; [|done]. simpl.
      rewrite clear_rank_set_rank. f_equal.
      rewrite Forall_forall in Hl. apply Hl.
      apply list_elem_of_lookup. eauto. }
    rewrite Hclear; [done|].
    rewrite (sort_by_Permutation tuple_lt sort_key rows).
    unfold rows. apply Forall_fmap, Forall_forall. by intros a _.
  - intros i j x y Hi Hj Hlt.
    apply list_lookup_imap_Some in Hi as (x' & Hi & ->).
    apply list_lookup_imap_Some in Hj as (y' & Hj & ->).
    assert (ranks_before x' y') as Hxy; [|exact Hxy].
    apply not_after_ranks_before.
    eapply StronglySorted_lookup; [|exact Hi|exact Hj|exact Hlt].
    apply sort_by_sorted; [apply tuple_lt_asym | apply tuple_not_lt_trans].
  - intros i x Hi. by apply list_lookup_imap_Some in Hi as (x' & _ & ->).
Qed.

(** ** The rank query *)

Lemma compute_rank_from fromisoformat univ (l : list Attempt.t) (rank : Z) :
  fold_left (compute_rank_step fromisoformat univ) l rank
  = rank + Z.of_nat (length (filter (counted_by_compute_rank univ) l)).
Proof.
  revert rank. induction l as [|a l IH]; intros rank; simpl; [lia|].
  rewrite IH, filter_cons. unfold compute_rank_step.
  destruct (decide (counted_by_compute_rank univ a)) as [[Hu Hs]|Hno].
  - apply String.eqb_neq in Hu. apply Z.ltb_lt in Hs. rewrite Hu, Hs.
    destruct (time_taken fromisoformat a); simpl; lia.
  - destruct (String.eqb_spec (Attempt.student_university_number a) univ)
      as [Heq|Hne]; [lia|].
    destruct (Z.ltb_spec 0 (default 0 (Attempt.score a))) as [Hs|Hs]; [|lia].
    exfalso. apply Hno. by split.
Qed.

(** The rank query returns one more than the number of terminal attempts of
    the quiz, by other students, whose score is positive. *)
Lemma compute_rank_counts_positive_scores fromisoformat attempts_col quiz_id univ :
  compute_rank fromisoformat attempts_col quiz_id univ
  = 1 + Z.of_nat
          (length
             (filter (counted_by_compute_rank univ)
                (find (terminal_of_quiz quiz_id) attempts_col))).
Proof. unfold compute_rank. apply compute_rank_from. Qed.

(** C1 (the code departs from the claim).  Two students submit for the same
    quiz, the first scoring 2 and the second 4.  The leaderboard ranks the
    second student first, while [compute_rank], and with it the response of
    the second submission, gives the second student rank 2. *)
Theorem compute_rank_disagrees_with_leaderboard :
  let attempts_col := second_submission.1 in
  let board := leaderboard Datetime.fromisoformat_naive attempts_col [] "quiz-1" in
  Attempt.score <$> attempts_col = [Some 2; Some 4]
  ∧ Entry.university_number <$> board = ["4SN21CS002"; "4SN21CS001"]
  ∧ leaderboard_rank_of "4SN21CS002" board = Some 1
  ∧ compute_rank Datetime.fromisoformat_naive attempts_col "quiz-1" "4SN21CS002"
    = 2
  ∧ SubmitResponse.rank <$> response_of second_submission.2 = Some 2.
Proof. by vm_compute. Qed.

(** ** Time taken *)

(** The time query of the leaderboard never fails: an attempt whose
    timestamps cannot be read or subtracted gets the sentinel. *)
Lemma time_taken_seconds_sentinel fromisoformat students_col a :
  time_taken fromisoformat a = None →
  Entry.time_taken_seconds (entry_of fromisoformat students_col a) = 99999.
Proof. unfold entry_of. by intros ->. Qed.

Lemma time_taken_unparsable fromisoformat a :
  Attempt.submitted_at a ≫= fromisoformat = None
  ∨ Attempt.started_at a ≫= fromisoformat = None →
  time_taken fromisoformat a = None.
Proof.
  unfold time_taken. intros [->| ->]; [done|].
  by destruct (Attempt.submitted_at a ≫= fromisoformat).
Qed.

(** Within one day, and for two timestamps of the same kind, the time taken is
    the difference in whole seconds. *)
Lemma time_taken_within_a_day fromisoformat students_col a submitted started delta :
  Attempt.submitted_at a ≫= fromisoformat = Some submitted →
  Attempt.started_at a ≫= fromisoformat = Some started →
  Datetime.sub submitted started = Some delta →
  0 <= delta < Datetime.seconds_per_day * Datetime.us_per_second →
  Entry.time_taken_seconds (entry_of fromisoformat students_col a)
  = Datetime.whole_seconds delta.
Proof.
  intros Hsub Hst Hdelta Hday. unfold entry_of, time_taken.
  rewrite Hsub, Hst. simpl. rewrite Hdelta. simpl.
  unfold Datetime.seconds, Datetime.whole_seconds in *.
  apply Z.mod_small. split.
  - apply Z.div_pos; [lia|done].
  - apply Z.div_lt_upper_bound; [done|].
    unfold Datetime.seconds_per_day, Datetime.us_per_second in *. lia.
Qed.


(** C9 (the code departs from the claim).  A submission arrives one day and
    five seconds after the start time it carries.  Both timestamps parse and
    their difference is 86405 whole seconds, but [time_taken_seconds] of the
    attempt on the leaderboard is 5. *)
Theorem time_taken_drops_whole_days :
  let attempts_col := overnight_submission.1 in
  let board := leaderboard Datetime.fromisoformat_naive attempts_col [] "quiz-1" in
  Attempt.started_at <$> attempts_col = [Some "2024-01-01T10:00:00"]
  ∧ Attempt.submitted_at <$> attempts_col = [Some "2024-01-02T10:00:05"]
  ∧ elapsed_whole_seconds Datetime.fromisoformat_naive <$> attempts_col
    = [Some 86405]
  ∧ time_taken Datetime.fromisoformat_naive <$> attempts_col = [Some 5]
  ∧ Entry.time_taken_seconds <$> board = [5].
Proof. by vm_compute. Qed.

(** ** Further properties *)

(** Initialising creates the attempt of a pair that has none (no violation, no
    answer, status ["IN_PROGRESS"], started now), leaves the store as it is
    when the pair has an attempt, and initialising again changes nothing. *)
Theorem initialize_idempotent now now' attempts_col quiz_id univ :
  let init := ViolationReport.mk "__init__" in
  let once := (report_violation now attempts_col quiz_id init univ).1 in
  (attempt_of attempts_col univ quiz_id = None →
     once = insert_one attempts_col
              {| Attempt.student_university_number := univ;
                 Attempt.quiz_id := quiz_id;
                 Attempt.answers := ∅;
                 Attempt.score := Some 0;
                 Attempt.violation_count := Some 0;
                 Attempt.violations := Some [];
                 Attempt.status := Val "IN_PROGRESS";
                 Attempt.started_at := Some now;
                 Attempt.submitted_at := None |})
  ∧ (is_Some (attempt_of attempts_col univ quiz_id) → once = attempts_col)
  ∧ (report_violation now' once quiz_id init univ).1 = once.
Proof.
  intros init once.
  assert (attempt_of attempts_col univ quiz_id = None →
          once = insert_one attempts_col
              {| Attempt.student_university_number := univ;
                 Attempt.quiz_id := quiz_id;
                 Attempt.answers := ∅;
                 Attempt.score := Some 0;
                 Attempt.violation_count := Some 0;
                 Attempt.violations := Some [];
                 Attempt.status := Val "IN_PROGRESS";
                 Attempt.started_at := Some now;
                 Attempt.submitted_at := None |}) as Hnew.
  { intros Hnone. unfold once. by rewrite report_violation_init_absent. }
  assert (∀ t col, is_Some (attempt_of col univ quiz_id) →
                   (report_violation t col quiz_id init univ).1 = col) as Hold.
  { intros t col [[i a] Hsome]. by erewrite report_violation_init_present. }
  split; [done|]. split; [apply Hold|].
  apply Hold.
  destruct (attempt_of attempts_col univ quiz_id) as [[i a]|] eqn:Hfind.
  - unfold once. rewrite Hold by (rewrite Hfind; eauto). rewrite Hfind. eauto.
  - rewrite Hnew by done. unfold attempt_of.
    rewrite find_one_insert_one; [eauto|done|]. by split.
Qed.

(** Starting from an empty collection, the calls never leave two attempts of
    one (student, quiz) pair in the store. *)
Theorem reachable_one_attempt_per_pair fromisoformat attempts_col :
  steps fromisoformat [] attempts_col → one_attempt_per_pair attempts_col.
Proof.
  intros Hsteps. eapply steps_one_attempt_per_pair; [exact Hsteps|].
  apply one_attempt_per_pair_nil.
Qed.

Lemma reachable_one_attempt_per_pair_witness :
  one_attempt_per_pair (replayed_calls []).
Proof.
  apply (reachable_one_attempt_per_pair Datetime.fromisoformat_naive).
  unfold steps, replayed_calls.
  eapply rtc_l; [apply step_report_violation|].
  eapply rtc_l; [apply step_report_violation|].
  eapply rtc_l; [apply step_submit_quiz|].
  apply rtc_refl.
Defined.

(** On the leaderboard, an attempt with a timestamp that is missing or does
    not parse has the sentinel 99999 as its time taken. *)
Theorem unparsable_timestamp_sentinel fromisoformat students_col a :
  Attempt.submitted_at a ≫= fromisoformat = None
  ∨ Attempt.started_at a ≫= fromisoformat = None →
  Entry.time_taken_seconds (entry_of fromisoformat students_col a) = 99999.
Proof.
  intros Hbad. apply time_taken_seconds_sentinel. by apply time_taken_unparsable.
Qed.

Lemma unparsable_timestamp_sentinel_witness :
  Entry.time_taken_seconds
    (entry_of Datetime.fromisoformat_naive []
       (finished "E" 7 "PASSED" "yesterday")) = 99999.
Proof.
  apply (unparsable_timestamp_sentinel Datetime.fromisoformat_naive []
           (finished "E" 7 "PASSED" "yesterday")).
  left. reflexivity.
Defined.

(** On the leaderboard, an attempt whose two timestamps parse, are both naive
    or both aware, and lie less than one day apart in order, has their
    difference in whole seconds as its time taken. *)
Theorem time_taken_is_difference_within_a_day fromisoformat students_col a
    submitted started delta :
  Attempt.submitted_at a ≫= fromisoformat = Some submitted →
  Attempt.started_at a ≫= fromisoformat = Some started →
  Datetime.sub submitted started = Some delta →
  0 <= delta < Datetime.seconds_per_day * Datetime.us_per_second →
  Entry.time_taken_seconds (entry_of fromisoformat students_col a)
  = Datetime.whole_seconds delta.
Proof. apply time_taken_within_a_day. Qed.

Lemma time_taken_is_difference_within_a_day_witness :
  Entry.time_taken_seconds
    (entry_of Datetime.fromisoformat_naive []
       (finished "A" 8 "PASSED" "2024-01-01T10:02:00")) = 120.
Proof.
  refine (time_taken_is_difference_within_a_day Datetime.fromisoformat_naive []
            (finished "A" 8 "PASSED" "2024-01-01T10:02:00")
            (Datetime.mk 63839786520000000 None)
            (Datetime.mk 63839786400000000 None) 120000000 _ _ _ _).
  - reflexivity.
  - reflexivity.
  - reflexivity.
  - split; [vm_compute; discriminate | reflexivity].
Defined.

(** The sort is stable: the entries of one key keep their order. *)
Lemma insert_by_stable {A K} `{!EqDecision K} (lt : K → K → bool)
    (key : A → K) (k : K) x l :
  (∀ a, lt a a = false) →
  filter (λ y, key y = k) (insert_by lt key x l)
  = filter (λ y, key y = k) (x :: l).
Proof.
  intros Hirr. induction l as [|y l IH]; simpl; [done|].
  destruct (lt (key y) (key x)) eqn:Hlt; [|done].
  rewrite filter_cons, IH, !filter_cons.
  destruct (decide (key y = k)) as [Hy|Hy], (decide (key x = k)) as [Hx|Hx];
    try done.
  rewrite Hy, Hx, Hirr in Hlt. done.
Qed.

Lemma sort_by_stable {A K} `{!EqDecision K} (lt : K → K → bool)
    (key : A → K) (k : K) l :
  (∀ a, lt a a = false) →
  filter (λ y, key y = k) (sort_by lt key l) = filter (λ y, key y = k) l.
Proof.
  intros Hirr. induction l as [|x l IH]; simpl; [done|].
  rewrite insert_by_stable by done. by rewrite !filter_cons, IH.
Qed.

Lemma tuple_lt_irrefl k : tuple_lt k k = false.
Proof. apply tuple_lt_false. lia. Qed.

(** Entries of the leaderboard with the same score and the same time taken
    stand in the order in which their attempts are stored. *)
Theorem leaderboard_ties_in_store_order fromisoformat attempts_col students_col
    quiz_id (score time_taken_seconds : Z) :
  let tied (x : Entry.t) :=
    Entry.score x = score ∧ Entry.time_taken_seconds x = time_taken_seconds in
  filter tied
    (clear_rank <$> leaderboard fromisoformat attempts_col students_col quiz_id)
  = filter tied
      (entry_of fromisoformat students_col
         <$> find (terminal_of_quiz quiz_id) attempts_col).
Proof.
  intros tied. rewrite leaderboard_unfold.
  set (rows := entry_of fromisoformat students_col
                 <$> find (terminal_of_quiz quiz_id) attempts_col).
  assert (clear_rank <$> imap set_rank (sort_by tuple_lt sort_key rows)
          = sort_by tuple_lt sort_key rows) as ->.
  { apply list_eq. intros i. rewrite list_lookup_fmap, list_lookup_imap.
    destruct (sort_by tuple_lt sort_key rows !! i) as [x|] eqn:Hx; [|done].
    simpl. rewrite clear_rank_set_rank. f_equal.
    assert (x ∈ rows) as Hin.
    { rewrite <- (sort_by_Permutation tuple_lt sort_key rows).
      apply list_elem_of_lookup. eauto. }
    unfold rows in Hin. apply list_elem_of_fmap in Hin as (a & -> & _).
    apply clear_rank_entry_of. }
  rewrite (filter_iff_on tied (λ x, sort_key x = (- score, time_taken_seconds)))
    by (intros x _; unfold tied, sort_key; split;
        [intros [-> ->]; done | intros [= Hs Ht]; split; [lia|done]]).
  rewrite sort_by_stable by apply tuple_lt_irrefl.
  symmetry. apply filter_iff_on. intros x _. unfold tied, sort_key. split.
  - intros [-> ->]; done.
  - intros [= Hs Ht]. split; [lia|done].
Qed.

(** Any two sorted lists with the same entries per key, in the same order per
    key, are equal: a stable sort by a key has one possible result, so every
    stable sorting algorithm returns the list that [sort_by] returns. *)
Lemma stable_sort_unique {A K} `{!EqDecision K} (lt : K → K → bool)
    (key : A → K) (l1 l2 : list A) :
  (∀ a b, lt a b = false → lt b a = false → a = b) →
  StronglySorted (not_after lt key) l1 →
  StronglySorted (not_after lt key) l2 →
  (∀ k, filter (λ y, key y = k) l1 = filter (λ y, key y = k) l2) →
  l1 = l2.
Proof.
  intros Hanti Hs1. revert l2.
  induction Hs1 as [|x l1 Hs1 IH Hall1]; intros l2 Hs2 Hsame.
  - destruct l2 as [|y l2]; [done|].
    specialize (Hsame (key y)). rewrite filter_nil, filter_cons_True in Hsame; done.
  - destruct Hs2 as [|y l2 Hs2 Hall2].
    { specialize (Hsame (key x)).
      rewrite filter_nil, filter_cons_True in Hsame; done. }
    assert (key x = key y) as Hkey.
    { assert (x ∈ y :: l2) as Hx.
      { apply (list_elem_of_filter (λ z, key z = key x)).
        rewrite <- Hsame, filter_cons_True by done. by left. }
      assert (y ∈ x :: l1) as Hy.
      { apply (list_elem_of_filter (λ z, key z = key y)).
        rewrite Hsame, filter_cons_True by done. by left. }
      apply elem_of_cons in Hx as [->|Hx]; [done|].
      apply elem_of_cons in Hy as [->|Hy]; [done|].
      rewrite Forall_forall in Hall1, Hall2.
      apply Hanti; [apply Hall2 | apply Hall1]; done. }
    assert (x = y) as ->.
    { specialize (Hsame (key x)).
      rewrite !filter_cons_True in Hsame by done. by injection Hsame. }
    f_equal. apply IH; [done|]. intros k. specialize (Hsame k).
    rewrite !filter_cons in Hsame.
    destruct (decide (key y = k)); [by injection Hsame | done].
Qed.

Lemma tuple_lt_antisym k1 k2 :
  tuple_lt k1 k2 = false → tuple_lt k2 k1 = false → k1 = k2.
Proof.
  rewrite !tuple_lt_false. destruct k1, k2. simpl. intros H1 H2.
  f_equal; lia.
Qed.

(** Whatever stable algorithm sorts the entries by [(-score, time)], its
    result is the list that [sort_by] computes. *)
Lemma sort_by_tuple_unique (l l' : list Entry.t) :
  StronglySorted (not_after tuple_lt sort_key) l' →
  (∀ k, filter (λ y, sort_key y = k) l' = filter (λ y, sort_key y = k) l) →
  l' = sort_by tuple_lt sort_key l.
Proof.
  intros Hsorted Hstable.
  apply (stable_sort_unique tuple_lt sort_key); [apply tuple_lt_antisym|done| |].
  - apply sort_by_sorted; [apply tuple_lt_asym | apply tuple_not_lt_trans].
  - intros k. rewrite sort_by_stable by apply tuple_lt_irrefl. apply Hstable.
Qed.

(** ** Attempts written by the program are well formed *)

Lemma count_correct_bounds answers all_questions :
  0 <= count_correct answers all_questions
       <= Z.of_nat (length all_questions).
Proof.
  unfold count_correct. rewrite count_correct_from.
  pose proof (length_filter (is_match answers) all_questions). lia.
Qed.

Lemma submitted_score_bounds questions_col quiz_id payload :
  0 <= submitted_score questions_col quiz_id payload
       <= Z.of_nat (length (find (questions_of_quiz quiz_id) questions_col)).
Proof.
  unfold submitted_score.
  destruct (default false (QuizSubmit.force_fail payload)); [lia|].
  apply count_correct_bounds.
Qed.

Lemma submitted_status_cases questions_col quiz_id payload violation_count :
  submitted_status questions_col quiz_id payload violation_count = "FAILED"
  ∨ (submitted_status questions_col quiz_id payload violation_count = "PASSED"
     ∧ violation_count <= 1).
Proof.
  unfold submitted_status.
  destruct (default false (QuizSubmit.force_fail payload)); [by left|].
  destruct (pass_policy _ _ _) eqn:Hpass; [|by left].
  right. split; [done|]. by apply pass_policy_spec in Hpass as [_ ?].
Qed.

Lemma well_formed_active a :
  well_formed a → is_active a → Attempt.status a = Val "IN_PROGRESS".
Proof.
  intros (s & c & sc & Hs & _ & _ & _ & _ & Hcases) Hact.
  unfold is_active in Hact. rewrite Hs in *. simpl in Hact.
  apply String.eqb_eq in Hact. by subst.
Qed.

Lemma well_formed_not_terminal a :
  well_formed a → ¬ is_terminal a → Attempt.status a = Val "IN_PROGRESS".
Proof.
  intros (s & c & sc & Hs & _ & _ & _ & _ & Hcases) Hterm.
  unfold is_terminal in Hterm. rewrite Hs in *.
  destruct Hcases as [(-> & _)|[(-> & _)|(-> & _)]]; [done|by destruct Hterm..].
Qed.

Lemma well_formed_in_progress a :
  well_formed a → Attempt.status a = Val "IN_PROGRESS" →
  Attempt.score a = Some 0
  ∧ Attempt.submitted_at a = None
  ∧ violations_so_far a = Z.of_nat (length (violation_log a))
  ∧ violations_so_far a <= 1
  ∧ "tab_switch" ∉ violation_log a.
Proof.
  intros (s & c & sc & Hs & Hc & Hlen & Hsc & _ & Hcases) Hst.
  rewrite Hs in Hst. injection Hst as ->. unfold violations_so_far. rewrite Hc.
  destruct Hcases as [(_ & -> & ? & ? & ?)|[(? & _)|(? & _)]]; done.
Qed.

Lemma violation_update_well_formed now violation_type a :
  well_formed a → Attempt.status a = Val "IN_PROGRESS" →
  well_formed
    (violation_update (violations_so_far a + 1) violation_type
       (if escalates violation_type (violations_so_far a + 1)
        then Some now else None) a).
Proof.
  intros Hwf Hst.
  destruct (well_formed_in_progress a Hwf Hst) as (Hsc & Hsub & Hlen & Hle & Hlog).
  unfold escalates.
  destruct (String.eqb_spec violation_type "tab_switch") as [Htab|Htab]; simpl.
  - exists "FAILED", (violations_so_far a + 1), 0.
    unfold violation_log in *. simpl. rewrite length_app. simpl.
    repeat split; try done; try lia. right. left. eauto.
  - destruct (Z.ltb_spec 1 (violations_so_far a + 1)) as [Hlt|Hge].
    + exists "FAILED", (violations_so_far a + 1), 0.
      unfold violation_log in *. simpl. rewrite length_app. simpl.
      repeat split; try done; try lia. right. left. eauto.
    + exists "IN_PROGRESS", (violations_so_far a + 1), 0.
      unfold violation_log in *. simpl. rewrite length_app. simpl.
      repeat split; try done; try lia. left.
      repeat split; try done.
      rewrite not_elem_of_app, list_elem_of_singleton. split; [done|congruence].
Qed.

Lemma report_violation_well_formed now attempts_col quiz_id payload univ :
  Forall well_formed attempts_col →
  Forall well_formed (report_violation now attempts_col quiz_id payload univ).1.
Proof.
  intros Hwf.
  destruct (decide (ViolationReport.violation_type payload = "__init__"))
    as [Hinit|Hreal];
    destruct (attempt_of attempts_col univ quiz_id) as [[i a]|] eqn:Hfind.
  - by erewrite report_violation_init_present.
  - rewrite report_violation_init_absent by done. simpl.
    apply Forall_app. split; [done|]. apply Forall_singleton.
    exists "IN_PROGRESS", 0, 0. unfold violation_log. simpl.
    repeat split; try done. left. repeat split; try done. apply not_elem_of_nil.
  - destruct (decide (is_active a)) as [Hact|Hact].
    + pose proof (report_violation_active now _ _ _ _ _ _ Hreal Hfind Hact) as ->.
      simpl. apply find_one_Some in Hfind as (Hi & _ & _).
      unfold update_one. apply Forall_alter; [done|].
      intros x Hx. rewrite Hi in Hx. injection Hx as <-. intros Hwfa.
      apply violation_update_well_formed; [done|].
      by apply well_formed_active.
    + by erewrite report_violation_not_active.
  - by rewrite report_violation_no_attempt.
Qed.

Lemma submitted_doc_well_formed now attempts_col questions_col quiz_id payload
    univ (log : option (list string)) :
  prior_violation_count attempts_col univ quiz_id
  = Z.of_nat (length (default [] log)) →
  (prior_violation_count attempts_col univ quiz_id <= 1 →
   "tab_switch" ∉ default [] log) →
  well_formed
    (submit_update
       (submitted_doc now attempts_col questions_col quiz_id payload univ)
       {| Attempt.student_university_number := univ;
          Attempt.quiz_id := quiz_id;
          Attempt.answers := ∅;
          Attempt.score := None;
          Attempt.violation_count := None;
          Attempt.violations := log;
          Attempt.status := Absent;
          Attempt.started_at := None;
          Attempt.submitted_at := None |}).
Proof.
  intros Hlen Hlog.
  exists (submitted_status questions_col quiz_id payload
            (prior_violation_count attempts_col univ quiz_id)),
         (prior_violation_count attempts_col univ quiz_id),
         (submitted_score questions_col quiz_id payload).
  unfold violation_log. simpl.
  pose proof (submitted_score_bounds questions_col quiz_id payload).
  repeat split; try done; try lia.
  destruct (submitted_status_cases questions_col quiz_id payload
              (prior_violation_count attempts_col univ quiz_id))
    as [->|[-> Hle]].
  - right. left. eauto.
  - right. right. repeat split; eauto.
Qed.

Lemma submit_quiz_well_formed fromisoformat now attempts_col questions_col
    quiz_id payload univ :
  Forall well_formed attempts_col →
  Forall well_formed
    (submit_quiz fromisoformat now attempts_col questions_col quiz_id payload
       univ).1.
Proof.
  intros Hwf.
  destruct (has_terminal_attempt attempts_col univ quiz_id) eqn:Hrej.
  - by rewrite submit_quiz_rejected.
  - rewrite submit_quiz_accepted by done. simpl.
    destruct (attempt_of attempts_col univ quiz_id) as [[i a]|] eqn:Hfind.
    + assert (prior_violation_count attempts_col univ quiz_id
              = violations_so_far a) as Hprior.
      { unfold prior_violation_count. by rewrite Hfind. }
      unfold has_terminal_attempt in Hrej. rewrite Hfind in Hrej.
      apply find_one_Some in Hfind as (Hi & _ & _).
      unfold update_one. apply Forall_alter; [done|].
      intros x Hx. rewrite Hi in Hx. injection Hx as <-. intros Hwfa.
      assert (Attempt.status a = Val "IN_PROGRESS") as Hst.
      { apply well_formed_not_terminal; [done|].
        unfold is_terminal. by rewrite Hrej. }
      destruct (well_formed_in_progress a Hwfa Hst) as (_ & _ & Hlen & _ & Hlog).
      apply (submitted_doc_well_formed now attempts_col questions_col quiz_id
               payload univ (Attempt.violations a));
        [by rewrite Hprior, Hlen | by intros _].
    + unfold insert_one. apply Forall_app. split; [done|].
      apply Forall_singleton.
      assert (prior_violation_count attempts_col univ quiz_id = 0) as Hprior.
      { unfold prior_violation_count. by rewrite Hfind. }
      apply (submitted_doc_well_formed now attempts_col questions_col quiz_id
               payload univ None); [done|]. intros _. apply not_elem_of_nil.
Qed.

Lemma steps_well_formed fromisoformat attempts_col attempts_col' :
  steps fromisoformat attempts_col attempts_col' →
  Forall well_formed attempts_col → Forall well_formed attempts_col'.
Proof.
  induction 1 as [|x y z Hstep _ IH]; [done|].
  intros Hwf. apply IH. destruct Hstep.
  - by apply report_violation_well_formed.
  - by apply submit_quiz_well_formed.
Qed.

Lemma replayed_calls_steps attempts_col :
  steps Datetime.fromisoformat_naive attempts_col (replayed_calls attempts_col).
Proof.
  unfold steps, replayed_calls.
  eapply rtc_l; [apply step_report_violation|].
  eapply rtc_l; [apply step_report_violation|].
  eapply rtc_l; [apply step_submit_quiz|].
  apply rtc_refl.
Qed.

Lemma store_after_one_noise_steps :
  steps Datetime.fromisoformat_naive [] store_after_one_noise.
Proof.
  unfold steps, store_after_one_noise.
  eapply rtc_l; [apply step_report_violation|].
  eapply rtc_l; [apply step_report_violation|].
  apply rtc_refl.
Qed.

Lemma reachable_well_formed fromisoformat attempts_col i a :
  steps fromisoformat [] attempts_col → attempts_col !! i = Some a →
  well_formed a.
Proof.
  intros Hsteps Hi.
  eapply Forall_lookup_1; [|exact Hi].
  eapply steps_well_formed; [exact Hsteps|]. constructor.
Qed.

(** On a store reached from the empty one, an attempt that the guard of
    [report_violation] lets through has the status ["IN_PROGRESS"], so a
    report of a real violation type raises the count by one, appends the type
    to the log, and either escalates (["tab_switch"] or a count above 1:
    status ["FAILED"], submission timestamp [now]) or leaves the status
    ["IN_PROGRESS"] with count 1; the response carries the stored count and
    status in both cases. *)
Lemma report_violation_escalation_reachable fromisoformat now attempts_col
    quiz_id payload univ i a :
  steps fromisoformat [] attempts_col →
  ViolationReport.violation_type payload ≠ "__init__" →
  attempt_of attempts_col univ quiz_id = Some (i, a) →
  is_active a →
  let violation_type := ViolationReport.violation_type payload in
  let new_count := violations_so_far a + 1 in
  let out := report_violation now attempts_col quiz_id payload univ in
  Attempt.status a = Val "IN_PROGRESS"
  ∧ ∃ a',
      out.1 !! i = Some a'
      ∧ Attempt.violation_count a' = Some new_count
      ∧ Attempt.violations a' =
          Some (default [] (Attempt.violations a) ++ [violation_type])%list
      ∧ (violation_type = "tab_switch" ∨ 1 < new_count →
           Attempt.status a' = Val "FAILED"
           ∧ Attempt.submitted_at a' = Some now
           ∧ out.2 = Ok (ViolationResponse.mk new_count (Some "FAILED")))
      ∧ (violation_type ≠ "tab_switch" → new_count <= 1 →
           Attempt.status a' = Val "IN_PROGRESS"
           ∧ new_count = 1
           ∧ out.2 = Ok (ViolationResponse.mk 1 (Some "IN_PROGRESS"))).
Proof.
  intros Hsteps Hty Hfind Hact violation_type new_count out.
  assert (well_formed a) as Hwf.
  { apply find_one_Some in Hfind as (Hi & _ & _).
    by eapply reachable_well_formed. }
  pose proof (well_formed_active _ Hwf Hact) as Hst.
  pose proof (well_formed_in_progress _ Hwf Hst) as (_ & _ & Hlen & _ & _).
  split; [exact Hst|].
  destruct (report_violation_escalation now _ _ _ _ _ _ Hty Hfind Hact)
    as (a' & Hlook & _ & _ & Hcount & Hlog & _ & Hesc & Hstay).
  exists a'. do 3 (split; [done|]). split; [exact Hesc|].
  intros Hne Hle. destruct (Hstay Hne Hle) as (Hst' & _ & _ & Hresp & _).
  assert (new_count = 1) as Hone by (unfold new_count in *; lia).
  split; [by rewrite Hst'|]. split; [exact Hone|].
  fold out new_count in Hresp. rewrite <- Hone. by apply Hresp.
Qed.

(** In a store reached from the empty one, every attempt has one of the
    three statuses (never an unset one), a violation count equal to the
    length of its violation log, and a score that is a natural number. *)
Theorem reachable_attempt_counters fromisoformat attempts_col i a :
  steps fromisoformat [] attempts_col → attempts_col !! i = Some a →
  (∃ s, Attempt.status a = Val s
        ∧ (s = "IN_PROGRESS" ∨ s = "PASSED" ∨ s = "FAILED"))
  ∧ Attempt.violation_count a = Some (Z.of_nat (length (violation_log a)))
  ∧ ∃ sc, Attempt.score a = Some sc ∧ 0 <= sc.
Proof.
  intros Hsteps Hi.
  destruct (reachable_well_formed _ _ _ _ Hsteps Hi)
    as (s & c & sc & Hs & Hc & -> & Hsc & Hnn & Hcases).
  split; [|split; [done|eauto]].
  exists s. split; [done|]. destruct Hcases as [(-> & _)|[(-> & _)|(-> & _)]]; eauto.
Qed.

Lemma reachable_attempt_counters_witness :
  ∃ a, replayed_calls [] !! 0%nat = Some a
       ∧ Attempt.violation_count a = Some (Z.of_nat (length (violation_log a))).
Proof.
  eexists. split; [reflexivity|].
  refine (proj1 (proj2 (reachable_attempt_counters Datetime.fromisoformat_naive
                          (replayed_calls []) 0%nat _
                          (replayed_calls_steps []) eq_refl))).
Defined.

(** In a store reached from the empty one, an attempt still in progress has
    score 0, no submission timestamp, at most one violation, and no
    ["tab_switch"] in its violation log. *)
Theorem reachable_in_progress_attempt fromisoformat attempts_col i a :
  steps fromisoformat [] attempts_col → attempts_col !! i = Some a →
  Attempt.status a = Val "IN_PROGRESS" →
  Attempt.score a = Some 0
  ∧ Attempt.submitted_at a = None
  ∧ violations_so_far a <= 1
  ∧ "tab_switch" ∉ violation_log a.
Proof.
  intros Hsteps Hi Hst.
  pose proof (reachable_well_formed _ _ _ _ Hsteps Hi) as Hwf.
  destruct (well_formed_in_progress a Hwf Hst) as (? & ? & _ & ? & ?). done.
Qed.

Lemma reachable_in_progress_attempt_witness :
  ∃ a, store_after_one_noise !! 0%nat = Some a
       ∧ Attempt.status a = Val "IN_PROGRESS"
       ∧ violations_so_far a <= 1.
Proof.
  eexists. split; [reflexivity|]. split; [reflexivity|].
  refine (proj1 (proj2 (proj2
            (reachable_in_progress_attempt Datetime.fromisoformat_naive
               store_after_one_noise 0%nat _ store_after_one_noise_steps
               eq_refl eq_refl)))).
Defined.

(** In a store reached from the empty one, an attempt with a terminal status
    has a submission timestamp, and a passed attempt has at most one
    violation, none of them a tab switch. *)
Theorem reachable_terminal_attempt fromisoformat attempts_col i a :
  steps fromisoformat [] attempts_col → attempts_col !! i = Some a →
  is_terminal a →
  is_Some (Attempt.submitted_at a)
  ∧ (Attempt.status a = Val "PASSED" →
     violations_so_far a <= 1 ∧ "tab_switch" ∉ violation_log a).
Proof.
  intros Hsteps Hi Hterm.
  destruct (reachable_well_formed _ _ _ _ Hsteps Hi)
    as (s & c & sc & Hs & Hc & Hlen & Hsc & Hnn & Hcases).
  unfold is_terminal, violations_so_far in *. rewrite Hs, Hc in *. simpl in *.
  destruct Hcases as [(-> & _)|[(-> & ?)|(-> & ? & ? & ?)]]; [done|..].
  - split; [done|]. intros [=].
  - done.
Qed.

Lemma reachable_terminal_attempt_witness :
  ∃ a, replayed_calls [] !! 0%nat = Some a
       ∧ Attempt.status a = Val "PASSED"
       ∧ violations_so_far a <= 1.
Proof.
  eexists. split; [reflexivity|]. split; [reflexivity|].
  refine (proj1 (proj2 (reachable_terminal_attempt Datetime.fromisoformat_naive
                          (replayed_calls []) 0%nat _
                          (replayed_calls_steps []) eq_refl eq_refl) eq_refl)).
Defined.

(** ** Errors of the violation endpoint *)

(** A violation report is answered with 404 exactly when its type is not
    ["__init__"] and the pair has no attempt, or its attempt has a status other
    than ["IN_PROGRESS"] or unset; the store is then left unchanged. *)
Theorem report_violation_not_found now attempts_col quiz_id payload univ :
  let out := report_violation now attempts_col quiz_id payload univ in
  (out.2 = no_active_attempt
   ↔ ViolationReport.violation_type payload ≠ "__init__"
     ∧ (attempt_of attempts_col univ quiz_id = None
        ∨ ∃ i a, attempt_of attempts_col univ quiz_id = Some (i, a)
                 ∧ ¬ is_active a))
  ∧ (out.2 = no_active_attempt → out.1 = attempts_col).
Proof.
  intros out. subst out.
  destruct (decide (ViolationReport.violation_type payload = "__init__"))
    as [Hinit|Hreal];
    destruct (attempt_of attempts_col univ quiz_id) as [[i a]|] eqn:Hfind.
  - erewrite report_violation_init_present by done. simpl.
    split; [|done]. split; [done|]. by intros [? _].
  - rewrite report_violation_init_absent by done. simpl.
    split; [|done]. split; [done|]. by intros [? _].
  - destruct (decide (is_active a)) as [Hact|Hact].
    + pose proof (report_violation_active now _ _ _ _ _ _ Hreal Hfind Hact) as ->.
      simpl.
      assert (∀ r : result ViolationResponse.t,
                r = match
                      match
                        (if escalates (ViolationReport.violation_type payload)
                              (violations_so_far a + 1)
                         then Some now else None)
                      with
                      | Some _ => Val "FAILED"
                      | None => Attempt.status a
                      end
                    with
                    | Absent => KeyError "status"
                    | Null =>
                        Ok (ViolationResponse.mk (violations_so_far a + 1) None)
                    | Val s =>
                        Ok (ViolationResponse.mk (violations_so_far a + 1)
                              (Some s))
                    end → r ≠ no_active_attempt) as Hne.
      { intros r ->. destruct (escalates _ _); simpl; [done|].
        by destruct (Attempt.status a). }
      split.
      * split; [intros Heq; exfalso; exact (Hne _ eq_refl Heq)|].
        intros (_ & [?|(j & b & [= <- <-] & ?)]); done.
      * intros Heq. exfalso. exact (Hne _ eq_refl Heq).
    + erewrite report_violation_not_active by done. simpl.
      split; [|done]. split; [|done]. intros _. split; [done|]. right. eauto.
  - rewrite report_violation_no_attempt by done. simpl.
    split; [|done]. split; [|done]. intros _. split; [done|]. by left.
Qed.

(** On a store reached from the empty one a violation report never fails on a
    missing key: it is answered with 404, or with a count of at least 0 and
    the status ["IN_PROGRESS"] or ["FAILED"]; and the answer to a report of a
    real violation type carries the count and the status that the attempt of
    the pair now holds in the store. *)
Theorem reachable_report_violation_response fromisoformat now attempts_col
    quiz_id payload univ :
  steps fromisoformat [] attempts_col →
  let out := report_violation now attempts_col quiz_id payload univ in
  out.2 = no_active_attempt
  ∨ ∃ c s,
      out.2 = Ok (ViolationResponse.mk c (Some s))
      ∧ 0 <= c
      ∧ (s = "IN_PROGRESS" ∨ s = "FAILED")
      ∧ (ViolationReport.violation_type payload ≠ "__init__" →
         ∃ i a, attempt_of out.1 univ quiz_id = Some (i, a)
                ∧ Attempt.violation_count a = Some c
                ∧ Attempt.status a = Val s).
Proof.
  intros Hsteps out. subst out.
  destruct (decide (ViolationReport.violation_type payload = "__init__"))
    as [Hinit|Hreal];
    destruct (attempt_of attempts_col univ quiz_id) as [[i a]|] eqn:Hfind.
  - erewrite report_violation_init_present by done. right.
    exists 0, "IN_PROGRESS".
    split; [done|]. split; [done|]. split; [by left|]. by intros ?.
  - rewrite report_violation_init_absent by done. right.
    exists 0, "IN_PROGRESS".
    split; [done|]. split; [done|]. split; [by left|]. by intros ?.
  - destruct (decide (is_active a)) as [Hact|Hact].
    + pose proof (report_violation_active now _ _ _ _ _ _ Hreal Hfind Hact) as ->.
      right. cbv zeta. cbn [fst snd].
      pose proof Hfind as Hfind'.
      apply find_one_Some in Hfind' as (Hi & Hkey & _).
      pose proof (reachable_well_formed _ _ _ _ Hsteps Hi) as Hwf.
      pose proof (well_formed_active a Hwf Hact) as Hst.
      destruct (well_formed_in_progress a Hwf Hst) as (_ & _ & Hlen & _ & _).
      set (a' := violation_update _ _ _ a).
      assert (attempt_of (update_one i (λ _, a') attempts_col) univ quiz_id
              = Some (i, a')) as Hfound.
      { apply (find_one_update_one _ (λ _, a') _ _ a); [exact Hfind|exact Hkey]. }
      assert (∃ s, Attempt.status a' = Val s
                   ∧ (s = "IN_PROGRESS" ∨ s = "FAILED")) as (s & Hs & Hcase).
      { unfold a'. simpl. destruct (escalates _ _); simpl; eauto. }
      rewrite Hs. exists (violations_so_far a + 1), s.
      repeat split; [lia|done|]. intros _. exists i, a'. done.
    + erewrite report_violation_not_active by done. by left.
  - rewrite report_violation_no_attempt by done. by left.
Qed.

Lemma reachable_report_violation_response_witness :
  ∃ c s,
    (report_violation "2024-01-01T10:07:00" store_after_one_noise "quiz-1"
       (ViolationReport.mk "fullscreen_exit") "4SN21CS001").2
    = Ok (ViolationResponse.mk c (Some s))
    ∧ 0 <= c.
Proof.
  destruct (reachable_report_violation_response Datetime.fromisoformat_naive
              "2024-01-01T10:07:00" store_after_one_noise "quiz-1"
              (ViolationReport.mk "fullscreen_exit") "4SN21CS001"
              store_after_one_noise_steps)
    as [Hnone|(c & s & Hout & Hc & _)].
  - exfalso. vm_compute in Hnone. discriminate.
  - exists c, s. split; [exact Hout | exact Hc].
Defined.

(** ** A terminal attempt closes the pair *)






(** ** Bounds of a submission's score and rank *)

(** The response of an accepted submission carries a score between 0 and the
    number of questions of the quiz, and a rank between 1 and the number of
    entries that the leaderboard of the quiz has after the submission. *)
Theorem submit_quiz_score_and_rank_bounds fromisoformat now attempts_col
    questions_col students_col quiz_id payload univ response :
  let out :=
    submit_quiz fromisoformat now attempts_col questions_col quiz_id payload
      univ in
  out.2 = Ok response →
  0 <= SubmitResponse.score response
       <= Z.of_nat (length (find (questions_of_quiz quiz_id) questions_col))
  ∧ 1 <= SubmitResponse.rank response
         <= Z.of_nat (length (leaderboard fromisoformat out.1 students_col
                                quiz_id)).
Proof.
  intros out Hok.
  assert (has_terminal_attempt attempts_col univ quiz_id = false) as Hacc.
  { eapply (not_rejected_no_terminal_attempt fromisoformat now _ questions_col
              _ payload).
    fold out. rewrite Hok. discriminate. }
  destruct (submit_quiz_stored fromisoformat now attempts_col questions_col
              quiz_id payload univ Hacc) as (i & a' & Hat & Hup & _ & Hst & _).
  fold out in Hat.
  assert (SubmitResponse.score response
          = submitted_score questions_col quiz_id payload
          ∧ SubmitResponse.rank response
            = compute_rank fromisoformat out.1 quiz_id univ) as [-> ->].
  { subst out. rewrite submit_quiz_accepted in * by done.
    cbv zeta in Hok. cbn [fst snd] in *. by injection Hok as <-. }
  split; [apply submitted_score_bounds|].
  rewrite compute_rank_counts_positive_scores, leaderboard_unfold.
  rewrite length_imap.
  rewrite (Permutation_length (sort_by_Permutation tuple_lt sort_key _)).
  rewrite length_fmap.
  apply find_one_Some in Hat as (Hi & [Hu Hq] & _).
  assert (a' ∈ find (terminal_of_quiz quiz_id) out.1) as Hin.
  { apply list_elem_of_filter. split; [|apply list_elem_of_lookup; eauto].
    split; [done|]. rewrite Hst. simpl.
    by destruct (submitted_status_cases questions_col quiz_id payload
                   (prior_violation_count attempts_col univ quiz_id))
      as [->|[-> _]]. }
  pose proof (length_filter_lt (counted_by_compute_rank univ) _ a' Hin) as Hlt.
  split; [lia|]. apply inj_le in Hlt; [lia|]. by intros [? _].
Qed.

Lemma submit_quiz_score_and_rank_bounds_witness :
  ∃ response,
    second_submission.2 = Ok response
    ∧ 1 <= SubmitResponse.rank response <= 2.
Proof.
  eexists. split; [reflexivity|].
  refine (proj2 (submit_quiz_score_and_rank_bounds Datetime.fromisoformat_naive
                   "2024-01-01T10:30:00" first_submission.1 four_questions []
                   "quiz-1" (QuizSubmit.mk all_right "2024-01-01T10:10:00" None)
                   "4SN21CS002" _ eq_refl)).
Defined.

(** In whole numbers the pass threshold is half of the questions rounded up:
    an accepted submission without [force_fail] passes exactly when its score
    is at least [(total + 1) // 2] and the violation count read before
    scoring is at most 1; on a quiz with at least one question a score of 0
    never passes. *)
Theorem submit_quiz_integer_threshold fromisoformat now attempts_col
    questions_col quiz_id payload univ response :
  let out :=
    submit_quiz fromisoformat now attempts_col questions_col quiz_id payload
      univ in
  let total :=
    Z.of_nat (length (find (questions_of_quiz quiz_id) questions_col)) in
  out.2 = Ok response →
  QuizSubmit.force_fail payload ≠ Some true →
  (SubmitResponse.status response = "PASSED"
   ↔ (total + 1) `div` 2 <= SubmitResponse.score response
     ∧ prior_violation_count attempts_col univ quiz_id <= 1)
  ∧ (0 < total → SubmitResponse.score response = 0 →
     SubmitResponse.status response = "FAILED").
Proof.
  intros out total Hok Hff.
  assert (has_terminal_attempt attempts_col univ quiz_id = false) as Hacc.
  { eapply (not_rejected_no_terminal_attempt fromisoformat now _ questions_col
              _ payload).
    fold out. rewrite Hok. discriminate. }
  subst out. rewrite submit_quiz_accepted in Hok by done.
  cbv zeta in Hok. cbn [fst snd] in Hok. injection Hok as <-. cbn.
  assert (default false (QuizSubmit.force_fail payload) = false) as Hfalse.
  { by destruct (QuizSubmit.force_fail payload) as [[]|]. }
  unfold submitted_status, submitted_score. rewrite Hfalse. fold total.
  set (score := count_correct _ _).
  assert (pass_policy score total
            (prior_violation_count attempts_col univ quiz_id) = true
          ↔ (total + 1) `div` 2 <= score
            ∧ prior_violation_count attempts_col univ quiz_id <= 1) as Hpol.
  { rewrite pass_policy_spec, half_threshold.
    assert (total <= 2 * score ↔ (total + 1) `div` 2 <= score) as ->; [|done].
    pose proof (Z.div_mod (total + 1) 2 ltac:(lia)).
    pose proof (Z.mod_pos_bound (total + 1) 2 ltac:(lia)). lia. }
  destruct (pass_policy _ _ _) eqn:Hpass.
  - split; [split; [intros _; by apply Hpol | done]|].
    intros Hpos Hzero. exfalso. apply proj1 in Hpol.
    destruct (Hpol eq_refl) as [Hhalf _]. rewrite Hzero in Hhalf.
    pose proof (Z.div_mod (total + 1) 2 ltac:(lia)).
    pose proof (Z.mod_pos_bound (total + 1) 2 ltac:(lia)). lia.
  - split; [|done]. split; [done|]. intros Hge. apply Hpol in Hge. done.
Qed.

Lemma submit_quiz_integer_threshold_witness :
  ∃ response,
    first_submission.2 = Ok response
    ∧ (SubmitResponse.status response = "PASSED"
       ↔ (4 + 1) `div` 2 <= SubmitResponse.score response ∧ 0 <= 1).
Proof.
  eexists. split; [reflexivity|].
  refine (proj1 (submit_quiz_integer_threshold Datetime.fromisoformat_naive
                   "2024-01-01T10:20:00" [] four_questions "quiz-1"
                   (QuizSubmit.mk two_right "2024-01-01T10:00:00" None)
                   "4SN21CS001" _ eq_refl _)).
  discriminate.
Defined.

(** ** Times on the leaderboard *)

Lemma seconds_range delta :
  0 <= Datetime.seconds delta < Datetime.seconds_per_day.
Proof. unfold Datetime.seconds. by apply Z.mod_pos_bound. Qed.

Lemma entry_time_range fromisoformat students_col a :
  0 <= Entry.time_taken_seconds (entry_of fromisoformat students_col a) < 86400
  ∨ (time_taken fromisoformat a = None
     ∧ Entry.time_taken_seconds (entry_of fromisoformat students_col a) = 99999).
Proof.
  unfold entry_of. simpl.
  destruct (time_taken fromisoformat a) as [t|] eqn:Ht; [left|by right].
  unfold time_taken in Ht.
  destruct (Attempt.submitted_at a ≫= fromisoformat) as [submitted|]; [|done].
  destruct (Attempt.started_at a ≫= fromisoformat) as [started|]; [|done].
  simpl in Ht. destruct (Datetime.sub submitted started) as [delta|]; [|done].
  injection Ht as <-. apply seconds_range.
Qed.

(** The three general facts about a leaderboard, for use in later proofs. *)
Lemma leaderboard_sorted_and_ranked_parts fromisoformat attempts_col
    students_col quiz_id :
  let board := leaderboard fromisoformat attempts_col students_col quiz_id in
  Permutation (clear_rank <$> board)
    (entry_of fromisoformat students_col
       <$> find (terminal_of_quiz quiz_id) attempts_col)
  ∧ (∀ i j x y,
       board !! i = Some x → board !! j = Some y → (i < j)%nat →
       ranks_before x y)
  ∧ (∀ i x, board !! i = Some x → Entry.rank x = Some (Z.of_nat i + 1)).
Proof.
  intros board. subst board. rewrite leaderboard_unfold.
  set (rows := entry_of fromisoformat students_col
                 <$> find (terminal_of_quiz quiz_id) attempts_col).
  split; [|split].
  - assert (clear_rank <$> imap set_rank (sort_by tuple_lt sort_key rows)
            = sort_by tuple_lt sort_key rows) as ->.
    { apply list_eq. intros i. rewrite list_lookup_fmap, list_lookup_imap.
      destruct (sort_by tuple_lt sort_key rows !! i) as [x|] eqn:Hx; [|done].
      simpl. rewrite clear_rank_set_rank. f_equal.
      assert (x ∈ rows) as Hin.
      { rewrite <- (sort_by_Permutation tuple_lt sort_key rows).
        apply list_elem_of_lookup. eauto. }
      unfold rows in Hin. apply list_elem_of_fmap in Hin as (a & -> & _).
      apply clear_rank_entry_of. }
    apply sort_by_Permutation.
  - intros i j x y Hi Hj Hlt.
    apply list_lookup_imap_Some in Hi as (x' & Hi & ->).
    apply list_lookup_imap_Some in Hj as (y' & Hj & ->).
    assert (ranks_before x' y') as Hxy; [|exact Hxy].
    apply not_after_ranks_before.
    eapply StronglySorted_lookup; [|exact Hi|exact Hj|exact Hlt].
    apply sort_by_sorted; [apply tuple_lt_asym | apply tuple_not_lt_trans].
  - intros i x Hi. by apply list_lookup_imap_Some in Hi as (x' & _ & ->).
Qed.

(** Every time on the leaderboard is a number of seconds below one day or the
    sentinel 99999, and among entries of equal score the ones with the
    sentinel stand after all the others. *)
Theorem leaderboard_sentinel_sorts_last fromisoformat attempts_col students_col
    quiz_id :
  let board := leaderboard fromisoformat attempts_col students_col quiz_id in
  (∀ i x, board !! i = Some x →
          0 <= Entry.time_taken_seconds x < 86400
          ∨ Entry.time_taken_seconds x = 99999)
  ∧ (∀ i j x y,
       board !! i = Some x → board !! j = Some y →
       Entry.score x = Entry.score y →
       Entry.time_taken_seconds x = 99999 →
       Entry.time_taken_seconds y ≠ 99999 →
       (j < i)%nat).
Proof.
  intros board.
  assert (∀ i x, board !! i = Some x →
                 0 <= Entry.time_taken_seconds x < 86400
                 ∨ Entry.time_taken_seconds x = 99999) as Hrange.
  { intros i x Hi.
    destruct leaderboard_sorted_and_ranked_parts
      with (fromisoformat := fromisoformat) (attempts_col := attempts_col)
           (students_col := students_col) (quiz_id := quiz_id)
      as (Hperm & _ & _).
    assert (clear_rank x ∈ clear_rank <$> board) as Hin.
    { apply list_elem_of_fmap. exists x. split; [done|].
      apply list_elem_of_lookup. eauto. }
    unfold board in Hin. rewrite Hperm in Hin.
    apply list_elem_of_fmap in Hin as (a & Hx & _).
    change (Entry.time_taken_seconds x)
      with (Entry.time_taken_seconds (clear_rank x)). rewrite Hx.
    destruct (entry_time_range fromisoformat students_col a) as [?|[_ ?]]; eauto. }
  split; [exact Hrange|].
  intros i j x y Hi Hj Hscore Hx Hy.
  destruct leaderboard_sorted_and_ranked_parts
    with (fromisoformat := fromisoformat) (attempts_col := attempts_col)
         (students_col := students_col) (quiz_id := quiz_id)
    as (_ & Hsorted & _).
  destruct (Hrange j y Hj) as [Hlt|?]; [|done].
  destruct (lt_eq_lt_dec i j) as [[Hij|Heq]|Hji];
    [|subst j; congruence|done].
  destruct (Hsorted i j x y Hi Hj Hij) as [?|[_ Hle]]; lia.
Qed.

(** ** What a call leaves untouched *)

Lemma filter_update_one_outside {A} (P : A → Prop) `{!∀ x, Decision (P x)}
    (f : A → A) col i x :
  col !! i = Some x → ¬ P x → ¬ P (f x) →
  filter P (update_one i f col) = filter P col.
Proof.
  unfold update_one. revert i.
  induction col as [|y col IH]; intros [|i] Hi Hx Hfx; try done.
  - injection Hi as ->.
    change (alter f 0%nat (x :: col)) with (f x :: col).
    by rewrite !filter_cons_False.
  - change (alter f (S i) (y :: col)) with (y :: alter f i col).
    rewrite !filter_cons. by erewrite IH.
Qed.

Lemma filter_insert_one_outside {A} (P : A → Prop) `{!∀ x, Decision (P x)}
    col x :
  ¬ P x → filter P (insert_one col x) = filter P col.
Proof.
  intros Hx. unfold insert_one.
  rewrite filter_app, filter_cons_False, filter_nil by done.
  by rewrite app_nil_r.
Qed.

Lemma leaderboard_same_terminal fromisoformat attempts_col attempts_col'
    students_col quiz_id :
  find (terminal_of_quiz quiz_id) attempts_col'
  = find (terminal_of_quiz quiz_id) attempts_col →
  leaderboard fromisoformat attempts_col' students_col quiz_id
  = leaderboard fromisoformat attempts_col students_col quiz_id.
Proof. intros Heq. by rewrite !leaderboard_unfold, Heq. Qed.

Lemma report_violation_terminal_kept now attempts_col quiz_id payload univ q :
  let out := report_violation now attempts_col quiz_id payload univ in
  q ≠ quiz_id ∨ (∀ c, out.2 ≠ Ok (ViolationResponse.mk c (Some "FAILED"))) →
  find (terminal_of_quiz q) out.1 = find (terminal_of_quiz q) attempts_col.
Proof.
  intros out Hframe. subst out.
  destruct (decide (ViolationReport.violation_type payload = "__init__"))
    as [Hinit|Hreal];
    destruct (attempt_of attempts_col univ quiz_id) as [[i a]|] eqn:Hfind.
  - by erewrite report_violation_init_present.
  - rewrite report_violation_init_absent by done. simpl.
    apply (filter_insert_one_outside (terminal_of_quiz q)). by intros [_ ?].
  - destruct (decide (is_active a)) as [Hact|Hact].
    + pose proof (report_violation_active now _ _ _ _ _ _ Hreal Hfind Hact) as Hrv.
      cbv zeta in Hrv. rewrite Hrv in *. cbn [fst snd] in *.
      apply find_one_Some in Hfind as (Hi & [Hu Hq] & _).
      set (a' := violation_update _ _ _ a) in *.
      eapply (filter_update_one_outside (terminal_of_quiz q)); [done|..].
      * intros [_ Hterm]. by eapply active_not_terminal.
      * intros [Hq' Hterm]. destruct Hframe as [Hne|Hnf].
        -- apply Hne. rewrite <- Hq'. exact Hq.
        -- destruct (Attempt.status a') as [| |s] eqn:Hs; try done.
           simpl in Hterm.
           destruct (String.eqb_spec s "PASSED") as [->|_].
           ++ unfold a' in Hs. simpl in Hs.
              destruct (escalates _ _); [done|].
              unfold is_active in Hact. by rewrite Hs in Hact.
           ++ destruct (String.eqb_spec s "FAILED") as [->|_]; [|done].
              by eapply Hnf.
    + by erewrite report_violation_not_active.
  - by rewrite report_violation_no_attempt.
Qed.

Lemma submit_quiz_terminal_kept fromisoformat now attempts_col questions_col
    quiz_id payload univ q :
  q ≠ quiz_id →
  find (terminal_of_quiz q)
    (submit_quiz fromisoformat now attempts_col questions_col quiz_id payload
       univ).1
  = find (terminal_of_quiz q) attempts_col.
Proof.
  intros Hne.
  destruct (has_terminal_attempt attempts_col univ quiz_id) eqn:Hrej.
  - by rewrite submit_quiz_rejected.
  - rewrite submit_quiz_accepted by done. simpl.
    destruct (attempt_of attempts_col univ quiz_id) as [[i a]|] eqn:Hfind.
    + apply find_one_Some in Hfind as (Hi & [Hu Hq] & _).
      eapply (filter_update_one_outside (terminal_of_quiz q)); [done|..].
      * intros [Hq' _]. congruence.
      * intros [Hq' _]. simpl in Hq'. congruence.
    + apply (filter_insert_one_outside (terminal_of_quiz q)).
      intros [Hq' _]. simpl in Hq'. congruence.
Qed.

(** A call for one quiz leaves the leaderboard of every other quiz as it was;
    and a call of the violation endpoint that is not answered with status
    ["FAILED"] (an initialisation, a rejected report, a first violation that
    is no tab switch) leaves every leaderboard as it was. *)
Theorem leaderboard_frame fromisoformat now attempts_col questions_col
    students_col quiz_id univ q :
  (∀ payload,
     q ≠ quiz_id →
     leaderboard fromisoformat
       (submit_quiz fromisoformat now attempts_col questions_col quiz_id
          payload univ).1 students_col q
     = leaderboard fromisoformat attempts_col students_col q)
  ∧ (∀ payload,
       let out := report_violation now attempts_col quiz_id payload univ in
       q ≠ quiz_id
       ∨ (∀ c, out.2 ≠ Ok (ViolationResponse.mk c (Some "FAILED"))) →
       leaderboard fromisoformat out.1 students_col q
       = leaderboard fromisoformat attempts_col students_col q).
Proof.
  split.
  - intros payload Hne. apply leaderboard_same_terminal.
    by apply submit_quiz_terminal_kept.
  - intros payload out Hframe. apply leaderboard_same_terminal.
    by apply report_violation_terminal_kept.
Qed.

Example split_on_examples :
  split_on " " "Bearer abc def" = ["Bearer"; "abc"; "def"]
  ∧ split_on " " "" = [""]
  ∧ split_on " " "Bearer " = ["Bearer"; ""]
  ∧ split_on " " " a  b" = [""; "a"; ""; "b"]
  ∧ strip "  QZ-A1B2C3 " = "QZ-A1B2C3"
  ∧ strip "   " = ""
  ∧ strip "a b" = "a b".
Proof. by vm_compute. Qed.

(** ** Authentication *)

Lemma append_empty_r (s : string) : s ++ "" = s.
Proof.
  induction s as [|c s IH]; [done|].
  change (String c (s ++ "") = String c s). by rewrite IH.
Qed.

Lemma split_on_no_sep sep w :
  has_char sep w = false → split_on sep w = [w].
Proof.
  induction w as [|c w IH]; simpl; [done|].
  intros [Hc Hw]%orb_false_iff. by rewrite Hc, IH.
Qed.

Lemma split_on_app_sep sep w rest :
  has_char sep w = false →
  split_on sep (w ++ String sep rest) = w :: split_on sep rest.
Proof.
  induction w as [|c w IH]; simpl.
  - intros _. by rewrite Ascii.eqb_refl.
  - intros [Hc Hw]%orb_false_iff. by rewrite Hc, IH.
Qed.

(** A string that starts with ["Bearer "] has a second field. *)
Lemma split_on_second authorization :
  String.prefix "Bearer " authorization = true →
  is_Some (split_on " " authorization !! 1%nat).
Proof.
  intros Hpre.
  destruct authorization as [|c1 [|c2 [|c3 [|c4 [|c5 [|c6 [|c7 s]]]]]]];
    simpl in Hpre;
    repeat match type of Hpre with
           | (if ?b then _ else _) = true =>
               let H := fresh in destruct b as [H|H]; [subst|done]
           end;
    try done.
  change (is_Some (("Bearer" :: split_on " " s) !! 1%nat)).
  simpl. destruct s as [|c s]; simpl; [eauto|].
  destruct (Ascii.eqb c " "); [eauto|].
  destruct (split_on " " s); eauto.
Qed.

Lemma get_current_user_bearer decode_token token rest :
  has_char " " token = false →
  rest = "" ∨ String.prefix " " rest = true →
  get_current_user decode_token (Some ("Bearer " ++ token ++ rest))
  = match decode_token token with
    | inr user => Ok user
    | inl e => HTTPException 401 e
    end.
Proof.
  intros Htoken Hrest. unfold get_current_user.
  assert (split_on " " ("Bearer " ++ token ++ rest) !! 1%nat = Some token)
    as Hsecond.
  { change ("Bearer " ++ token ++ rest)
      with ("Bearer" ++ String " " (token ++ rest)).
    rewrite split_on_app_sep by done. simpl.
    destruct Hrest as [->|Hpre].
    - rewrite append_empty_r. by rewrite split_on_no_sep.
    - destruct rest as [|c rest]; [done|]. simpl in Hpre.
      match type of Hpre with
      | (if ?b then _ else _) = true => destruct b as [<-|]; [|done]
      end.
      by rewrite split_on_app_sep. }
  rewrite Hsecond.
  assert (String.prefix "Bearer " ("Bearer " ++ token ++ rest) = true) as ->.
  { apply prefix_correct. simpl.
    by destruct (token ++ rest). }
  reflexivity.
Qed.

Lemma split_on_fields_no_sep sep s :
  Forall (λ w, has_char sep w = false) (split_on sep s).
Proof.
  induction s as [|c s IH]; simpl; [by repeat constructor|].
  destruct (Ascii.eqb c sep) eqn:Hc; [by constructor|].
  destruct (split_on sep s) as [|w ws]; [by repeat constructor; simpl; rewrite Hc|].
  apply Forall_cons in IH as [Hw Hws]. constructor; [|done].
  simpl. by rewrite Hc.
Qed.

(** [get_current_user] decodes the text between ["Bearer "] and the next
    space (or the end of the header) and nothing else; it returns a user only
    for a header that starts with ["Bearer "] and whose token [decode_token]
    accepts; and every failure is a 401. *)
Theorem get_current_user_token decode_token :
  (∀ token rest,
     has_char " " token = false →
     rest = "" ∨ String.prefix " " rest = true →
     get_current_user decode_token (Some ("Bearer " ++ token ++ rest))
     = match decode_token token with
       | inr user => Ok user
       | inl e => HTTPException 401 e
       end)
  ∧ (∀ authorization user,
       get_current_user decode_token authorization = Ok user →
       ∃ s token,
         authorization = Some s
         ∧ String.prefix "Bearer " s = true
         ∧ split_on " " s !! 1%nat = Some token
         ∧ has_char " " token = false
         ∧ decode_token token = inr user)
  ∧ (∀ authorization,
       (∃ user, get_current_user decode_token authorization = Ok user)
       ∨ ∃ detail,
           get_current_user decode_token authorization
           = HTTPException 401 detail).
Proof.
  split; [apply get_current_user_bearer|]. split.
  - intros [s|] user Hok; [|done]. unfold get_current_user in Hok.
    destruct (String.eqb s ""); [done|]. simpl in Hok.
    destruct (String.prefix "Bearer " s) eqn:Hpre; [|done]. simpl in Hok.
    destruct (split_on_second s Hpre) as [token Htoken].
    rewrite Htoken in Hok. simpl in Hok.
    destruct (decode_token token) as [e|u] eqn:Hdec; [done|].
    injection Hok as ->. exists s, token. repeat split; try done.
    eapply (Forall_lookup_1 _ _ _ _ (split_on_fields_no_sep " " s) Htoken).
  - intros [s|]; [|right; eauto]. unfold get_current_user.
    destruct (_ || _); [right; eauto|].
    destruct (decode_token _); eauto.
Qed.

(** A header passes [require_teacher] only for a user whose role is
    ["teacher"] and [require_student] only for a user whose role is
    ["student"], so no header passes both; a user with any other role gets 403
    from both, and a failure of [get_current_user] is the answer of both. *)
Theorem role_gates_exclusive decode_token authorization :
  let user := get_current_user decode_token authorization in
  (∀ u, require_teacher user = Ok u →
        user = Ok u ∧ User.role u = Some "teacher"
        ∧ require_student user = HTTPException 403 "Students only")
  ∧ (∀ u, require_student user = Ok u →
          user = Ok u ∧ User.role u = Some "student"
          ∧ require_teacher user = HTTPException 403 "Teachers only")
  ∧ (∀ u, user = Ok u →
          User.role u ≠ Some "teacher" → User.role u ≠ Some "student" →
          require_teacher user = HTTPException 403 "Teachers only"
          ∧ require_student user = HTTPException 403 "Students only")
  ∧ (∀ code detail, user = HTTPException code detail →
                    require_teacher user = HTTPException code detail
                    ∧ require_student user = HTTPException code detail).
Proof.
  intros user. destruct user as [u|code0 detail0|k|]; simpl.
  - split; [|split; [|split]].
    + intros u' Hok.
      destruct (bool_decide_reflect (User.role u = Some "teacher")) as [Hr|Hr];
        simpl in *; [|done]. injection Hok as <-.
      split; [done|]. split; [done|].
      by rewrite bool_decide_eq_false_2 by congruence.
    + intros u' Hok.
      destruct (bool_decide_reflect (User.role u = Some "student")) as [Hr|Hr];
        simpl in *; [|done]. injection Hok as <-.
      split; [done|]. split; [done|].
      by rewrite bool_decide_eq_false_2 by congruence.
    + intros u' [= <-] Ht Hs. by rewrite !bool_decide_eq_false_2.
    + done.
  - split; [done|]. split; [done|]. split; [done|]. by intros ?? [= <- <-].
  - done.
  - done.
Qed.

(** ** Access codes *)

Lemma chars_upper_or_digit c :
  has_char c chars = true → is_upper_or_digit c = true.
Proof. destruct c as [[] [] [] [] [] [] [] []]; by vm_compute. Qed.

Lemma upper_or_digit_plain c :
  is_upper_or_digit c = true → is_space c = false ∧ upper_char c = c.
Proof. destruct c as [[] [] [] [] [] [] [] []]; by vm_compute. Qed.

Lemma space_upper c : is_space c = true → upper_char c = c.
Proof. destruct c as [[] [] [] [] [] [] [] []]; by vm_compute. Qed.

Lemma length_string_of_list_ascii l :
  String.length (string_of_list_ascii l) = length l.
Proof. induction l as [|c l IH]; simpl; congruence. Qed.

Lemma all_chars_string_of_list_ascii p l :
  all_chars p (string_of_list_ascii l) = true ↔ Forall (λ c, p c = true) l.
Proof.
  induction l as [|c l IH]; simpl; [by split; [constructor|]|].
  rewrite andb_true_iff, IH, Forall_cons. done.
Qed.

Lemma generate_access_code_well_formed picked :
  valid_draw picked → well_formed_code (generate_access_code picked).
Proof.
  intros [Hlen Hin]. exists (string_of_list_ascii picked).
  split; [done|]. split; [by rewrite length_string_of_list_ascii|].
  apply all_chars_string_of_list_ascii.
  eapply Forall_impl; [exact Hin|]. apply chars_upper_or_digit.
Qed.

Lemma find_one_is_Some {A} (P : A → Prop) `{!∀ x, Decision (P x)} col :
  is_Some (find_one P col) ↔ ∃ x, x ∈ col ∧ P x.
Proof.
  split.
  - intros [[i x] Hfind]. apply find_one_Some in Hfind as (Hi & HP & _).
    exists x. split; [|done]. apply list_elem_of_lookup. eauto.
  - intros (x & Hin & HP). unfold find_one. by eapply list_find_elem_of.
Qed.

Lemma with_access_code_in_use quizzes_col picked :
  is_Some (find_one (with_access_code (generate_access_code picked)) quizzes_col)
  ↔ code_in_use quizzes_col picked.
Proof.
  rewrite find_one_is_Some. unfold code_in_use. rewrite list_elem_of_fmap.
  split; intros (quiz & H1 & H2); exists quiz; done.
Qed.

(** The loop of [create_quiz] ends at the first draw whose code is not in
    use. *)
Lemma unused_access_code_first quizzes_col draws1 picked draws2 :
  Forall (code_in_use quizzes_col) draws1 →
  ¬ code_in_use quizzes_col picked →
  unused_access_code quizzes_col (draws1 ++ picked :: draws2)%list
  = Some (generate_access_code picked).
Proof.
  intros Hused Hfree. induction Hused as [|p draws1 Hp _ IH]; simpl.
  - destruct (find_one _ quizzes_col) eqn:Hfind; [|done].
    exfalso. apply Hfree, with_access_code_in_use. by rewrite Hfind.
  - apply with_access_code_in_use in Hp as [? ->]. exact IH.
Qed.

Lemma unused_access_code_Some quizzes_col draws access_code :
  unused_access_code quizzes_col draws = Some access_code →
  ∃ draws1 picked draws2,
    draws = (draws1 ++ picked :: draws2)%list
    ∧ Forall (code_in_use quizzes_col) draws1
    ∧ ¬ code_in_use quizzes_col picked
    ∧ access_code = generate_access_code picked.
Proof.
  induction draws as [|p draws IH]; simpl; [done|].
  destruct (find_one _ quizzes_col) eqn:Hfind.
  - intros (d1 & picked & d2 & -> & Hd1 & Hfree & ->)%IH.
    exists (p :: d1), picked, d2. repeat split; try done.
    constructor; [|done]. apply with_access_code_in_use. by rewrite Hfind.
  - intros [= <-]. exists [], p, draws. repeat split; try done.
    intros Hin%with_access_code_in_use. rewrite Hfind in Hin.
    by destruct Hin.
Qed.

Lemma unused_access_code_None quizzes_col draws :
  unused_access_code quizzes_col draws = None
  ↔ Forall (code_in_use quizzes_col) draws.
Proof.
  induction draws as [|p draws IH]; simpl; [by split; [constructor|]|].
  rewrite Forall_cons, <- IH, <- with_access_code_in_use.
  destruct (find_one _ quizzes_col) as [q|].
  - split; [intros ?; split; [eauto|done] | by intros [_ ?]].
  - split; [done|]. by intros [[? ?] _].
Qed.

(** [create_quiz] returns at the first draw whose code no quiz holds: it adds
    one quiz with that code, the payload's title and duration and the caller
    as creator, and answers with the new id and the code; as long as every
    draw gives a code in use, it has not returned. *)
Theorem create_quiz_first_unused_code now inserted_id quizzes_col payload user :
  (∀ draws1 picked draws2,
     Forall (code_in_use quizzes_col) draws1 →
     ¬ code_in_use quizzes_col picked →
     create_quiz now inserted_id (draws1 ++ picked :: draws2)%list quizzes_col
       payload user
     = Some
         (insert_one quizzes_col
            {| QuizDoc._id := inserted_id;
               QuizDoc.title := QuizCreate.title payload;
               QuizDoc.duration_minutes := QuizCreate.duration_minutes payload;
               QuizDoc.created_by := User.sub user;
               QuizDoc.created_at := now;
               QuizDoc.access_code := generate_access_code picked |},
          Ok {| QuizCreated.quiz_id := inserted_id;
                QuizCreated.access_code := generate_access_code picked;
                QuizCreated.message := "Quiz created" |}))
  ∧ (∀ draws,
       create_quiz now inserted_id draws quizzes_col payload user = None
       ↔ Forall (code_in_use quizzes_col) draws).
Proof.
  split.
  - intros draws1 picked draws2 Hused Hfree. unfold create_quiz.
    by rewrite unused_access_code_first.
  - intros draws. rewrite <- unused_access_code_None. unfold create_quiz.
    by destruct (unused_access_code quizzes_col draws).
Qed.

Lemma create_quiz_first_unused_code_witness :
  ∃ quizzes_col,
    create_quiz "2024-01-02T09:00:00" "65c000000000000000000002"
      [draw_a1b2c3; draw_zz9zz9] one_quiz_col (QuizCreate.mk "Geometry" 45)
      teacher
    = Some (quizzes_col,
            Ok (QuizCreated.mk "65c000000000000000000002" "QZ-ZZ9ZZ9"
                  "Quiz created")).
Proof.
  eexists.
  refine (proj1 (create_quiz_first_unused_code "2024-01-02T09:00:00"
                   "65c000000000000000000002" one_quiz_col
                   (QuizCreate.mk "Geometry" 45) teacher)
            [draw_a1b2c3] draw_zz9zz9 [] _ _).
  - repeat constructor.
  - unfold code_in_use. vm_compute.
    intros Hin. apply list_elem_of_singleton in Hin. discriminate.
Defined.

(** [create_quiz] keeps the access codes of the collection pairwise distinct
    and of the form [QZ-] followed by six upper-case letters or digits, and
    adds exactly one quiz. *)
Theorem create_quiz_keeps_codes_ok now inserted_id draws quizzes_col payload
    user quizzes_col' response :
  codes_ok quizzes_col →
  Forall valid_draw draws →
  create_quiz now inserted_id draws quizzes_col payload user
  = Some (quizzes_col', response) →
  codes_ok quizzes_col'
  ∧ length quizzes_col' = S (length quizzes_col)
  ∧ ∃ access_code,
      response = Ok (QuizCreated.mk inserted_id access_code "Quiz created")
      ∧ well_formed_code access_code
      ∧ access_code ∉ QuizDoc.access_code <$> quizzes_col.
Proof.
  intros [Hnodup Hwf] Hdraws Hcreate. unfold create_quiz in Hcreate.
  destruct (unused_access_code quizzes_col draws) as [code|] eqn:Hcode; [|done].
  simpl in Hcreate. injection Hcreate as <- <-.
  apply unused_access_code_Some in Hcode
    as (d1 & picked & d2 & -> & _ & Hfree & ->).
  assert (well_formed_code (generate_access_code picked)) as Hcodewf.
  { apply generate_access_code_well_formed.
    apply Forall_app in Hdraws as [_ Hdraws].
    by apply Forall_cons in Hdraws as [? _]. }
  split; [split|split].
  - unfold insert_one. rewrite fmap_app. apply NoDup_app.
    split; [done|]. split; [|apply NoDup_singleton].
    intros code Hin Hin'. apply list_elem_of_singleton in Hin'. by subst.
  - unfold insert_one. apply Forall_app. split; [done|]. by apply Forall_singleton.
  - unfold insert_one. rewrite length_app. simpl. lia.
  - eauto.
Qed.

Lemma create_quiz_keeps_codes_ok_witness : codes_ok one_quiz_col.
Proof.
  refine (proj1 (create_quiz_keeps_codes_ok "2024-01-01T09:00:00"
                   "65c000000000000000000001" [draw_a1b2c3] []
                   (QuizCreate.mk "Algebra" 30) teacher one_quiz_col _ _ _
                   eq_refl)).
  - split; [constructor|constructor].
  - constructor; [|constructor]. split; [reflexivity|].
    repeat constructor.
Defined.

(** ** Looking a quiz up by its code *)

Lemma upper_app s1 s2 : upper (s1 ++ s2) = upper s1 ++ upper s2.
Proof.
  induction s1 as [|c s1 IH]; [done|].
  change (String (upper_char c) (upper (s1 ++ s2))
          = String (upper_char c) (upper s1 ++ upper s2)).
  by rewrite IH.
Qed.

Lemma upper_spaces pad : all_chars is_space pad = true → upper pad = pad.
Proof.
  induction pad as [|c pad IH]; simpl; [done|].
  intros [Hc Hpad]%andb_true_iff. by rewrite space_upper, IH.
Qed.

Lemma upper_plain s : all_chars is_upper_or_digit s = true → upper s = s.
Proof.
  induction s as [|c s IH]; simpl; [done|].
  intros [Hc Hs]%andb_true_iff.
  destruct (upper_or_digit_plain c Hc) as [_ ->]. by rewrite IH.
Qed.

Lemma lstrip_spaces pad s :
  all_chars is_space pad = true → lstrip (pad ++ s) = lstrip s.
Proof.
  induction pad as [|c pad IH]; [done|].
  intros [Hc Hpad]%andb_true_iff.
  change (lstrip (String c (pad ++ s)) = lstrip s). simpl. rewrite Hc. auto.
Qed.

Lemma rstrip_spaces pad : all_chars is_space pad = true → rstrip pad = "".
Proof.
  induction pad as [|c pad IH]; simpl; [done|].
  intros [Hc Hpad]%andb_true_iff. by rewrite IH, Hc.
Qed.

Lemma rstrip_app_spaces s pad :
  all_chars is_space pad = true → rstrip (s ++ pad) = rstrip s.
Proof.
  intros Hpad. induction s as [|c s IH].
  - simpl. by apply rstrip_spaces.
  - change (rstrip (String c (s ++ pad)) = rstrip (String c s)).
    simpl. by rewrite IH.
Qed.

Lemma rstrip_no_space s :
  all_chars (λ c, negb (is_space c)) s = true → rstrip s = s.
Proof.
  induction s as [|c s IH]; simpl; [done|].
  intros [Hc Hs]%andb_true_iff. rewrite IH by done.
  apply negb_true_iff in Hc. rewrite Hc. by destruct s.
Qed.

Lemma well_formed_code_normal code :
  well_formed_code code →
  upper code = code
  ∧ all_chars (λ c, negb (is_space c)) code = true
  ∧ ∃ rest, code = String "Q" rest.
Proof.
  intros (body & -> & _ & Hbody). split; [|split].
  - change (String "Q" (String "Z" (String "-" (upper body)))
            = String "Q" (String "Z" (String "-" body))).
    by rewrite upper_plain.
  - change (all_chars (λ c, negb (is_space c)) body = true).
    clear -Hbody. induction body as [|c body IH]; simpl in *; [done|].
    apply andb_true_iff in Hbody as [Hc Hbody].
    destruct (upper_or_digit_plain c Hc) as [-> _]. simpl. auto.
  - by eexists.
Qed.

(** Upper-casing and stripping an input that is the code in any letter case,
    with blank characters before and after, gives the code. *)
Lemma strip_upper_code code pad_left s pad_right :
  well_formed_code code →
  all_chars is_space pad_left = true →
  all_chars is_space pad_right = true →
  eq_ignoring_case s code = true →
  strip (upper (pad_left ++ s ++ pad_right)) = code.
Proof.
  intros Hcode Hl Hr Hs.
  destruct (well_formed_code_normal code Hcode) as (Hup & Hns & rest & Hq).
  rewrite <- upper_eq_ignoring_case in Hs. apply String.eqb_eq in Hs.
  rewrite Hup in Hs.
  rewrite !upper_app, Hs, !upper_spaces by done.
  unfold strip. rewrite lstrip_spaces by done.
  assert (lstrip (code ++ pad_right) = code ++ pad_right) as ->.
  { rewrite Hq. reflexivity. }
  rewrite rstrip_app_spaces by done. by apply rstrip_no_space.
Qed.

(** A quiz that [create_quiz] has just added is found by [get_quiz_by_code]
    from its access code written in any letter case and with any blank
    characters around it: the answer carries the new quiz's id, title and
    duration. *)
Theorem created_quiz_found_by_code now inserted_id draws quizzes_col payload
    user quizzes_col' access_code message pad_left s pad_right :
  Forall valid_draw draws →
  create_quiz now inserted_id draws quizzes_col payload user
  = Some (quizzes_col', Ok (QuizCreated.mk inserted_id access_code message)) →
  all_chars is_space pad_left = true →
  all_chars is_space pad_right = true →
  eq_ignoring_case s access_code = true →
  get_quiz_by_code quizzes_col' (pad_left ++ s ++ pad_right)
  = Ok {| QuizByCode.quiz_id := inserted_id;
          QuizByCode.title := QuizCreate.title payload;
          QuizByCode.duration_minutes := QuizCreate.duration_minutes payload |}.
Proof.
  intros Hdraws Hcreate Hl Hr Hs. unfold create_quiz in Hcreate.
  destruct (unused_access_code quizzes_col draws) as [code|] eqn:Hcode; [|done].
  simpl in Hcreate. injection Hcreate as <- <- <-.
  apply unused_access_code_Some in Hcode
    as (d1 & picked & d2 & -> & _ & Hfree & ->).
  assert (well_formed_code (generate_access_code picked)) as Hcodewf.
  { apply generate_access_code_well_formed.
    apply Forall_app in Hdraws as [_ Hdraws].
    by apply Forall_cons in Hdraws as [? _]. }
  unfold get_quiz_by_code.
  rewrite strip_upper_code with (code := generate_access_code picked) by done.
  rewrite find_one_insert_one; [done| |done].
  destruct (find_one _ quizzes_col) eqn:Hfind; [|done].
  exfalso. apply Hfree, with_access_code_in_use. by rewrite Hfind.
Qed.

Lemma created_quiz_found_by_code_witness :
  get_quiz_by_code one_quiz_col "  qz-a1b2c3 "
  = Ok (QuizByCode.mk "65c000000000000000000001" "Algebra" 30).
Proof.
  refine (created_quiz_found_by_code "2024-01-01T09:00:00"
            "65c000000000000000000001" [draw_a1b2c3] []
            (QuizCreate.mk "Algebra" 30) teacher one_quiz_col "QZ-A1B2C3"
            "Quiz created" "  " "qz-a1b2c3" " " _ eq_refl eq_refl eq_refl
            eq_refl).
  constructor; [|constructor]. split; [reflexivity|]. repeat constructor.
Defined.

(** ** Questions *)

Lemma upper_char_idemp c : upper_char (upper_char c) = upper_char c.
Proof. destruct c as [[] [] [] [] [] [] [] []]; by vm_compute. Qed.

Lemma upper_idemp s : upper (upper s) = upper s.
Proof.
  induction s as [|c s IH]; simpl; [done|]. by rewrite upper_char_idemp, IH.
Qed.

Lemma eq_ignoring_case_upper s1 s2 :
  eq_ignoring_case s1 (upper s2) = eq_ignoring_case s1 s2.
Proof. by rewrite <- !upper_eq_ignoring_case, upper_idemp. Qed.

Lemma count_correct_snoc answers all_questions q :
  count_correct answers (all_questions ++ [q])
  = count_correct answers all_questions
    + (if eq_ignoring_case (submitted_label answers q)
            (Question.correct_option q)
       then 1 else 0).
Proof.
  unfold count_correct. rewrite !count_correct_from, filter_app, length_app.
  rewrite filter_cons, filter_nil.
  destruct (decide (is_match answers q)) as [Hm|Hm]; unfold is_match in Hm.
  - rewrite Hm. simpl. lia.
  - apply not_true_is_false in Hm. rewrite Hm. simpl. lia.
Qed.

Lemma find_questions_to_question quiz_id (questions_col : list QuestionDoc.t) :
  find (questions_of_quiz quiz_id) (QuestionDoc.to_question <$> questions_col)
  = QuestionDoc.to_question
      <$> find (question_docs_of_quiz quiz_id) questions_col.
Proof.
  unfold find. induction questions_col as [|q l IH]; [done|].
  rewrite fmap_cons, !filter_cons, IH.
  unfold questions_of_quiz, question_docs_of_quiz. simpl.
  by destruct (decide (QuestionDoc.quiz_id q = quiz_id)).
Qed.

Lemma upper_char_is_ascii c :
  is_ascii_char c = true → is_ascii_char (upper_char c) = true.
Proof. destruct c as [[] [] [] [] [] [] [] []]; by vm_compute. Qed.

Lemma upper_is_ascii s : is_ascii s = true → is_ascii (upper s) = true.
Proof.
  unfold is_ascii. induction s as [|c s IH]; simpl; [done|].
  intros [Hc Hs]%andb_true_iff.
  by rewrite upper_char_is_ascii, IH.
Qed.

(** With ASCII text for the teacher's correct option, for the stored labels of
    the quiz and for the submitted labels: a question that [add_question] has
    stored for a quiz counts in every later submission for that quiz exactly
    when the answer given for it equals the correct option that the teacher
    sent, up to letter case.  The score is the score against the earlier
    questions plus one or zero, and the labels of the quiz are still ASCII
    text. *)
Theorem added_question_is_scored ObjectId_is_valid ObjectId_str fromisoformat
    inserted_id quizzes_col questions_col quiz_id question questions_col' added
    now attempts_col payload univ response :
  add_question ObjectId_is_valid ObjectId_str inserted_id quizzes_col
    questions_col quiz_id question
  = (questions_col', Ok added) →
  is_ascii (QuestionCreate.correct_option question) = true →
  is_ascii (default "" (QuizSubmit.answers payload
                          !! QuestionAdded.question_id added)) = true →
  ascii_labels (QuizSubmit.answers payload)
    (find (questions_of_quiz quiz_id)
       (QuestionDoc.to_question <$> questions_col)) →
  QuizSubmit.force_fail payload ≠ Some true →
  (submit_quiz fromisoformat now attempts_col
     (QuestionDoc.to_question <$> questions_col) quiz_id payload univ).2
  = Ok response →
  ascii_labels (QuizSubmit.answers payload)
    (find (questions_of_quiz quiz_id)
       (QuestionDoc.to_question <$> questions_col'))
  ∧ ∃ response',
      (submit_quiz fromisoformat now attempts_col
         (QuestionDoc.to_question <$> questions_col') quiz_id payload univ).2
      = Ok response'
      ∧ SubmitResponse.score response'
        = SubmitResponse.score response
          + (if eq_ignoring_case
                  (default "" (QuizSubmit.answers payload
                                 !! QuestionAdded.question_id added))
                  (QuestionCreate.correct_option question)
             then 1 else 0).
Proof.
  intros Hadd Hlabel Hanswer Hascii Hff Hok. unfold add_question in Hadd.
  destruct (ObjectId_is_valid quiz_id); [|done]. simpl in Hadd.
  destruct (find_one _ quizzes_col); [|done].
  injection Hadd as <- <-. simpl in Hanswer.
  assert (find (questions_of_quiz quiz_id)
            (QuestionDoc.to_question
               <$> insert_one questions_col
                     {| QuestionDoc._id := inserted_id;
                        QuestionDoc.quiz_id := quiz_id;
                        QuestionDoc.question_text :=
                          QuestionCreate.question_text question;
                        QuestionDoc.options :=
                          {| Options.A := QuestionCreate.option_a question;
                             Options.B := QuestionCreate.option_b question;
                             Options.C := QuestionCreate.option_c question;
                             Options.D := QuestionCreate.option_d question |};
                        QuestionDoc.correct_option :=
                          upper (QuestionCreate.correct_option question) |})
          = (find (questions_of_quiz quiz_id)
               (QuestionDoc.to_question <$> questions_col)
             ++ [Question.mk inserted_id quiz_id
                   (upper (QuestionCreate.correct_option question))])%list)
    as Hfind.
  { rewrite !find_questions_to_question. unfold insert_one, find.
    rewrite filter_app, filter_cons_True, filter_nil by done.
    by rewrite fmap_app. }
  split.
  { rewrite Hfind. apply Forall_app. split; [exact Hascii|].
    constructor; [|constructor]. split; [exact Hanswer|].
    by apply upper_is_ascii. }
  assert (has_terminal_attempt attempts_col univ quiz_id = false) as Hacc.
  { eapply (not_rejected_no_terminal_attempt fromisoformat now _ _ _ payload).
    rewrite Hok. discriminate. }
  rewrite submit_quiz_accepted in * by done. cbn [fst snd] in *.
  injection Hok as <-. eexists. split; [reflexivity|]. simpl.
  assert (default false (QuizSubmit.force_fail payload) = false) as Hfalse.
  { by destruct (QuizSubmit.force_fail payload) as [[]|]. }
  unfold submitted_score. rewrite Hfalse.
  rewrite Hfind, count_correct_snoc.
  unfold submitted_label. simpl. by rewrite eq_ignoring_case_upper.
Qed.

Lemma added_question_is_scored_witness :
  is_ascii (QuestionCreate.correct_option first_question) = true
  ∧ ∃ response,
      (submit_quiz Datetime.fromisoformat_naive "2024-01-01T10:20:00" []
         (QuestionDoc.to_question
            <$> (add_question example_is_valid example_str
                   "65a000000000000000000001" [algebra_quiz] []
                   "65c000000000000000000001" first_question).1)
         "65c000000000000000000001"
         (QuizSubmit.mk {[ "65a000000000000000000001" := "B" ]}
            "2024-01-01T10:00:00" None) "4SN21CS001").2
      = Ok response
      ∧ SubmitResponse.score response = 0 + 1.
Proof.
  split; [reflexivity|].
  assert (is_ascii
            (default ""
               (({[ "65a000000000000000000001" := "B" ]} : gmap string string)
                  !! "65a000000000000000000001")) = true) as Hanswer.
  { vm_compute. reflexivity. }
  destruct (added_question_is_scored example_is_valid example_str
              Datetime.fromisoformat_naive "65a000000000000000000001"
              [algebra_quiz] [] "65c000000000000000000001" first_question
              _ _ "2024-01-01T10:20:00" []
              (QuizSubmit.mk {[ "65a000000000000000000001" := "B" ]}
                 "2024-01-01T10:00:00" None) "4SN21CS001" _
              eq_refl eq_refl Hanswer (Forall_nil_2 _) ltac:(discriminate)
              eq_refl)
    as (_ & response & Hok & Hscore).
  exists response. split; [exact Hok | exact Hscore].
Defined.

(** [get_questions] answers with every stored question of the quiz, in
    stored order and with its text and options; a caller whose role is
    ["student"] gets no [correct_option] in any of them, and every other
    caller gets the stored one. *)
Theorem get_questions_hides_answers ObjectId_is_valid ObjectId_str quizzes_col
    questions_col quiz_id user response :
  get_questions ObjectId_is_valid ObjectId_str quizzes_col questions_col
    quiz_id user
  = Ok response →
  Forall2
    (λ view q,
       QuestionView._id view = QuestionDoc._id q
       ∧ QuestionView.question_text view = QuestionDoc.question_text q
       ∧ QuestionView.options view = QuestionDoc.options q
       ∧ QuestionView.correct_option view
         = if bool_decide (User.role user = Some "student") then None
           else Some (QuestionDoc.correct_option q))
    (QuestionsResponse.questions response)
    (find (question_docs_of_quiz quiz_id) questions_col)
  ∧ (User.role user = Some "student" →
     Forall (λ view, QuestionView.correct_option view = None)
       (QuestionsResponse.questions response)).
Proof.
  unfold get_questions. intros Hok.
  destruct (ObjectId_is_valid quiz_id); [|done]. simpl in Hok.
  destruct (find_one _ quizzes_col) as [[i quiz]|]; [|done].
  injection Hok as <-. simpl. split.
  - apply Forall2_fmap_l, Forall_Forall2_diag, Forall_forall. by intros q _.
  - intros Hrole. apply Forall_fmap, Forall_forall. intros q _. simpl.
    by rewrite bool_decide_eq_true_2.
Qed.

Lemma get_questions_hides_answers_witness :
  ∃ response,
    get_questions example_is_valid example_str [algebra_quiz]
      (add_question example_is_valid example_str "65a000000000000000000001"
         [algebra_quiz] [] "65c000000000000000000001" first_question).1
      "65c000000000000000000001" student_user
    = Ok response
    ∧ Forall (λ view, QuestionView.correct_option view = None)
        (QuestionsResponse.questions response).
Proof.
  eexists. split; [reflexivity|].
  refine (proj2 (get_questions_hides_answers example_is_valid example_str
                   [algebra_quiz] _ "65c000000000000000000001" student_user _
                   eq_refl) eq_refl).
Defined.



(** ** Students *)

Lemma find_one_None_not_in {A B} `{!EqDecision B} (f : A → B) (b : B) col :
  find_one (λ x, f x = b) col = None ↔ b ∉ (f <$> col).
Proof.
  split.
  - intros Hnone Hin. apply list_elem_of_fmap in Hin as (x & -> & Hin).
    apply list_elem_of_lookup in Hin as [i Hi].
    by eapply (find_one_None _ _ Hnone).
  - intros Hnot. destruct (find_one _ col) as [[i x]|] eqn:Hfind; [|done].
    apply find_one_Some in Hfind as (Hi & <- & _). exfalso. apply Hnot.
    apply list_elem_of_fmap. exists x. split; [done|].
    apply list_elem_of_lookup. eauto.
Qed.

Lemma student_register_cases hash_password now students_col payload :
  let out := student_register hash_password now students_col payload in
  let n := StudentRegister.university_number payload in
  let e := StudentRegister.email payload in
  (n ∈ (StudentDoc.university_number <$> students_col)
   ∧ out = (students_col,
            HTTPException 400 "University number already registered"))
  ∨ ((n ∉ (StudentDoc.university_number <$> students_col))
     ∧ e ∈ (StudentDoc.email <$> students_col)
     ∧ out = (students_col, HTTPException 400 "Email already in use"))
  ∨ ((n ∉ (StudentDoc.university_number <$> students_col))
     ∧ (e ∉ (StudentDoc.email <$> students_col))
     ∧ out = (insert_one students_col
                {| StudentDoc.university_number := n;
                   StudentDoc.name := StudentRegister.name payload;
                   StudentDoc.email := e;
                   StudentDoc.password :=
                     hash_password (StudentRegister.password payload);
                   StudentDoc.created_at := now |},
              Ok "Student registered successfully")).
Proof.
  intros out n e. subst out. unfold student_register. fold n e.
  destruct (find_one (doc_with_university_number n) students_col)
    as [[i x]|] eqn:Hn.
  - left. split; [|done].
    apply find_one_Some in Hn as (Hi & <- & _).
    apply list_elem_of_fmap. exists x. split; [done|].
    apply list_elem_of_lookup. eauto.
  - apply (find_one_None_not_in StudentDoc.university_number) in Hn.
    right. destruct (find_one (doc_with_email e) students_col)
      as [[i x]|] eqn:He.
    + left. split; [done|]. split; [|done].
      apply find_one_Some in He as (Hi & <- & _).
      apply list_elem_of_fmap. exists x. split; [done|].
      apply list_elem_of_lookup. eauto.
    + apply (find_one_None_not_in StudentDoc.email) in He. by right.
Qed.

(** Registration keeps university numbers and e-mail addresses pairwise
    distinct: it is refused with 400, and the store is left as it is, when
    the number or the address is taken, and it adds one student if not. *)
Theorem student_register_keeps_unique hash_password now students_col payload :
  students_ok students_col →
  let out := student_register hash_password now students_col payload in
  students_ok out.1
  ∧ (out.2 = HTTPException 400 "University number already registered"
     ↔ StudentRegister.university_number payload
       ∈ (StudentDoc.university_number <$> students_col))
  ∧ (out.2 = HTTPException 400 "Email already in use"
     ↔ (StudentRegister.university_number payload
          ∉ (StudentDoc.university_number <$> students_col))
       ∧ StudentRegister.email payload ∈ (StudentDoc.email <$> students_col))
  ∧ (out.2 ≠ Ok "Student registered successfully" → out.1 = students_col)
  ∧ (out.2 = Ok "Student registered successfully" →
     length out.1 = S (length students_col)).
Proof.
  intros [Hn He] out.
  destruct (student_register_cases hash_password now students_col payload)
    as [(Hin & Hout)|[(Hnin & Hin & Hout)|(Hnin & Henin & Hout)]];
    subst out; rewrite Hout; simpl.
  - split; [done|]. split; [done|]. split; [|done].
    split; [done|]. by intros [? _].
  - split; [done|]. split; [|done]. split; [done|]. by intros ?.
  - split; [split|].
    + unfold insert_one. rewrite fmap_app. apply NoDup_app.
      split; [done|]. split; [|apply NoDup_singleton].
      intros x Hx Hx'. apply list_elem_of_singleton in Hx'. by subst.
    + unfold insert_one. rewrite fmap_app. apply NoDup_app.
      split; [done|]. split; [|apply NoDup_singleton].
      intros x Hx Hx'. apply list_elem_of_singleton in Hx'. by subst.
    + split; [split; [done|intros ?; done]|].
      split; [split; [done|by intros [_ ?]]|].
      split; [done|]. intros _. unfold insert_one. rewrite length_app. simpl. lia.
Qed.

Lemma student_register_keeps_unique_witness : students_ok asha_registered.1.
Proof.
  refine (proj1 (student_register_keeps_unique example_hash
                   "2024-01-01T08:00:00" [] asha _)).
  split; constructor.
Defined.

(** After an accepted registration, a login with the registered university
    number succeeds exactly when [verify_password] accepts the given password
    against the hash of the registered one; the answer then carries the
    registered name and number and a token for them with the role
    ["student"], and it is 401 if not. *)
Theorem registered_student_login hash_password verify_password
    create_access_token now students_col payload password :
  let out := student_register hash_password now students_col payload in
  out.2 = Ok "Student registered successfully" →
  student_login verify_password create_access_token out.1
    (StudentLogin.mk (StudentRegister.university_number payload) password)
  = if verify_password password
         (hash_password (StudentRegister.password payload))
    then
      Ok {| LoginResponse.access_token :=
              create_access_token
                {| User.sub := StudentRegister.university_number payload;
                   User.role := Some "student";
                   User.name := StudentRegister.name payload |};
            LoginResponse.role := "student";
            LoginResponse.name := StudentRegister.name payload;
            LoginResponse.university_number :=
              StudentRegister.university_number payload |}
    else HTTPException 401 "Invalid credentials".
Proof.
  intros out Hok.
  destruct (student_register_cases hash_password now students_col payload)
    as [(Hin & Hout)|[(Hnin & Hin & Hout)|(Hnin & Henin & Hout)]];
    subst out; rewrite Hout in *; simpl in *; try done.
  unfold student_login. simpl.
  rewrite find_one_insert_one;
    [|by apply (find_one_None_not_in StudentDoc.university_number)|done].
  simpl. by destruct (verify_password _ _).
Qed.

Lemma registered_student_login_witness :
  student_login example_verify example_token asha_registered.1
    (StudentLogin.mk "4SN21CS001" "s3cret")
  = Ok (LoginResponse.mk "token:4SN21CS001" "student" "Asha" "4SN21CS001").
Proof.
  exact (registered_student_login example_hash example_verify example_token
           "2024-01-01T08:00:00" [] asha "s3cret" eq_refl).
Defined.

(** ** Names on the leaderboard *)

Lemma insert_by_fmap {A K} (lt : K → K → bool) (key : A → K) (g : A → A) x l :
  (∀ y, key (g y) = key y) →
  insert_by lt key (g x) (g <$> l) = g <$> insert_by lt key x l.
Proof.
  intros Hkey. induction l as [|y l IH]; [done|].
  rewrite fmap_cons. simpl. rewrite !Hkey.
  destruct (lt (key y) (key x)); [|done]. by rewrite IH.
Qed.

Lemma sort_by_fmap {A K} (lt : K → K → bool) (key : A → K) (g : A → A) l :
  (∀ y, key (g y) = key y) →
  sort_by lt key (g <$> l) = g <$> sort_by lt key l.
Proof.
  intros Hkey. induction l as [|x l IH]; [done|].
  rewrite fmap_cons. simpl. fold (sort_by lt key (g <$> l)).
  fold (sort_by lt key l). rewrite IH. by apply insert_by_fmap.
Qed.

Lemma entry_of_registered fromisoformat (students_col : list StudentDoc.t) doc a :
  StudentDoc.university_number doc
    ∉ (StudentDoc.university_number <$> students_col) →
  entry_of fromisoformat
    (StudentDoc.to_student <$> insert_one students_col doc) a
  = with_name (StudentDoc.university_number doc) (StudentDoc.name doc)
      (entry_of fromisoformat (StudentDoc.to_student <$> students_col) a).
Proof.
  intros Hnew. unfold entry_of, with_name, insert_one. simpl.
  rewrite fmap_app. simpl. unfold find_one.
  destruct (list_find
              (with_university_number (Attempt.student_university_number a))
              (StudentDoc.to_student <$> students_col))
    as [[i s]|] eqn:Hfind.
  - erewrite list_find_app_l by done.
    apply list_find_Some in Hfind as (Hi & Hs & _).
    rewrite decide_False; [done|]. intros Heq. apply Hnew.
    rewrite list_lookup_fmap in Hi.
    destruct (students_col !! i) as [d|] eqn:Hd; [|done].
    injection Hi as <-. unfold with_university_number in Hs. simpl in Hs.
    apply list_elem_of_fmap. exists d. split; [congruence|].
    apply list_elem_of_lookup. eauto.
  - rewrite list_find_app_r by done. simpl.
    unfold with_university_number at 1. simpl.
    destruct (decide (StudentDoc.university_number doc
                      = Attempt.student_university_number a)) as [Heq|Hne].
    + simpl. by rewrite decide_True.
    + simpl. by rewrite decide_False.
Qed.

(** After an accepted registration every leaderboard is the one before it
    with the registered name on the entries of the new student (which showed
    ["Unknown"]); order, ranks and all other entries are the same. *)
Theorem registered_name_on_leaderboard hash_password fromisoformat now
    students_col payload attempts_col quiz_id :
  let out := student_register hash_password now students_col payload in
  out.2 = Ok "Student registered successfully" →
  leaderboard fromisoformat attempts_col (StudentDoc.to_student <$> out.1)
    quiz_id
  = with_name (StudentRegister.university_number payload)
      (StudentRegister.name payload)
    <$> leaderboard fromisoformat attempts_col
          (StudentDoc.to_student <$> students_col) quiz_id.
Proof.
  intros out Hok.
  destruct (student_register_cases hash_password now students_col payload)
    as [(Hin & Hout)|[(Hnin & Hin & Hout)|(Hnin & Henin & Hout)]];
    subst out; rewrite Hout in *; simpl in *; try done.
  rewrite !leaderboard_unfold.
  set (doc := StudentDoc.mk _ _ _ _ _).
  set (g := with_name (StudentRegister.university_number payload)
              (StudentRegister.name payload)).
  assert (∀ y, sort_key (g y) = sort_key y) as Hkey.
  { intros y. unfold g, with_name. by destruct (decide _). }
  assert (entry_of fromisoformat
            (StudentDoc.to_student <$> insert_one students_col doc)
            <$> find (terminal_of_quiz quiz_id) attempts_col
          = g <$> (entry_of fromisoformat
                     (StudentDoc.to_student <$> students_col)
                     <$> find (terminal_of_quiz quiz_id) attempts_col)) as ->.
  { rewrite <- list_fmap_compose. apply list_fmap_ext. intros i a _.
    by apply (entry_of_registered fromisoformat students_col doc a). }
  rewrite sort_by_fmap by done.
  apply list_eq. intros i.
  rewrite list_lookup_imap, !list_lookup_fmap, list_lookup_imap.
  destruct (sort_by tuple_lt sort_key _ !! i) as [x|]; [|done]. simpl.
  f_equal. unfold g, with_name, set_rank. simpl. by destruct (decide _).
Qed.

Lemma registered_name_on_leaderboard_witness :
  Entry.name
    <$> leaderboard Datetime.fromisoformat_naive first_submission.1
          (StudentDoc.to_student <$> asha_registered.1) "quiz-1"
  = ["Asha"].
Proof.
  refine (eq_trans
            (f_equal (fmap Entry.name)
               (registered_name_on_leaderboard example_hash
                  Datetime.fromisoformat_naive "2024-01-01T08:00:00" [] asha
                  first_submission.1 "quiz-1" eq_refl)) _).
  by vm_compute.
Defined.

(** ** Seeding the default teacher *)

(** [seed_teacher] leaves at least one teacher with the address
    [admin@quiz.com], adds one only when there was none, and changes nothing
    when it runs again. *)
Theorem seed_teacher_idempotent hash_password teachers_col :
  let seeded := seed_teacher hash_password teachers_col in
  seed_teacher hash_password seeded = seeded
  ∧ length (filter (teacher_with_email "admin@quiz.com") seeded)
    = Nat.max 1
        (length (filter (teacher_with_email "admin@quiz.com") teachers_col))
  ∧ filter (λ t, ¬ teacher_with_email "admin@quiz.com" t) seeded
    = filter (λ t, ¬ teacher_with_email "admin@quiz.com" t) teachers_col.
Proof.
  intros seeded. subst seeded. unfold seed_teacher.
  destruct (find_one (teacher_with_email "admin@quiz.com") teachers_col)
    as [[i t]|] eqn:Hfind.
  - rewrite Hfind. split; [done|]. split; [|done].
    apply find_one_Some in Hfind as (Hi & Ht & _).
    assert (t ∈ filter (teacher_with_email "admin@quiz.com") teachers_col)
      as Hin.
    { apply list_elem_of_filter. split; [done|].
      apply list_elem_of_lookup. eauto. }
    destruct (filter _ teachers_col); [by apply elem_of_nil in Hin|].
    simpl. lia.
  - split; [|split].
    + rewrite find_one_insert_one; done.
    + unfold insert_one. rewrite filter_app, length_app.
      rewrite filter_cons_True, filter_nil by done.
      assert (filter (teacher_with_email "admin@quiz.com") teachers_col = [])
        as ->; [|done].
      destruct (filter _ teachers_col) as [|t l] eqn:Hf; [done|].
      assert (t ∈ filter (teacher_with_email "admin@quiz.com") teachers_col)
        as Hin by (rewrite Hf; by left).
      apply list_elem_of_filter in Hin as [Ht Hin].
      apply list_elem_of_lookup in Hin as [i Hi].
      by destruct (find_one_None _ _ Hfind i t Hi).
    + unfold insert_one. rewrite filter_app, filter_cons_False, filter_nil.
      * by rewrite app_nil_r.
      * intros Hne. by apply Hne.
Qed.

(** ** The list of attempts of a quiz *)

Lemma find_one_to_student univ (students_col : list StudentDoc.t) :
  find_one (with_university_number univ)
    (StudentDoc.to_student <$> students_col)
  = prod_map id StudentDoc.to_student
      <$> find_one (doc_with_university_number univ) students_col.
Proof.
  unfold find_one. rewrite list_find_fmap. by f_equal.
Qed.

Lemma get_attempts_name fromisoformat students_col a :
  Entry.name (entry_of fromisoformat (StudentDoc.to_student <$> students_col) a)
  = match
      find_one
        (doc_with_university_number (Attempt.student_university_number a))
        students_col
    with
    | Some (_, student) => StudentDoc.name student
    | None => "Unknown"
    end.
Proof.
  unfold entry_of. simpl. rewrite find_one_to_student.
  by destruct (find_one _ students_col) as [[i s]|].
Qed.

(** [get_attempts] lists every attempt of the quiz, terminal or not, in
    stored order; the leaderboard of the quiz consists of the entries of the
    listed attempts that are terminal; and the name listed with an attempt
    is the name that the leaderboard shows for it. *)
Theorem get_attempts_covers_leaderboard fromisoformat attempts_col students_col
    quiz_id :
  let rows := get_attempts attempts_col students_col quiz_id in
  let students := StudentDoc.to_student <$> students_col in
  AttemptRow.attempt <$> rows = find (attempts_of_quiz quiz_id) attempts_col
  ∧ Permutation
      (clear_rank <$> leaderboard fromisoformat attempts_col students quiz_id)
      (entry_of fromisoformat students
         <$> filter is_terminal (AttemptRow.attempt <$> rows))
  ∧ Forall
      (λ row,
         AttemptRow.student_name row
         = Entry.name
             (entry_of fromisoformat students (AttemptRow.attempt row)))
      rows.
Proof.
  intros rows students.
  assert (AttemptRow.attempt <$> rows
          = find (attempts_of_quiz quiz_id) attempts_col) as Hrows.
  { unfold rows, get_attempts. rewrite <- list_fmap_compose.
    rewrite <- (list_fmap_id (find _ attempts_col)) at 2.
    by apply list_fmap_ext. }
  split; [done|]. split.
  - destruct (leaderboard_sorted_and_ranked_parts fromisoformat attempts_col
                students quiz_id) as (Hperm & _ & _).
    rewrite Hperm, Hrows. unfold find.
    rewrite list_filter_filter.
    assert (filter (terminal_of_quiz quiz_id) attempts_col
            = filter (λ a, is_terminal a ∧ attempts_of_quiz quiz_id a)
                attempts_col) as ->; [|done].
    apply list_filter_iff. intros a.
    unfold terminal_of_quiz, is_terminal, attempts_of_quiz. tauto.
  - unfold rows, get_attempts. apply Forall_fmap, Forall_forall.
    intros a _. symmetry. apply (get_attempts_name fromisoformat students_col a).
Qed.

(** ** One entry per student *)

Lemma one_attempt_per_pair_tail a attempts_col :
  one_attempt_per_pair (a :: attempts_col) → one_attempt_per_pair attempts_col.
Proof.
  intros Hone i j x y Hi Hj Hu Hq.
  assert (S i = S j) as [= ->]; [|done]. by eapply Hone.
Qed.

Lemma one_attempt_per_pair_students quiz_id attempts_col :
  one_attempt_per_pair attempts_col →
  NoDup (Attempt.student_university_number
           <$> find (terminal_of_quiz quiz_id) attempts_col).
Proof.
  unfold find. induction attempts_col as [|a l IH]; intros Hone.
  - constructor.
  - rewrite filter_cons.
    destruct (decide (terminal_of_quiz quiz_id a)) as [[Hq _]|_];
      [|by eapply IH, one_attempt_per_pair_tail].
    rewrite fmap_cons. constructor; [|by eapply IH, one_attempt_per_pair_tail].
    intros Hin. apply list_elem_of_fmap in Hin as (b & Hu & Hb).
    apply list_elem_of_filter in Hb as [[Hq' _] Hb].
    apply list_elem_of_lookup in Hb as [j Hj].
    assert (0%nat = S j) as Heq; [|done].
    eapply (Hone 0%nat (S j) a b); [done|done|done|congruence].
Qed.

(** On the leaderboards of a store reached from the empty one no student
    appears twice. *)
Theorem reachable_leaderboard_one_entry_per_student fromisoformat attempts_col
    students_col quiz_id :
  steps fromisoformat [] attempts_col →
  NoDup (Entry.university_number
           <$> leaderboard fromisoformat attempts_col students_col quiz_id).
Proof.
  intros Hsteps.
  assert (one_attempt_per_pair attempts_col) as Hone.
  { eapply steps_one_attempt_per_pair; [exact Hsteps|].
    apply one_attempt_per_pair_nil. }
  destruct (leaderboard_sorted_and_ranked_parts fromisoformat attempts_col
              students_col quiz_id) as (Hperm & _ & _).
  assert (Entry.university_number
            <$> leaderboard fromisoformat attempts_col students_col quiz_id
          = Entry.university_number
              <$> (clear_rank
                     <$> leaderboard fromisoformat attempts_col students_col
                           quiz_id)) as ->.
  { rewrite <- list_fmap_compose. by apply list_fmap_ext. }
  rewrite Hperm, <- list_fmap_compose.
  by apply one_attempt_per_pair_students.
Qed.

Lemma reachable_leaderboard_one_entry_per_student_witness :
  NoDup (Entry.university_number
           <$> leaderboard Datetime.fromisoformat_naive (replayed_calls []) []
                 "quiz-1").
Proof.
  exact (reachable_leaderboard_one_entry_per_student
           Datetime.fromisoformat_naive (replayed_calls []) [] "quiz-1"
           (replayed_calls_steps [])).
Defined.
